(** * Pharma-Flow: billing computation and validation of the front end

    A shallow embedding of the event handlers of
    [src/frontend/pages/Pharmacy.tsx] (point-of-sale billing) and of the
    [Inventory] component stored in [src/frontend/pages/ViewSales.tsx]
    (purchase entry, price update), with the properties the specification
    states about them; and, after these, of the other components of the
    front end: the returns, the patient registration and the list of
    sales (ViewSales.tsx), the supplier payments and the stock report
    (src/unnamed), the select with search, the toasts and signing in.

    Conventions of the embedding.
    - A JavaScript [number] is kept as the rational it stands for ([Q]);
      [NaN] is the [None] of an [option]; two rationals are the same
      number when they are [Qeq] ([==]).  The arithmetic comes in two
      layers.  [Binary64] rounds every operation to the nearest binary64
      number, as the code does, and [Pharmacy64] and [Inventory64] are
      the calculations of the billing screen and of the purchase entry
      in that arithmetic: the properties about amounts that are shown,
      compared with a tolerance or stored are stated there.  [Pharmacy]
      and [Inventory] carry the same handlers with exact decimal
      arithmetic; the properties stated there (identifiers, stock checks,
      what is cleared and when, what a posted payload contains) do not
      turn on the rounding.  The infinities are not represented.
    - A JavaScript string is a [string]; its characters stand for code
      units below 256.
    - A React component is a record of its [useState] cells; an event
      handler is a function from the record (and the reply of the server,
      for the asynchronous ones) to the next record and what the handler
      emitted (toast, request payload).  The render that follows a handler
      runs the effect whose dependencies changed. *)

From Stdlib Require Import ZArith NArith QArith Qround Qabs Qminmax Qpower Lqa Lia.
From Stdlib Require Import List Sorted Permutation String Ascii Bool.
From Stdlib Require Import DecimalString DecimalPos DecimalN.
Import ListNotations.

Local Open Scope string_scope.
Local Open Scope Z_scope.

(** ** The JavaScript primitives the handlers use *)

Module JS.

(** Truthiness of a string: the empty string is the only falsy one. *)
Definition truthy (s : string) : bool :=
  match s with
  | EmptyString => false
  | String _ _ => true
  end.

(** [StrWhiteSpaceChar], restricted to code units below 256: TAB, LF, VT,
    FF, CR, SP and NBSP. *)
Definition isWhiteSpace (c : ascii) : bool :=
  let n := N_of_ascii c in
  ((9 <=? n) && (n <=? 13) || (n =? 32) || (n =? 160))%N.

Fixpoint trimStart (s : string) : string :=
  match s with
  | String c r => if isWhiteSpace c then trimStart r else s
  | EmptyString => EmptyString
  end.

Fixpoint rev_append (s acc : string) : string :=
  match s with
  | EmptyString => acc
  | String c r => rev_append r (String c acc)
  end.

Definition rev (s : string) : string := rev_append s EmptyString.

Definition trimEnd (s : string) : string := rev (trimStart (rev s)).

(** [String.prototype.trim]. *)
Definition trim (s : string) : string := trimEnd (trimStart s).

(** Value of a decimal digit, [None] for any other character. *)
Definition decDigit (c : ascii) : option Z :=
  let n := N_of_ascii c in
  if ((48 <=? n) && (n <=? 57))%N then Some (Z.of_N n - 48) else None.

(** Value of a hexadecimal digit, in either case. *)
Definition hexDigit (c : ascii) : option Z :=
  let n := N_of_ascii c in
  if ((48 <=? n) && (n <=? 57))%N then Some (Z.of_N n - 48)
  else if ((65 <=? n) && (n <=? 70))%N then Some (Z.of_N n - 55)
  else if ((97 <=? n) && (n <=? 102))%N then Some (Z.of_N n - 87)
  else None.

(** The longest run of digits at the head of [s]: the value read so far
    (starting from [acc]), how many digits were read, and the rest. *)
Fixpoint readDigits (digit : ascii -> option Z) (radix : Z)
    (s : string) (acc : Z) (n : nat) : Z * nat * string :=
  match s with
  | String c r =>
      match digit c with
      | Some d => readDigits digit radix r (acc * radix + d) (S n)
      | None => (acc, n, s)
      end
  | EmptyString => (acc, n, s)
  end.

(** An optional sign at the head of [s]: [true] for a minus. *)
Definition readSign (s : string) : bool * string :=
  match s with
  | String "-" r => (true, r)
  | String "+" r => (false, r)
  | _ => (false, s)
  end.

(** [parseInt(s)] with no radix argument: leading white space is dropped,
    a sign is read, a [0x] or [0X] prefix selects radix 16, and the longest
    run of digits is the value; [None] ([NaN]) when that run is empty. *)
Definition parseInt (s : string) : option Z :=
  let (neg, s1) := readSign (trimStart s) in
  let '(v, n, _) :=
    match s1 with
    | String "0" (String "x" r) => readDigits hexDigit 16 r 0 O
    | String "0" (String "X" r) => readDigits hexDigit 16 r 0 O
    | _ => readDigits decDigit 10 s1 0 O
    end in
  match n with
  | O => None
  | S _ => Some (if neg then - v else v)
  end.

(** The exponent part of a [StrDecimalLiteral]: [e] or [E], an optional
    sign and at least one digit; an ill-formed exponent is not part of the
    literal and counts as exponent 0. *)
Definition readExponent (s : string) : Z :=
  match s with
  | String c r =>
      if (Ascii.eqb c "e" || Ascii.eqb c "E")%bool then
        let (neg, r1) := readSign r in
        let '(e, n, _) := readDigits decDigit 10 r1 0 O in
        match n with
        | O => 0
        | S _ => if neg then - e else e
        end
      else 0
  | EmptyString => 0
  end.

(** [m * 10 ^ e] as a rational. *)
Definition scale10 (m e : Z) : Q :=
  if e <? 0 then Qmake m (Z.to_pos (10 ^ (- e))) else inject_Z (m * 10 ^ e).

(** [parseFloat(s)]: leading white space is dropped and the longest prefix
    that is a [StrDecimalLiteral] is read ([digits], [digits.], [digits.digits]
    or [.digits], each with an optional exponent); [None] ([NaN]) when there
    is no such prefix.  The literal [Infinity] has no rational value and
    reads as [None] here. *)
Definition parseFloat (s : string) : option Q :=
  let (neg, s1) := readSign (trimStart s) in
  let '(ip, ni, s2) := readDigits decDigit 10 s1 0 O in
  let unsigned :=
    match s2 with
    | String "." r =>
        let '(m, nf, s3) := readDigits decDigit 10 r ip O in
        match ni, nf with
        | O, O => None
        | _, _ => Some (scale10 m (readExponent s3 - Z.of_nat nf))
        end
    | _ =>
        match ni with
        | O => None
        | S _ => Some (scale10 ip (readExponent s2))
        end
    end in
  match unsigned with
  | Some q => Some (if neg then Qopp q else q)
  | None => None
  end.

(** [isNaN] on the result of a parse. *)
Definition isNaN {A : Type} (x : option A) : bool :=
  match x with
  | None => true
  | Some _ => false
  end.

(** [x || 0] on a number: [NaN] and zero are falsy. *)
Definition orZero (x : option Q) : Q :=
  match x with
  | Some q => if Qeq_bool q 0 then 0%Q else q
  | None => 0%Q
  end.

(** [Math.max] and [Math.abs]. *)
Definition Math_max (x y : Q) : Q := Qmax x y.
Definition Math_abs (x : Q) : Q := Qabs x.

(** [x > y] and [x <= y] on numbers. *)
Definition gt (x y : Q) : bool := negb (Qle_bool x y).
Definition le (x y : Q) : bool := Qle_bool x y.

(** Decimal digits of a natural number, most significant first. *)
Definition digitsOf (n : N) : string :=
  NilZero.string_of_uint (N.to_uint n).

(** [n] written with at least two digits. *)
Definition twoDigits (n : N) : string :=
  if (n <? 10)%N then String "0" (digitsOf n) else digitsOf n.

(** The integer [n] for which [n / 100 - x] is as close to zero as
    possible, the larger one when there are two. *)
Definition nearestCent (x : Q) : Z := Qfloor (x * 100 + (1 # 2))%Q.

(** [x.toFixed(2)] for a number below 10^21: the sign, then the nearest
    number of hundredths written with two decimals. *)
Definition toFixed2 (x : Q) : string :=
  let neg := negb (Qle_bool 0 x) in
  let n := Z.to_N (nearestCent (if neg then Qopp x else x)) in
  (if neg then "-" else "") ++
  digitsOf (n / 100) ++ "." ++ twoDigits (n mod 100).

(** [/^\d{10}$/.test(s)]. *)
Fixpoint allDigits (s : string) : bool :=
  match s with
  | EmptyString => true
  | String c r => negb (isNaN (decDigit c)) && allDigits r
  end.

Definition tenDigits (s : string) : bool :=
  (String.length s =? 10)%nat && allDigits s.

End JS.

(** ** Decimal numerals

    What reading a numeral digit by digit amounts to; used to relate
    [toFixed] and [parseFloat]. *)

Module Numeral.

(** The value of the numeral [d] read after the value [acc]: each digit
    multiplies what was read by ten and adds itself. *)
Fixpoint value (d : Decimal.uint) (acc : Z) : Z :=
  match d with
  | Decimal.Nil => acc
  | Decimal.D0 r => value r (acc * 10 + 0)
  | Decimal.D1 r => value r (acc * 10 + 1)
  | Decimal.D2 r => value r (acc * 10 + 2)
  | Decimal.D3 r => value r (acc * 10 + 3)
  | Decimal.D4 r => value r (acc * 10 + 4)
  | Decimal.D5 r => value r (acc * 10 + 5)
  | Decimal.D6 r => value r (acc * 10 + 6)
  | Decimal.D7 r => value r (acc * 10 + 7)
  | Decimal.D8 r => value r (acc * 10 + 8)
  | Decimal.D9 r => value r (acc * 10 + 9)
  end.

(** The string does not start with a decimal digit. *)
Definition stopsDigits (s : string) : Prop :=
  match s with
  | String c _ => JS.decDigit c = None
  | EmptyString => True
  end.

(** The numeral of the two decimals of [toFixed(2)]. *)
Definition twoDigitNumeral (n : N) : Decimal.uint :=
  if (n <? 10)%N then Decimal.D0 (N.to_uint n) else N.to_uint n.

End Numeral.

(** ** Toasts

    [showToast(message, type)] is what a handler emits; a message is kept
    as its template and the values interpolated in it. *)

Inductive ToastType := info | success | warning | error.

Inductive ToastMessage :=
  | SelectMedicineAndQuantity   (* Please select medicine and enter quantity *)
  | MedicineNotFound            (* Medicine not found *)
  | EnterValidQuantity          (* Please enter a valid quantity *)
  | InsufficientStock (available requested : Z)
      (* Insufficient stock! Available: .., Requested: .. *)
  | AllItemsCleared             (* All items cleared *)
  | EnterPatientName            (* Please enter patient name *)
  | AddAtLeastOneMedicine
      (* Please add at least one medicine to the prescription *)
  | SelectPaymentMode           (* Please select a payment mode *)
  | EnterValidPhone
      (* Please enter a valid 10-digit phone number or leave it blank *)
  | SplitMustEqualTotal (entered total : string).
      (* Cash + UPI (..) must equal total .. *)

Definition Toast : Type := ToastMessage * ToastType.

(** ** Pharmacy.tsx: the point-of-sale billing screen *)

Module Pharmacy.

Record Medicine := {
  MId : Z;
  MName : string;
  MRP : Q;
  MCompany : string;
  CurrentStock : Z;
  MType : string;
  BatchNo : option string
}.

Record BillItem := {
  id : Z;
  name : string;
  batch : string;
  qty : Z;
  price : Q;
  duration : string;
  total : Q;
  mid : Z
}.

(** The fields [MRP], [MType] and [BatchNo] of the details, each
    nullable; prefixed here because [Medicine] has fields of these
    names. *)
Record MedicineDetails := {
  dMRP : option Q;
  dMType : option string;
  dBatchNo : option string
}.

Inductive MessageType := msgSuccess | msgError.

(** The text of [submitMessage]: the success template with the invoice id
    and the total the server echoed ([final_amount?.toFixed(2)], absent
    when the server sent none), or an error text. *)
Inductive MessageText :=
  | InvoiceCreated (invoice_id : string) (total : option string)
  | ErrorText (text : string).

Definition SubmitMessage : Type := MessageType * MessageText.

(** The [useState] cells of the component, grouped as the source groups
    them.  The loading flags and the list of today's patients take no part
    in billing and are left out. *)

Record PatientState := {
  selectedPatient : string;
  patientName : string;
  phoneNo : string;
  uhid : string;
  age : string;
  gender : string;
  isNewPatient : bool
}.

Record MedicineState := {
  medicines : list Medicine;
  selectedMedicine : string;
  medicineDetails : option MedicineDetails;
  quantity : string;
  entryDuration : string;   (* the cell [duration] *)
  batchNo : string;
  currentStock : option Z
}.

Record PaymentState := {
  discount : string;
  paymentMode : string;
  cashAmount : string;
  upiAmount : string;
  paymentComments : string
}.

Record State := {
  showClearConfirm : bool;
  patient : PatientState;
  medicine : MedicineState;
  billItems : list BillItem;
  itemCounter : Z;
  payment : PaymentState;
  submitting : bool;
  submitMessage : option SubmitMessage
}.

(** The values the cells are created with. *)
Definition initial : State := {|
  showClearConfirm := false;
  patient := {| selectedPatient := ""; patientName := ""; phoneNo := "";
                uhid := ""; age := ""; gender := ""; isNewPatient := false |};
  medicine := {| medicines := []; selectedMedicine := "";
                 medicineDetails := None; quantity := "";
                 entryDuration := ""; batchNo := "-"; currentStock := None |};
  billItems := [];
  itemCounter := 0;
  payment := {| discount := ""; paymentMode := ""; cashAmount := "";
                upiAmount := ""; paymentComments := "" |};
  submitting := false;
  submitMessage := None
|}.

(** *** State setters *)

Definition setShowClearConfirm (v : bool) (st : State) : State :=
  {| showClearConfirm := v; patient := patient st; medicine := medicine st;
     billItems := billItems st; itemCounter := itemCounter st;
     payment := payment st; submitting := submitting st;
     submitMessage := submitMessage st |}.

Definition setPatient (v : PatientState) (st : State) : State :=
  {| showClearConfirm := showClearConfirm st; patient := v;
     medicine := medicine st; billItems := billItems st;
     itemCounter := itemCounter st; payment := payment st;
     submitting := submitting st; submitMessage := submitMessage st |}.

Definition setMedicine (v : MedicineState) (st : State) : State :=
  {| showClearConfirm := showClearConfirm st; patient := patient st;
     medicine := v; billItems := billItems st;
     itemCounter := itemCounter st; payment := payment st;
     submitting := submitting st; submitMessage := submitMessage st |}.

Definition setBillItems (v : list BillItem) (st : State) : State :=
  {| showClearConfirm := showClearConfirm st; patient := patient st;
     medicine := medicine st; billItems := v;
     itemCounter := itemCounter st; payment := payment st;
     submitting := submitting st; submitMessage := submitMessage st |}.

Definition setItemCounter (v : Z) (st : State) : State :=
  {| showClearConfirm := showClearConfirm st; patient := patient st;
     medicine := medicine st; billItems := billItems st;
     itemCounter := v; payment := payment st;
     submitting := submitting st; submitMessage := submitMessage st |}.

Definition setPayment (v : PaymentState) (st : State) : State :=
  {| showClearConfirm := showClearConfirm st; patient := patient st;
     medicine := medicine st; billItems := billItems st;
     itemCounter := itemCounter st; payment := v;
     submitting := submitting st; submitMessage := submitMessage st |}.

Definition setSubmitting (v : bool) (st : State) : State :=
  {| showClearConfirm := showClearConfirm st; patient := patient st;
     medicine := medicine st; billItems := billItems st;
     itemCounter := itemCounter st; payment := payment st;
     submitting := v; submitMessage := submitMessage st |}.

Definition setSubmitMessage (v : option SubmitMessage) (st : State) : State :=
  {| showClearConfirm := showClearConfirm st; patient := patient st;
     medicine := medicine st; billItems := billItems st;
     itemCounter := itemCounter st; payment := payment st;
     submitting := submitting st; submitMessage := v |}.

Definition setDiscount (v : string) (st : State) : State :=
  let p := payment st in
  setPayment {| discount := v; paymentMode := paymentMode p;
                cashAmount := cashAmount p; upiAmount := upiAmount p;
                paymentComments := paymentComments p |} st.

Definition setPaymentMode (v : string) (st : State) : State :=
  let p := payment st in
  setPayment {| discount := discount p; paymentMode := v;
                cashAmount := cashAmount p; upiAmount := upiAmount p;
                paymentComments := paymentComments p |} st.

Definition setCashAmount (v : string) (st : State) : State :=
  let p := payment st in
  setPayment {| discount := discount p; paymentMode := paymentMode p;
                cashAmount := v; upiAmount := upiAmount p;
                paymentComments := paymentComments p |} st.

Definition setUpiAmount (v : string) (st : State) : State :=
  let p := payment st in
  setPayment {| discount := discount p; paymentMode := paymentMode p;
                cashAmount := cashAmount p; upiAmount := v;
                paymentComments := paymentComments p |} st.

Definition setPaymentComments (v : string) (st : State) : State :=
  let p := payment st in
  setPayment {| discount := discount p; paymentMode := paymentMode p;
                cashAmount := cashAmount p; upiAmount := upiAmount p;
                paymentComments := v |} st.

(** *** Calculations (lines 91 to 95) *)

Definition grandTotal (st : State) : Q :=
  fold_left (fun sum item => (sum + total item)%Q) (billItems st) 0%Q.

Definition discountValue (st : State) : Q :=
  JS.orZero (JS.parseFloat (discount (payment st))).

(** Negative discount adds to total, positive subtracts. *)
Definition finalAmount (st : State) : Q :=
  JS.Math_max (grandTotal st - discountValue st) 0.

(** *** Adding and removing lines (lines 261 to 324) *)

(** [x || '-'] on a string. *)
Definition orDash (x : string) : string :=
  if JS.truthy x then x else "-".

(** The line built for medicine [med] and quantity [q]. *)
Definition newItem (st : State) (med : Medicine) (q : Z) : BillItem :=
  {| id := itemCounter st + 1;
     name := MName med;
     batch := orDash (batchNo (medicine st));
     qty := q;
     price := MRP med;
     duration := orDash (entryDuration (medicine st));
     total := (MRP med * inject_Z q)%Q;
     mid := MId med |}.

(** The state after a line was accepted: the line is appended, the
    counter moves on and the entry inputs are cleared. *)
Definition accept (st : State) (item : BillItem) : State :=
  setMedicine {| medicines := medicines (medicine st);
                 selectedMedicine := "";
                 medicineDetails := None;
                 quantity := "";
                 entryDuration := "";
                 batchNo := "-";
                 currentStock := None |}
    (setItemCounter (itemCounter st + 1)
       (setBillItems (billItems st ++ [item]) st)).

(** Add medicine to bill. *)
Definition handleAddMedicine (st : State) : State * option Toast :=
  let m := medicine st in
  if negb (JS.truthy (selectedMedicine m)) || negb (JS.truthy (quantity m))
  then (st, Some (SelectMedicineAndQuantity, warning))
  else
    match find (fun x => String.eqb (MName x) (selectedMedicine m))
               (medicines m) with
    | None => (st, Some (MedicineNotFound, error))
    | Some med =>
        match JS.parseInt (quantity m) with
        | None => (st, Some (EnterValidQuantity, warning))
        | Some q =>
            if q <=? 0
            then (st, Some (EnterValidQuantity, warning))
            else if q >? CurrentStock med
            then (st, Some (InsufficientStock (CurrentStock med) q, error))
            else (accept st (newItem st med q), None)
        end
    end.

(** Remove medicine from bill. *)
Definition handleRemoveMedicine (i : Z) (st : State) : State :=
  setBillItems (filter (fun item => negb (id item =? i)) (billItems st)) st.

(** Clear all items: asks for confirmation first. *)
Definition handleClearAll (st : State) : State :=
  match billItems st with
  | [] => st
  | _ :: _ => setShowClearConfirm true st
  end.

Definition confirmClearAll (st : State) : State * option Toast :=
  (setShowClearConfirm false (setBillItems [] st),
   Some (AllItemsCleared, info)).

(** *** The payment-mode effect (lines 326 to 339)

    Reset amounts when payment mode changes. *)
Definition paymentModeEffect (st : State) : State :=
  let mode := paymentMode (payment st) in
  if String.eqb mode "Cash" then
    setUpiAmount "0.00" (setCashAmount (JS.toFixed2 (finalAmount st)) st)
  else if String.eqb mode "UPI" then
    setCashAmount "0.00" (setUpiAmount (JS.toFixed2 (finalAmount st)) st)
  else if String.eqb mode "Both" then
    setUpiAmount "" (setCashAmount "" st)
  else st.

(** The dependency array [[paymentMode, finalAmount]]: the effect runs
    after a render in which one of the two differs from the render
    before. *)
Definition depsChanged (before after : State) : bool :=
  negb (String.eqb (paymentMode (payment before))
                   (paymentMode (payment after)))
  || negb (Qeq_bool (finalAmount before) (finalAmount after)).

(** The render that follows a handler: the effect runs when its
    dependencies changed.  The effect writes the two amount cells only, so
    the render it causes leaves the dependencies as they are. *)
Definition render (before after : State) : State :=
  if depsChanged before after then paymentModeEffect after else after.

(** *** Clearing the form (lines 434 to 455) *)

Definition handleClearForm (st : State) : State :=
  {| showClearConfirm := showClearConfirm st;
     patient := {| selectedPatient := ""; patientName := ""; phoneNo := "";
                   uhid := ""; age := ""; gender := "";
                   isNewPatient := false |};
     medicine := {| medicines := medicines (medicine st);
                    selectedMedicine := "";
                    medicineDetails := None;
                    quantity := "";
                    entryDuration := "";
                    batchNo := "-";
                    currentStock := None |};
     billItems := [];
     itemCounter := itemCounter st;
     payment := {| discount := ""; paymentMode := ""; cashAmount := "";
                   upiAmount := ""; paymentComments := "" |};
     submitting := submitting st;
     submitMessage := submitMessage st |}.

(** *** Submitting the invoice (lines 341 to 432) *)

Record InvoiceLine := {
  medicine_name : string;
  batch_no : string;
  line_quantity : Z;
  line_price : Q;
  line_duration : string
}.

Record InvoiceData := {
  patient_name : string;
  phone_no : string;
  inv_uhid : string;
  inv_age : string;
  inv_gender : string;
  inv_medicines : list InvoiceLine;
  inv_discount : Q;
  payment_mode : string;
  cash_amount : Q;
  upi_amount : Q;
  comments : string
}.

(** What [api.post('/pharmacy/api/invoice', ..)] comes back with: the
    promise is rejected (transport failure or an error status; the message
    of the error when it is an [Error]), or resolved with the body of the
    response. *)
Record InvoiceResponse := {
  resp_success : bool;
  resp_invoice_id : string;
  resp_final_amount : option Q;
  resp_error : string
}.

Inductive Reply :=
  | Rejected (message : option string)
  | Resolved (data : InvoiceResponse).

(** The checks made before anything is sent, in the order of the source:
    the toast of the first one that fails. *)
Definition validate (st : State) : option Toast :=
  let p := patient st in
  let pay := payment st in
  if negb (JS.truthy (JS.trim (patientName p)))
  then Some (EnterPatientName, warning)
  else if (List.length (billItems st) =? 0)%nat
  then Some (AddAtLeastOneMedicine, warning)
  else if negb (JS.truthy (paymentMode pay))
  then Some (SelectPaymentMode, warning)
  else if isNewPatient p && JS.truthy (phoneNo p)
          && negb (JS.tenDigits (phoneNo p))
  then Some (EnterValidPhone, warning)
  else if String.eqb (paymentMode pay) "Both"
          && (let cash := JS.orZero (JS.parseFloat (cashAmount pay)) in
              let upi := JS.orZero (JS.parseFloat (upiAmount pay)) in
              JS.gt (JS.Math_abs (cash + upi - finalAmount st)) (1 # 100))
  then Some (SplitMustEqualTotal
               (JS.toFixed2
                  (JS.orZero (JS.parseFloat (cashAmount pay))
                   + JS.orZero (JS.parseFloat (upiAmount pay))))
               (JS.toFixed2 (finalAmount st)),
             error)
  else None.

Definition invoiceData (st : State) : InvoiceData :=
  let p := patient st in
  let pay := payment st in
  let mode := paymentMode pay in
  {| patient_name := patientName p;
     phone_no := phoneNo p;
     inv_uhid := uhid p;
     inv_age := age p;
     inv_gender := gender p;
     inv_medicines :=
       map (fun item => {| medicine_name := name item;
                           batch_no := batch item;
                           line_quantity := qty item;
                           line_price := price item;
                           line_duration := duration item |})
           (billItems st);
     inv_discount := discountValue st;
     payment_mode := mode;
     cash_amount :=
       if String.eqb mode "Cash" then finalAmount st
       else if String.eqb mode "Both"
       then JS.orZero (JS.parseFloat (cashAmount pay)) else 0%Q;
     upi_amount :=
       if String.eqb mode "UPI" then finalAmount st
       else if String.eqb mode "Both"
       then JS.orZero (JS.parseFloat (upiAmount pay)) else 0%Q;
     comments := paymentComments pay |}.

(** [x || 'Failed to create invoice']. *)
Definition orFailed (x : string) : string :=
  if JS.truthy x then x else "Failed to create invoice".

(** The first half of the handler, up to the [await]: the request is on
    its way. *)
Definition beginSubmit (st : State) : State :=
  setSubmitMessage None (setSubmitting true st).

(** The second half, run on the cells as they are when the reply comes:
    the [try] block after the [await], the [catch] block and the
    [finally] block. *)
Definition finishSubmit (r : Reply) (st : State) : State :=
  let st' :=
    match r with
    | Resolved d =>
        if resp_success d then
          handleClearForm
            (setSubmitMessage
               (Some (msgSuccess,
                      InvoiceCreated (resp_invoice_id d)
                        (option_map JS.toFixed2 (resp_final_amount d))))
               st)
        else
          setSubmitMessage
            (Some (msgError, ErrorText (orFailed (resp_error d)))) st
    | Rejected (Some msg) =>
        setSubmitMessage (Some (msgError, ErrorText msg)) st
    | Rejected None =>
        setSubmitMessage
          (Some (msgError, ErrorText "Failed to create invoice")) st
    end in
  setSubmitting false st'.

(** What the handler leaves behind when nothing else happens while the
    request is on its way. *)
Definition settle (st : State) (r : Reply) : State :=
  finishSubmit r (beginSubmit st).

(** Submit prescription: the state after the handler, the toast it showed
    and the payload it posted, if any. *)
Definition handleSubmit (st : State) (r : Reply)
  : State * option Toast * option InvoiceData :=
  match validate st with
  | Some t => (st, Some t, None)
  | None => (settle st r, None, Some (invoiceData st))
  end.

End Pharmacy.

(** *** Events of the billing screen

    What the operator (or a reply of the server) can do to the screen.
    The cells of the patient block and of the medicine-entry block are
    written by handlers that never touch the bill or the payment cells
    (patient selection, medicine selection, the list of medicines arriving,
    typing a quantity): [PatientEdited] and [MedicineEdited] stand for any
    of them.  A submission is two events, the click and the arrival of the
    reply, since the operator can act in between. *)

Module PharmacyRun.
Import Pharmacy.

Inductive Event :=
  | PatientEdited (p : PatientState)
  | MedicineEdited (m : MedicineState)
  | AddMedicine
  | RemoveMedicine (i : Z)
  | ClearAll
  | ConfirmClearAll
  | CancelClearAll
  | DiscountTyped (v : string)
  | PaymentModeChosen (v : string)
  | CashTyped (v : string)
  | UpiTyped (v : string)
  | CommentsTyped (v : string)
  | ClearForm
  | SubmitClicked
  | ReplyArrived (r : Reply).

(** The handler of an event, before the render that follows it. *)
Definition handle (e : Event) (st : State) : State :=
  match e with
  | PatientEdited p => setPatient p st
  | MedicineEdited m => setMedicine m st
  | AddMedicine => fst (handleAddMedicine st)
  | RemoveMedicine i => handleRemoveMedicine i st
  | ClearAll => handleClearAll st
  | ConfirmClearAll => fst (confirmClearAll st)
  | CancelClearAll => setShowClearConfirm false st
  | DiscountTyped v => setDiscount v st
  | PaymentModeChosen v => setPaymentMode v st
  | CashTyped v => setCashAmount v st
  | UpiTyped v => setUpiAmount v st
  | CommentsTyped v => setPaymentComments v st
  | ClearForm => handleClearForm st
  | SubmitClicked =>
      match validate st with
      | Some _ => st
      | None => beginSubmit st
      end
  | ReplyArrived r => finishSubmit r st
  end.

Definition dispatch (e : Event) (st : State) : State :=
  render st (handle e st).

Definition run (es : list Event) (st : State) : State :=
  fold_left (fun s e => dispatch e s) es st.

(** The states the screen can be in. *)
Inductive reachable : State -> Prop :=
  | reach_initial : reachable initial
  | reach_dispatch e st : reachable st -> reachable (dispatch e st).

(** The id an event hands out: the id of the line an accepted
    [AddMedicine] appends. *)
Definition issued (e : Event) (st : State) : option Z :=
  match e with
  | AddMedicine =>
      match snd (handleAddMedicine st) with
      | None => Some (itemCounter st + 1)
      | Some _ => None
      end
  | _ => None
  end.

(** All the ids handed out along a run, oldest first. *)
Fixpoint idsIssued (es : list Event) (st : State) : list Z :=
  match es with
  | [] => []
  | e :: es' =>
      match issued e st with
      | Some i => i :: idsIssued es' (dispatch e st)
      | None => idsIssued es' (dispatch e st)
      end
  end.

(** What an event can do to the pair of the lines and the counter. *)
Inductive billChange (st st' : State) : Prop :=
  | bill_kept :
      billItems st' = billItems st -> itemCounter st' = itemCounter st ->
      billChange st st'
  | bill_appended med q :
      issued AddMedicine st = Some (itemCounter st + 1) ->
      billItems st' = (billItems st ++ [newItem st med q])%list ->
      itemCounter st' = (itemCounter st + 1) ->
      billChange st st'
  | bill_filtered i :
      billItems st' = filter (fun item => negb (id item =? i)) (billItems st) ->
      itemCounter st' = itemCounter st ->
      billChange st st'
  | bill_emptied :
      billItems st' = [] -> itemCounter st' = itemCounter st ->
      billChange st st'.

End PharmacyRun.

(** ** The purchase-entry screen ([Inventory], in ViewSales.tsx) *)

Module Inventory.

Record BillItem := {
  id : Z;
  item_name : string;
  quantity : option Z;      (* [parseInt(quantity)], which may be [NaN] *)
  batch_no : string;
  expiry_date : string;
  price : Q;
  difference : Q
}.

(** The details of a medicine as the server sent them; a number the
    server left out, sent as [null] or that is not a number is [None]. *)
Record MedicineDetails := {
  MId : Z;
  MName : string;
  MRP : option Q;
  PTR : option Q;
  MCompany : string;
  MType : string;
  CurrentStock : Z
}.

Inductive MessageType := msgSuccess | msgError.

Inductive MessageText :=
  | SelectMedicine              (* Please select a medicine *)
  | EnterValidQuantity          (* Please enter a valid quantity *)
  | PriceUpdated (medicine : string).   (* Price updated for .. *)

Definition Message : Type := MessageType * MessageText.

(** The cells the two handlers read or write: the item entry, the list of
    items and the price-update dialog.  The header of the bill (date,
    number, agency, amounts) is left out. *)
Record State := {
  selectedMedicine : string;
  medicineDetails : option MedicineDetails;
  entryQuantity : string;   (* the cell [quantity] *)
  batchNo : string;
  expiryDate : string;
  purchasePrice : string;
  items : list BillItem;
  itemCounter : Z;
  message : option Message;
  showUpdatePriceModal : bool;
  showPriceUpdateConfirm : bool;
  updatingPrice : bool;
  updateMedicineName : string;
  newMRP : string;
  newPTR : string
}.

Definition setMessage (v : option Message) (st : State) : State :=
  {| selectedMedicine := selectedMedicine st;
     medicineDetails := medicineDetails st;
     entryQuantity := entryQuantity st; batchNo := batchNo st;
     expiryDate := expiryDate st; purchasePrice := purchasePrice st;
     items := items st; itemCounter := itemCounter st;
     message := v;
     showUpdatePriceModal := showUpdatePriceModal st;
     showPriceUpdateConfirm := showPriceUpdateConfirm st;
     updatingPrice := updatingPrice st;
     updateMedicineName := updateMedicineName st;
     newMRP := newMRP st; newPTR := newPTR st |}.

Definition setShowUpdatePriceModal (v : bool) (st : State) : State :=
  {| selectedMedicine := selectedMedicine st;
     medicineDetails := medicineDetails st;
     entryQuantity := entryQuantity st; batchNo := batchNo st;
     expiryDate := expiryDate st; purchasePrice := purchasePrice st;
     items := items st; itemCounter := itemCounter st;
     message := message st;
     showUpdatePriceModal := v;
     showPriceUpdateConfirm := showPriceUpdateConfirm st;
     updatingPrice := updatingPrice st;
     updateMedicineName := updateMedicineName st;
     newMRP := newMRP st; newPTR := newPTR st |}.

Definition setShowPriceUpdateConfirm (v : bool) (st : State) : State :=
  {| selectedMedicine := selectedMedicine st;
     medicineDetails := medicineDetails st;
     entryQuantity := entryQuantity st; batchNo := batchNo st;
     expiryDate := expiryDate st; purchasePrice := purchasePrice st;
     items := items st; itemCounter := itemCounter st;
     message := message st;
     showUpdatePriceModal := showUpdatePriceModal st;
     showPriceUpdateConfirm := v;
     updatingPrice := updatingPrice st;
     updateMedicineName := updateMedicineName st;
     newMRP := newMRP st; newPTR := newPTR st |}.

Definition setUpdatingPrice (v : bool) (st : State) : State :=
  {| selectedMedicine := selectedMedicine st;
     medicineDetails := medicineDetails st;
     entryQuantity := entryQuantity st; batchNo := batchNo st;
     expiryDate := expiryDate st; purchasePrice := purchasePrice st;
     items := items st; itemCounter := itemCounter st;
     message := message st;
     showUpdatePriceModal := showUpdatePriceModal st;
     showPriceUpdateConfirm := showPriceUpdateConfirm st;
     updatingPrice := v;
     updateMedicineName := updateMedicineName st;
     newMRP := newMRP st; newPTR := newPTR st |}.

(** [medicineDetails?.MRP || 0]. *)
Definition catalogMRP (st : State) : Q :=
  match medicineDetails st with
  | Some d => JS.orZero (MRP d)
  | None => 0%Q
  end.

(** [parseFloat(purchasePrice) || 0]. *)
Definition unitPrice (st : State) : Q :=
  JS.orZero (JS.parseFloat (purchasePrice st)).

(** [!quantity || parseInt(quantity) <= 0]; a [NaN] is not [<= 0]. *)
Definition quantityRefused (q : string) : bool :=
  negb (JS.truthy q)
  || match JS.parseInt q with
     | Some n => n <=? 0
     | None => false
     end.

(** Add item to list (lines 1057 to 1093). *)
Definition handleAddItem (st : State) : State :=
  let refuse (t : MessageText) := setMessage (Some (msgError, t)) st in
  if negb (JS.truthy (selectedMedicine st)) then refuse SelectMedicine
  else if quantityRefused (entryQuantity st) then refuse EnterValidQuantity
  else
    let price := unitPrice st in
    let mrp := catalogMRP st in
    let difference := (mrp - price)%Q in
    let newItem := {|
      id := itemCounter st + 1;
      item_name := selectedMedicine st;
      quantity := JS.parseInt (entryQuantity st);
      batch_no := batchNo st;
      expiry_date := expiryDate st;
      price := price;
      difference := difference
    |} in
    {| selectedMedicine := "";
       medicineDetails := None;
       entryQuantity := "";
       batchNo := "";
       expiryDate := "";
       purchasePrice := "";
       items := items st ++ [newItem];
       itemCounter := itemCounter st + 1;
       message := None;
       showUpdatePriceModal := showUpdatePriceModal st;
       showPriceUpdateConfirm := showPriceUpdateConfirm st;
       updatingPrice := updatingPrice st;
       updateMedicineName := updateMedicineName st;
       newMRP := newMRP st;
       newPTR := newPTR st |}.

(** What [handleUpdatePrice] does to the world besides its state: the
    form it posts (the two old prices, which are renderings of server
    numbers, are left out), the error it logs and the refresh of the list
    of medicines it starts. *)
Record PriceForm := {
  form_medicine_name : string;
  form_new_mrp : string;
  form_new_ptr : string
}.

Inductive Effect :=
  | PostUpdatePrice (f : PriceForm)
  | ConsoleError
  | FetchMedicines.

(** How [api.post('/inventory/update-price', ..)] ends. *)
Inductive Outcome := Fulfilled | Thrown.

(** Update price after confirmation (lines 1271 to 1301): the [try]
    block when the request is fulfilled, the [catch] block when it
    throws, and the [finally] block after either. *)
Definition handleUpdatePrice (st : State) (o : Outcome)
  : State * list Effect :=
  let st1 := setUpdatingPrice true (setShowPriceUpdateConfirm false st) in
  let form := {| form_medicine_name := updateMedicineName st;
                 form_new_mrp := newMRP st;
                 form_new_ptr := newPTR st |} in
  let (st2, effects) :=
    match o with
    | Fulfilled =>
        (setShowUpdatePriceModal false
           (setMessage
              (Some (msgSuccess, PriceUpdated (updateMedicineName st)))
              st1),
         [PostUpdatePrice form; FetchMedicines])
    | Thrown =>
        (* The backend redirects, so we'll check for success based on no
           error *)
        (setShowUpdatePriceModal false
           (setMessage
              (Some (msgSuccess, PriceUpdated (updateMedicineName st)))
              st1),
         [PostUpdatePrice form; ConsoleError; FetchMedicines])
    end in
  (setUpdatingPrice false st2, effects).

(** The same entry with other details of the medicine and another
    purchase price typed. *)
Definition withPricing (d : option MedicineDetails) (p : string)
    (st : State) : State :=
  {| selectedMedicine := selectedMedicine st;
     medicineDetails := d;
     entryQuantity := entryQuantity st; batchNo := batchNo st;
     expiryDate := expiryDate st; purchasePrice := p;
     items := items st; itemCounter := itemCounter st;
     message := message st;
     showUpdatePriceModal := showUpdatePriceModal st;
     showPriceUpdateConfirm := showPriceUpdateConfirm st;
     updatingPrice := updatingPrice st;
     updateMedicineName := updateMedicineName st;
     newMRP := newMRP st; newPTR := newPTR st |}.

(** An entry of [q] units of Paracetamol bought at [p], with catalogue
    price [mrp]. *)
Definition entry (q p : string) (mrp : option Q) : State :=
  {| selectedMedicine := "Paracetamol";
     medicineDetails :=
       Some {| MId := 1; MName := "Paracetamol"; MRP := mrp; PTR := None;
               MCompany := "Acme"; MType := "Tablets"; CurrentStock := 5 |};
     entryQuantity := q; batchNo := "B1"; expiryDate := "2027-01-01";
     purchasePrice := p;
     items := []; itemCounter := 0; message := None;
     showUpdatePriceModal := true; showPriceUpdateConfirm := true;
     updatingPrice := false; updateMedicineName := "Paracetamol";
     newMRP := "12"; newPTR := "9" |}.

End Inventory.

(** ** The quantities the specification names *)

Module Spec.
Import Pharmacy.

(** [lineTotal(item) = item.quantity * item.unitPrice]. *)
Definition lineTotal (item : BillItem) : Q :=
  (inject_Z (qty item) * price item)%Q.

(** The subtotal: the sum of [lineTotal] over all lines. *)
Fixpoint subtotal (L : list BillItem) : Q :=
  match L with
  | [] => 0%Q
  | item :: rest => (lineTotal item + subtotal rest)%Q
  end.

(** The stored total of a line agrees with its quantity and price. *)
Definition lineConsistent (item : BillItem) : Prop :=
  total item == lineTotal item.

(** The ids on the screen grow along the list and none is beyond the
    counter. *)
Definition idsInOrder (st : State) : Prop :=
  StronglySorted Z.lt (map id (billItems st))
  /\ Forall (fun item => id item <= itemCounter st) (billItems st).

(** The in-progress bill: lines, discount, payment mode and the two
    amounts. *)
Definition draft (st : State)
  : list BillItem * string * string * string * string :=
  (billItems st, discount (payment st), paymentMode (payment st),
   cashAmount (payment st), upiAmount (payment st)).

Definition emptyDraft : list BillItem * string * string * string * string :=
  ([], "", "", "", "").

(** The numbers read from the two amount cells at submission. *)
Definition cashEntered (st : State) : Q :=
  JS.orZero (JS.parseFloat (cashAmount (payment st))).

Definition upiEntered (st : State) : Q :=
  JS.orZero (JS.parseFloat (upiAmount (payment st))).

(** The checks of [handleSubmit] that are not about the payment pass:
    a patient name, at least one line, and a phone number that is blank or
    ten digits for a new patient. *)
Definition otherChecksPass (st : State) : Prop :=
  JS.truthy (JS.trim (patientName (patient st))) = true
  /\ billItems st <> []
  /\ isNewPatient (patient st) && JS.truthy (phoneNo (patient st))
     && negb (JS.tenDigits (phoneNo (patient st))) = false.


(** The server confirmed the invoice. *)
Definition succeeded (r : Reply) : bool :=
  match r with
  | Resolved d => resp_success d
  | Rejected _ => false
  end.

End Spec.

(** ** Sample data *)

Module Sample.
Import Pharmacy PharmacyRun.

Definition paracetamol : Medicine :=
  {| MId := 1; MName := "Paracetamol"; MRP := 10; MCompany := "Acme";
     CurrentStock := 5; MType := "Tablets"; BatchNo := None |}.

Definition amoxicillin : Medicine :=
  {| MId := 2; MName := "Amoxicillin"; MRP := 15; MCompany := "Acme";
     CurrentStock := 20; MType := "Capsules"; BatchNo := Some "B7" |}.

Definition cetirizine : Medicine :=
  {| MId := 3; MName := "Cetirizine"; MRP := 2.5; MCompany := "Acme";
     CurrentStock := 8; MType := "Tablets"; BatchNo := None |}.

Definition catalogue : list Medicine := [paracetamol; amoxicillin; cetirizine].

(** The operator picks medicine [n] and types quantity [q]. *)
Definition pick (n q : string) : Event :=
  MedicineEdited
    {| medicines := catalogue; selectedMedicine := n;
       medicineDetails := None; quantity := q;
       entryDuration := ""; batchNo := "-";
       currentStock :=
         option_map CurrentStock
           (find (fun m => String.eqb (MName m) n) catalogue) |}.

Definition named (n : string) : Event :=
  PatientEdited {| selectedPatient := n; patientName := n; phoneNo := "";
                   uhid := "U1"; age := ""; gender := "";
                   isNewPatient := false |}.

(** Two lines, a discount of 5.00. *)
Definition twoLines : State :=
  run [named "Asha"; pick "Paracetamol" "2"; AddMedicine;
       pick "Amoxicillin" "3"; AddMedicine; DiscountTyped "5.00"] initial.

(** Three lines, the second removed. *)
Definition threeLinesOneRemoved : list Event :=
  [pick "Paracetamol" "2"; AddMedicine; pick "Amoxicillin" "3"; AddMedicine;
   pick "Cetirizine" "4"; AddMedicine; RemoveMedicine 2].

(** The two lines with payment mode Both and the amounts typed. *)
Definition split (cash upi : string) : State :=
  run [PaymentModeChosen "Both"; CashTyped cash; UpiTyped upi] twoLines.

(** A fractional quantity typed for a listed medicine. *)
Definition fractional : State :=
  run [pick "Paracetamol" "2.5"] initial.

Definition confirmed : Reply :=
  Resolved {| resp_success := true; resp_invoice_id := "INV1";
              resp_final_amount := Some 60%Q; resp_error := "" |}.

Definition refused : Reply :=
  Resolved {| resp_success := false; resp_invoice_id := "";
              resp_final_amount := None; resp_error := "Out of stock" |}.

(** Paracetamol (5 in stock) picked with quantity [q] typed. *)
Definition asking (q : string) : State :=
  run [pick "Paracetamol" q] initial.

End Sample.

(** ** The billing screen as the operator meets it *)

Module PharmacyScreen.
Import Pharmacy PharmacyRun.

(** The controls the screen offers: the two amount inputs are rendered
    only while the payment mode is Both (lines 760 to 781); every other
    control is always there. *)
Definition offered (e : Event) (st : State) : bool :=
  match e with
  | CashTyped _ | UpiTyped _ => String.eqb (paymentMode (payment st)) "Both"
  | _ => true
  end.


(** The quantity on the bill for the medicine with id [m]. *)
Definition quantityOf (m : Z) (L : list BillItem) : Z :=
  fold_right (fun item s => if mid item =? m then qty item + s else s) 0 L.

End PharmacyScreen.

(** ** The returns screen ([Returns], in ViewSales.tsx) *)

Module Returns.

Inductive Status := pending | approved | rejected.

(** The two decisions [handleUpdateStatus] takes. *)
Inductive Decision := approve | reject.

Definition statusOf (d : Decision) : Status :=
  match d with
  | approve => approved
  | reject => rejected
  end.

Definition Status_eqb (a b : Status) : bool :=
  match a, b with
  | pending, pending | approved, approved | rejected, rejected => true
  | _, _ => false
  end.

Module Item.

Record ReturnItem := {
  id : Z;
  medicineName : string;
  batchNo : string;
  quantity : option Z;      (* [parseInt(quantity)], which may be [NaN] *)
  reason : string;
  originalInvoice : string;
  returnDate : string;
  status : Status
}.

(** [{ ...r, status }]. *)
Definition withStatus (s : Status) (r : ReturnItem) : ReturnItem :=
  {| id := id r; medicineName := medicineName r; batchNo := batchNo r;
     quantity := quantity r; reason := reason r;
     originalInvoice := originalInvoice r; returnDate := returnDate r;
     status := s |}.

End Item.

Definition ReturnItem : Type := Item.ReturnItem.

Record DeleteConfirm := {
  isOpen : bool;
  itemId : option Z
}.

Record Form := {
  invoiceId : string;
  medicineName : string;
  batchNo : string;
  quantity : string;
  reason : string;
  returnType : string
}.

Inductive MessageType := msgSuccess | msgError.

Inductive MessageText :=
  | FillRequired      (* Please fill all required fields *)
  | ReturnAdded       (* Return request added successfully *)
  | ReturnDeleted.    (* Return request deleted *)

(** The cells of the component; [isSubmitting] is never written and is
    left out. *)
Record State := {
  deleteConfirm : DeleteConfirm;
  form : Form;
  returns : list ReturnItem;
  message : option (MessageType * MessageText);
  itemCounter : Z
}.

(** The values the cells are created with: two sample returns and the
    counter at 2. *)
Definition initial : State := {|
  deleteConfirm := {| isOpen := false; itemId := None |};
  form := {| invoiceId := ""; medicineName := ""; batchNo := "";
             quantity := ""; reason := ""; returnType := "" |};
  returns :=
    [ {| Item.id := 1; Item.medicineName := "Paracetamol 500mg";
         Item.batchNo := "B2024-001"; Item.quantity := Some 5;
         Item.reason := "Expired"; Item.originalInvoice := "PM2534701";
         Item.returnDate := "2025-12-13"; Item.status := pending |};
      {| Item.id := 2; Item.medicineName := "Amoxicillin 250mg";
         Item.batchNo := "A2024-015"; Item.quantity := Some 10;
         Item.reason := "Damaged packaging";
         Item.originalInvoice := "PM2534702";
         Item.returnDate := "2025-12-12"; Item.status := approved |} ];
  message := None;
  itemCounter := 2
|}.

(** [x || '-'] and [x || 'N/A']. *)
Definition orElse (x fallback : string) : string :=
  if JS.truthy x then x else fallback.

(** [!medicineName || !quantity || !reason]. *)
Definition incomplete (f : Form) : bool :=
  negb (JS.truthy (medicineName f)) || negb (JS.truthy (quantity f))
  || negb (JS.truthy (reason f)).

(** Add return item; [today] is the date of the day
    ([new Date().toISOString().split('T')[0]]). *)
Definition handleAddReturn (today : string) (st : State) : State :=
  let f := form st in
  if incomplete f
  then {| deleteConfirm := deleteConfirm st; form := f;
          returns := returns st;
          message := Some (msgError, FillRequired);
          itemCounter := itemCounter st |}
  else
    let newReturn := {|
      Item.id := itemCounter st + 1;
      Item.medicineName := medicineName f;
      Item.batchNo := orElse (batchNo f) "-";
      Item.quantity := JS.parseInt (quantity f);
      Item.reason := reason f;
      Item.originalInvoice := orElse (invoiceId f) "N/A";
      Item.returnDate := today;
      Item.status := pending
    |} in
    {| deleteConfirm := deleteConfirm st;
       form := {| invoiceId := ""; medicineName := ""; batchNo := "";
                  quantity := ""; reason := ""; returnType := "" |};
       returns := newReturn :: returns st;
       message := Some (msgSuccess, ReturnAdded);
       itemCounter := itemCounter st + 1 |}.

(** Update return status. *)
Definition handleUpdateStatus (i : Z) (d : Decision) (st : State) : State :=
  {| deleteConfirm := deleteConfirm st; form := form st;
     returns :=
       map (fun r => if Item.id r =? i then Item.withStatus (statusOf d) r
                     else r)
           (returns st);
     message := message st;
     itemCounter := itemCounter st |}.

(** Request delete confirmation. *)
Definition requestDelete (i : Z) (st : State) : State :=
  {| deleteConfirm := {| isOpen := true; itemId := Some i |};
     form := form st; returns := returns st; message := message st;
     itemCounter := itemCounter st |}.

(** Delete return after confirmation. *)
Definition handleDelete (st : State) : State :=
  match itemId (deleteConfirm st) with
  | Some i =>
      {| deleteConfirm := {| isOpen := false; itemId := None |};
         form := form st;
         returns := filter (fun r => negb (Item.id r =? i)) (returns st);
         message := Some (msgSuccess, ReturnDeleted);
         itemCounter := itemCounter st |}
  | None =>
      {| deleteConfirm := {| isOpen := false; itemId := None |};
         form := form st; returns := returns st; message := message st;
         itemCounter := itemCounter st |}
  end.

(** The [onClose] of the dialog. *)
Definition closeDelete (st : State) : State :=
  {| deleteConfirm := {| isOpen := false; itemId := None |};
     form := form st; returns := returns st; message := message st;
     itemCounter := itemCounter st |}.

Definition setForm (f : Form) (st : State) : State :=
  {| deleteConfirm := deleteConfirm st; form := f; returns := returns st;
     message := message st; itemCounter := itemCounter st |}.

(** Stats. *)
Definition countStatus (s : Status) (l : list ReturnItem) : nat :=
  List.length (filter (fun r => Status_eqb (Item.status r) s) l).

Definition pendingCount (st : State) : nat := countStatus pending (returns st).
Definition approvedCount (st : State) : nat :=
  countStatus approved (returns st).

(** *** Events of the returns screen *)

Inductive Event :=
  | FormEdited (f : Form)
  | AddReturn (today : string)
  | UpdateStatus (i : Z) (d : Decision)
  | RequestDelete (i : Z)
  | ConfirmDelete
  | CancelDelete.

Definition dispatch (e : Event) (st : State) : State :=
  match e with
  | FormEdited f => setForm f st
  | AddReturn today => handleAddReturn today st
  | UpdateStatus i d => handleUpdateStatus i d st
  | RequestDelete i => requestDelete i st
  | ConfirmDelete => handleDelete st
  | CancelDelete => closeDelete st
  end.

(** The buttons a row shows: Approve and Reject only while the return is
    pending (lines 2165 to 2182), Delete always; the dialog buttons only
    while the dialog is open. *)
Definition offered (e : Event) (st : State) : bool :=
  match e with
  | UpdateStatus i _ =>
      existsb (fun r => (Item.id r =? i)
                        && Status_eqb (Item.status r) pending)
              (returns st)
  | RequestDelete i => existsb (fun r => Item.id r =? i) (returns st)
  | ConfirmDelete | CancelDelete => isOpen (deleteConfirm st)
  | _ => true
  end.

Inductive reachable : State -> Prop :=
  | reach_initial : reachable initial
  | reach_dispatch e st : reachable st -> reachable (dispatch e st).

Inductive onScreen : State -> Prop :=
  | screen_initial : onScreen initial
  | screen_dispatch e st :
      onScreen st -> offered e st = true -> onScreen (dispatch e st).

(** The id an event hands out: that of the return an accepted
    [AddReturn] puts on the list. *)
Definition issued (e : Event) (st : State) : option Z :=
  match e with
  | AddReturn _ =>
      if incomplete (form st) then None else Some (itemCounter st + 1)
  | _ => None
  end.

Fixpoint idsIssued (es : list Event) (st : State) : list Z :=
  match es with
  | [] => []
  | e :: es' =>
      match issued e st with
      | Some i => i :: idsIssued es' (dispatch e st)
      | None => idsIssued es' (dispatch e st)
      end
  end.

(** The ids on the list are pairwise distinct and none is beyond the
    counter. *)
Definition idsDistinct (st : State) : Prop :=
  NoDup (map Item.id (returns st))
  /\ Forall (fun r => Item.id r <= itemCounter st) (returns st).

End Returns.

(** ** The stock report screen ([Reports]) *)

Module Reports.

Record StockItem := {
  MName : string;
  CurrentStock : Z;
  MType : string;
  LastDeliveryDate : string;
  ClosestToExpiry : string;
  MCompany : string;
  DaysToExpiry : option Z
}.

Record StockStatus := {
  label : string;
  color : string
}.

(** Determine stock status. *)
Definition getStockStatus (item : StockItem) : StockStatus :=
  if CurrentStock item <=? 0 then
    {| label := "Out of Stock"; color := "bg-red-100 text-red-700" |}
  else if CurrentStock item <? 10 then
    {| label := "Low Stock"; color := "bg-orange-100 text-orange-700" |}
  else
    match DaysToExpiry item with
    | Some days =>
        if days <=? 90 then
          {| label := "Near Expiry"; color := "bg-yellow-100 text-yellow-700" |}
        else
          {| label := "In Stock"; color := "bg-green-100 text-green-700" |}
    | None =>
        {| label := "In Stock"; color := "bg-green-100 text-green-700" |}
    end.

Record Bar := {
  bar_name : string;
  bar_count : nat;
  bar_fill : string
}.

(** The four counters of [stockLevelData] after one more item. *)
Definition tally (acc : nat * nat * nat * nat) (item : StockItem)
  : nat * nat * nat * nat :=
  let '(outOfStock, lowStock, nearExpiry, healthy) := acc in
  if CurrentStock item <=? 0 then (S outOfStock, lowStock, nearExpiry, healthy)
  else if CurrentStock item <? 10
  then (outOfStock, S lowStock, nearExpiry, healthy)
  else
    match DaysToExpiry item with
    | Some days =>
        if days <=? 90 then (outOfStock, lowStock, S nearExpiry, healthy)
        else (outOfStock, lowStock, nearExpiry, S healthy)
    | None => (outOfStock, lowStock, nearExpiry, S healthy)
    end.

(** Stock level distribution for bar chart. *)
Definition stockLevelData (stockData : list StockItem) : list Bar :=
  let '(outOfStock, lowStock, nearExpiry, healthy) :=
    fold_left tally stockData (O, O, O, O) in
  [ {| bar_name := "Out of Stock"; bar_count := outOfStock;
       bar_fill := "#ef4444" |};
    {| bar_name := "Low Stock"; bar_count := lowStock;
       bar_fill := "#f59e0b" |};
    {| bar_name := "Near Expiry"; bar_count := nearExpiry;
       bar_fill := "#eab308" |};
    {| bar_name := "Healthy"; bar_count := healthy;
       bar_fill := "#22c55e" |} ].

(** The number of items the table shows with a given status label. *)
Definition labelled (l : string) (stockData : list StockItem) : nat :=
  List.length
    (filter (fun item => String.eqb (label (getStockStatus item)) l)
            stockData).

(** *** Filter options

    [[...new Set(list.filter(m => m && m.trim()))]]: a value the server
    sent as [null] is [None]. *)

(** [m && m.trim()] as a condition. *)
Definition nonBlank (m : option string) : bool :=
  match m with
  | Some s => JS.truthy s && JS.truthy (JS.trim s)
  | None => false
  end.

(** The values of a [Set] built from a list, in insertion order. *)
Definition setOf (l : list string) : list string :=
  fold_left
    (fun seen x =>
       if existsb (String.eqb x) seen then seen else (seen ++ [x])%list)
    l [].

Fixpoint present (l : list (option string)) : list string :=
  match l with
  | [] => []
  | Some s :: r => s :: present r
  | None :: r => present r
  end.

Definition cleanOptions (l : list (option string)) : list string :=
  setOf (present (filter nonBlank l)).

(** *** Chart data

    [typeCounts] is a plain object used as a map from type to count; it is
    kept as the list of its own properties in the order they were
    created.  A type that is the name of a member of [Object.prototype]
    would read that member instead of a count; the chart is [None] for
    such data, which the embedding does not follow. *)

Definition inherited (k : string) : bool :=
  existsb (String.eqb k)
    ["constructor"; "hasOwnProperty"; "isPrototypeOf";
     "propertyIsEnumerable"; "toLocaleString"; "toString"; "valueOf";
     "__defineGetter__"; "__defineSetter__"; "__lookupGetter__";
     "__lookupSetter__"; "__proto__"].

(** [item.MType || 'Unknown']. *)
Definition typeOf (item : StockItem) : string :=
  if JS.truthy (MType item) then MType item else "Unknown".

(** [typeCounts[type] = (typeCounts[type] || 0) + 1]. *)
Fixpoint bump (k : string) (counts : list (string * nat))
  : list (string * nat) :=
  match counts with
  | [] => [(k, 1%nat)]
  | (k', n) :: rest =>
      if String.eqb k' k then (k', S n) :: rest else (k', n) :: bump k rest
  end.

Definition typeCounts (stockData : list StockItem) : list (string * nat) :=
  fold_left (fun counts item => bump (typeOf item) counts) stockData [].

(** The value of a key made of decimal digits. *)
Definition indexValue (k : string) : Z :=
  fst (fst (JS.readDigits JS.decDigit 10 k 0 O)).

(** An array index: the canonical decimal writing of an integer from 0 to
    2^32 - 2. *)
Definition isArrayIndex (k : string) : bool :=
  match k with
  | EmptyString => false
  | String c r =>
      JS.allDigits k
      && (negb (Ascii.eqb c "0") || String.eqb r "")
      && (indexValue k <=? 4294967294)
  end.

Fixpoint insertIndex (e : string * nat) (l : list (string * nat))
  : list (string * nat) :=
  match l with
  | [] => [e]
  | e' :: rest =>
      if indexValue (fst e) <? indexValue (fst e')
      then e :: l else e' :: insertIndex e rest
  end.

(** [Object.entries]: the array indices in ascending order, then the
    other keys in the order they were created. *)
Definition entries (counts : list (string * nat)) : list (string * nat) :=
  (fold_right insertIndex [] (filter (fun e => isArrayIndex (fst e)) counts)
   ++ filter (fun e => negb (isArrayIndex (fst e))) counts)%list.

Record Slice := {
  name : string;
  value : nat
}.

(** Where [sort((a, b) => b.value - a.value)], which is stable, puts an
    element that comes after those of [l]: behind every element that is
    not smaller. *)
Fixpoint insertDesc (x : Slice) (l : list Slice) : list Slice :=
  match l with
  | [] => [x]
  | y :: rest =>
      if (value y <? value x)%nat then x :: l else y :: insertDesc x rest
  end.

Definition sortDesc (l : list Slice) : list Slice :=
  fold_left (fun sorted x => insertDesc x sorted) l [].

(** Calculate chart data from actual stock. *)
Definition typeDistribution (stockData : list StockItem)
  : option (list Slice) :=
  if existsb (fun item => inherited (typeOf item)) stockData then None
  else
    Some (firstn 8
            (sortDesc
               (map (fun e => {| name := fst e; value := snd e |})
                    (entries (typeCounts stockData))))).

(** The number of items of a type. *)
Definition countType (k : string) (stockData : list StockItem) : nat :=
  List.length (filter (fun item => String.eqb (typeOf item) k) stockData).

(** The count kept for a key, 0 for a key that is absent. *)
Fixpoint countAt (k : string) (counts : list (string * nat)) : nat :=
  match counts with
  | [] => O
  | (k', n) :: rest => if String.eqb k' k then n else countAt k rest
  end.

(** The order of the chart. *)
Definition descending : Slice -> Slice -> Prop :=
  fun a b => (value b <= value a)%nat.

End Reports.

(** ** The purchase bill ([Inventory], in ViewSales.tsx)

    The cells of the header of the bill and the handlers that save the
    bill, around the item entry of [Inventory]. *)

Module InventoryBill.

Record Header := {
  billDate : string;
  billNo : string;
  deliveryDate : string;
  agency : string;
  billAmount : string;
  taxAmount : string;
  discountInBill : string;
  discountAmount : string
}.

Inductive MessageText :=
  | OfEntry (t : Inventory.MessageText)   (* a message of the item entry *)
  | BillDateRequired            (* Bill date is required *)
  | BillNumberRequired          (* Bill number is required *)
  | DeliveryDateRequired        (* Delivery date is required *)
  | AgencyRequired              (* Agency/Supplier is required *)
  | AddOneItem                  (* Please add at least one item *)
  | BillSaved (bill_id : string)    (* Bill .. saved successfully! *)
  | ErrorMessage (text : string)    (* the message of the error thrown *)
  | FailedToSaveBill.           (* Failed to save bill *)

Definition Message : Type := Inventory.MessageType * MessageText.

(** The cell [message] is the one of the screen; the field of that name
    inside [entry] holds what the handlers of the item entry last gave
    it, and is copied from there after each of them. *)
Record State := {
  header : Header;
  entry : Inventory.State;
  message : option Message;
  isSubmitting : bool
}.

Definition setHeader (v : Header) (st : State) : State :=
  {| header := v; entry := entry st; message := message st;
     isSubmitting := isSubmitting st |}.

Definition setEntry (v : Inventory.State) (st : State) : State :=
  {| header := header st; entry := v; message := message st;
     isSubmitting := isSubmitting st |}.

Definition setMessage (v : option Message) (st : State) : State :=
  {| header := header st; entry := entry st; message := v;
     isSubmitting := isSubmitting st |}.

Definition setIsSubmitting (v : bool) (st : State) : State :=
  {| header := header st; entry := entry st; message := message st;
     isSubmitting := v |}.

Definition ofEntry (m : option Inventory.Message) : option Message :=
  match m with
  | Some (t, text) => Some (t, OfEntry text)
  | None => None
  end.

(** The state after a handler of the item entry that sets the message on
    each of its paths. *)
Definition afterEntry (v : Inventory.State) (st : State) : State :=
  setMessage (ofEntry (Inventory.message v)) (setEntry v st).

(** The cells as the component creates them; both dates are the day. *)
Definition initial (today : string) : State := {|
  header := {| billDate := today; billNo := ""; deliveryDate := today;
               agency := ""; billAmount := ""; taxAmount := "";
               discountInBill := "No"; discountAmount := "" |};
  entry := {| Inventory.selectedMedicine := "";
              Inventory.medicineDetails := None;
              Inventory.entryQuantity := "";
              Inventory.batchNo := "";
              Inventory.expiryDate := "";
              Inventory.purchasePrice := "";
              Inventory.items := [];
              Inventory.itemCounter := 0;
              Inventory.message := None;
              Inventory.showUpdatePriceModal := false;
              Inventory.showPriceUpdateConfirm := false;
              Inventory.updatingPrice := false;
              Inventory.updateMedicineName := "";
              Inventory.newMRP := "";
              Inventory.newPTR := "" |};
  message := None;
  isSubmitting := false
|}.

(** *** Calculate totals (lines 921 to 925) *)

Definition calculatedBillAmount (h : Header) : Q :=
  JS.orZero (JS.parseFloat (billAmount h)).

Definition calculatedTaxAmount (h : Header) : Q :=
  JS.orZero (JS.parseFloat (taxAmount h)).

Definition calculatedDiscountAmount (h : Header) : Q :=
  if String.eqb (discountInBill h) "Yes"
  then JS.orZero (JS.parseFloat (discountAmount h))
  else 0%Q.

Definition billTotal (h : Header) : Q :=
  (calculatedBillAmount h + calculatedTaxAmount h
   - calculatedDiscountAmount h)%Q.

(** *** The items *)

Definition withItems (v : list Inventory.BillItem) (e : Inventory.State)
  : Inventory.State :=
  {| Inventory.selectedMedicine := Inventory.selectedMedicine e;
     Inventory.medicineDetails := Inventory.medicineDetails e;
     Inventory.entryQuantity := Inventory.entryQuantity e;
     Inventory.batchNo := Inventory.batchNo e;
     Inventory.expiryDate := Inventory.expiryDate e;
     Inventory.purchasePrice := Inventory.purchasePrice e;
     Inventory.items := v;
     Inventory.itemCounter := Inventory.itemCounter e;
     Inventory.message := Inventory.message e;
     Inventory.showUpdatePriceModal := Inventory.showUpdatePriceModal e;
     Inventory.showPriceUpdateConfirm := Inventory.showPriceUpdateConfirm e;
     Inventory.updatingPrice := Inventory.updatingPrice e;
     Inventory.updateMedicineName := Inventory.updateMedicineName e;
     Inventory.newMRP := Inventory.newMRP e;
     Inventory.newPTR := Inventory.newPTR e |}.

(** The six cells of the item entry. *)
Definition withCells (name : string) (d : option Inventory.MedicineDetails)
    (q b x p : string) (e : Inventory.State) : Inventory.State :=
  {| Inventory.selectedMedicine := name;
     Inventory.medicineDetails := d;
     Inventory.entryQuantity := q;
     Inventory.batchNo := b;
     Inventory.expiryDate := x;
     Inventory.purchasePrice := p;
     Inventory.items := Inventory.items e;
     Inventory.itemCounter := Inventory.itemCounter e;
     Inventory.message := Inventory.message e;
     Inventory.showUpdatePriceModal := Inventory.showUpdatePriceModal e;
     Inventory.showPriceUpdateConfirm := Inventory.showPriceUpdateConfirm e;
     Inventory.updatingPrice := Inventory.updatingPrice e;
     Inventory.updateMedicineName := Inventory.updateMedicineName e;
     Inventory.newMRP := Inventory.newMRP e;
     Inventory.newPTR := Inventory.newPTR e |}.

(** Add item to list. *)
Definition handleAddItem (st : State) : State :=
  afterEntry (Inventory.handleAddItem (entry st)) st.

(** Remove item from list (lines 1096 to 1098). *)
Definition handleRemoveItem (i : Z) (st : State) : State :=
  setEntry
    (withItems
       (filter (fun item => negb (Inventory.id item =? i))
               (Inventory.items (entry st)))
       (entry st))
    st.

(** The button Clear All: [setItems([])]. *)
Definition clearAll (st : State) : State :=
  setEntry (withItems [] (entry st)) st.

(** Fetch medicine details when selected (lines 994 to 1017): what the
    handler does before the request, and when the details arrive; [ptr]
    is [String(response.data.data.PTR)]. *)
Definition handleMedicineSelect (medicineName : string) (st : State)
  : State :=
  let e := entry st in
  setEntry
    (withCells medicineName None (Inventory.entryQuantity e)
       (Inventory.batchNo e) (Inventory.expiryDate e)
       (Inventory.purchasePrice e) e)
    st.

Definition detailsArrived (d : Inventory.MedicineDetails) (ptr : string)
    (st : State) : State :=
  let e := entry st in
  let filled :=
    match Inventory.PTR d with
    | Some x => negb (Qeq_bool x 0)
    | None => false
    end in
  setEntry
    (withCells (Inventory.selectedMedicine e) (Some d)
       (Inventory.entryQuantity e) (Inventory.batchNo e)
       (Inventory.expiryDate e)
       (if filled then ptr else Inventory.purchasePrice e) e)
    st.

(** *** Clear form (lines 1170 to 1183)

    The dates, the agency, the counter of the items and the message are
    not among the cells it sets. *)
Definition handleClearForm (st : State) : State :=
  let h := header st in
  setEntry (withCells "" None "" "" "" "" (withItems [] (entry st)))
    (setHeader
       {| billDate := billDate h; billNo := ""; deliveryDate := deliveryDate h;
          agency := agency h; billAmount := ""; taxAmount := "";
          discountInBill := "No"; discountAmount := "" |}
       st).

(** *** Submit bill (lines 1101 to 1167) *)

Record BillLine := {
  line_item_name : string;
  line_quantity : option Z;
  line_batch_no : string;
  line_expiry_date : string;
  line_price : Q;
  line_difference : Q
}.

Record BillData := {
  BillDate : string;
  BillNo : string;
  DeliveryDate : string;
  Agency : string;
  BillAmount : Q;
  TaxAmount : Q;
  DiscountInBill : string;
  Disc_amount : Q;
  BillTotal : Q;
  bill_items : list BillLine
}.

Definition validate (st : State) : option MessageText :=
  let h := header st in
  if negb (JS.truthy (billDate h)) then Some BillDateRequired
  else if negb (JS.truthy (JS.trim (billNo h))) then Some BillNumberRequired
  else if negb (JS.truthy (deliveryDate h)) then Some DeliveryDateRequired
  else if negb (JS.truthy (agency h)) then Some AgencyRequired
  else if (List.length (Inventory.items (entry st)) =? 0)%nat
       then Some AddOneItem
  else None.

Definition billData (st : State) : BillData :=
  let h := header st in
  {| BillDate := billDate h;
     BillNo := billNo h;
     DeliveryDate := deliveryDate h;
     Agency := agency h;
     BillAmount := calculatedBillAmount h;
     TaxAmount := calculatedTaxAmount h;
     DiscountInBill := discountInBill h;
     Disc_amount := calculatedDiscountAmount h;
     BillTotal := billTotal h;
     bill_items :=
       map (fun item =>
              {| line_item_name := Inventory.item_name item;
                 line_quantity := Inventory.quantity item;
                 line_batch_no := Inventory.batch_no item;
                 line_expiry_date := Inventory.expiry_date item;
                 line_price := Inventory.price item;
                 line_difference := Inventory.difference item |})
           (Inventory.items (entry st)) |}.

(** How [api.post('/inventory/api/bill', billData)] ends: with a reply
    whose [success] is truthy, with one whose [success] is not, or by
    throwing; [thrown] is the message of the error, if it is an [Error]. *)
Inductive Reply :=
  | Saved (bill_id : string)
  | Refused
  | Threw (thrown : option string).

(** Up to the request: the bill that is posted, if one is. *)
Definition beginSubmit (st : State) : State * option BillData :=
  match validate st with
  | Some text => (setMessage (Some (Inventory.msgError, text)) st, None)
  | None => (setMessage None (setIsSubmitting true st), Some (billData st))
  end.

(** From the reply on. *)
Definition finishSubmit (r : Reply) (st : State) : State :=
  let st1 :=
    match r with
    | Saved bill_id =>
        handleClearForm
          (setMessage (Some (Inventory.msgSuccess, BillSaved bill_id)) st)
    | Refused => st
    | Threw thrown =>
        let errorMessage :=
          match thrown with
          | Some text => ErrorMessage text
          | None => FailedToSaveBill
          end in
        setMessage (Some (Inventory.msgError, errorMessage)) st
    end in
  setIsSubmitting false st1.

(** A click on Save Bill and the reply to the request it makes, with
    nothing in between. *)
Definition handleSubmitBill (st : State) (r : Reply) : State :=
  match beginSubmit st with
  | (st1, Some _) => finishSubmit r st1
  | (st1, None) => st1
  end.

(** *** Events of the screen *)

Inductive Field :=
  | FBillDate | FBillNo | FDeliveryDate | FAgency
  | FBillAmount | FTaxAmount | FDiscountInBill | FDiscountAmount
  | FQuantity | FBatchNo | FExpiryDate | FPurchasePrice.

Definition typed (f : Field) (v : string) (st : State) : State :=
  let h := header st in
  let e := entry st in
  let hd a b c d x y z w :=
    setHeader {| billDate := a; billNo := b; deliveryDate := c; agency := d;
                 billAmount := x; taxAmount := y; discountInBill := z;
                 discountAmount := w |} st in
  let en q b x p :=
    setEntry (withCells (Inventory.selectedMedicine e)
                (Inventory.medicineDetails e) q b x p e) st in
  match f with
  | FBillDate =>
      hd v (billNo h) (deliveryDate h) (agency h) (billAmount h)
         (taxAmount h) (discountInBill h) (discountAmount h)
  | FBillNo =>
      hd (billDate h) v (deliveryDate h) (agency h) (billAmount h)
         (taxAmount h) (discountInBill h) (discountAmount h)
  | FDeliveryDate =>
      hd (billDate h) (billNo h) v (agency h) (billAmount h)
         (taxAmount h) (discountInBill h) (discountAmount h)
  | FAgency =>
      hd (billDate h) (billNo h) (deliveryDate h) v (billAmount h)
         (taxAmount h) (discountInBill h) (discountAmount h)
  | FBillAmount =>
      hd (billDate h) (billNo h) (deliveryDate h) (agency h) v
         (taxAmount h) (discountInBill h) (discountAmount h)
  | FTaxAmount =>
      hd (billDate h) (billNo h) (deliveryDate h) (agency h) (billAmount h)
         v (discountInBill h) (discountAmount h)
  | FDiscountInBill =>
      hd (billDate h) (billNo h) (deliveryDate h) (agency h) (billAmount h)
         (taxAmount h) v (discountAmount h)
  | FDiscountAmount =>
      hd (billDate h) (billNo h) (deliveryDate h) (agency h) (billAmount h)
         (taxAmount h) (discountInBill h) v
  | FQuantity =>
      en v (Inventory.batchNo e) (Inventory.expiryDate e)
         (Inventory.purchasePrice e)
  | FBatchNo =>
      en (Inventory.entryQuantity e) v (Inventory.expiryDate e)
         (Inventory.purchasePrice e)
  | FExpiryDate =>
      en (Inventory.entryQuantity e) (Inventory.batchNo e) v
         (Inventory.purchasePrice e)
  | FPurchasePrice =>
      en (Inventory.entryQuantity e) (Inventory.batchNo e)
         (Inventory.expiryDate e) v
  end.

Inductive Event :=
  | Typed (f : Field) (v : string)
  | MedicineSelected (medicineName : string)
  | DetailsArrived (d : Inventory.MedicineDetails) (ptr : string)
  | AddItem
  | RemoveItem (i : Z)
  | ClearAll
  | SaveBillClicked
  | ReplyArrived (r : Reply)
  | PriceUpdated (o : Inventory.Outcome).

Definition dispatch (e : Event) (st : State) : State :=
  match e with
  | Typed f v => typed f v st
  | MedicineSelected medicineName => handleMedicineSelect medicineName st
  | DetailsArrived d ptr => detailsArrived d ptr st
  | AddItem => handleAddItem st
  | RemoveItem i => handleRemoveItem i st
  | ClearAll => clearAll st
  | SaveBillClicked => fst (beginSubmit st)
  | ReplyArrived r => finishSubmit r st
  | PriceUpdated o =>
      afterEntry (fst (Inventory.handleUpdatePrice (entry st) o)) st
  end.

Definition run (es : list Event) (st : State) : State :=
  fold_left (fun s e => dispatch e s) es st.

Inductive reachable (today : string) : State -> Prop :=
  | reach_initial : reachable today (initial today)
  | reach_dispatch e st :
      reachable today st -> reachable today (dispatch e st).

(** The id an event hands out: that of the item an accepted [AddItem]
    appends. *)
Definition issued (e : Event) (st : State) : option Z :=
  match e with
  | AddItem =>
      if negb (JS.truthy (Inventory.selectedMedicine (entry st)))
         || Inventory.quantityRefused (Inventory.entryQuantity (entry st))
      then None
      else Some (Inventory.itemCounter (entry st) + 1)
  | _ => None
  end.

Fixpoint idsIssued (es : list Event) (st : State) : list Z :=
  match es with
  | [] => []
  | e :: es' =>
      match issued e st with
      | Some i => i :: idsIssued es' (dispatch e st)
      | None => idsIssued es' (dispatch e st)
      end
  end.

(** The ids of the items are in ascending order and none is beyond the
    counter; a quantity is a positive integer or [NaN]. *)
Definition itemsInOrder (st : State) : Prop :=
  StronglySorted Z.lt (map Inventory.id (Inventory.items (entry st)))
  /\ Forall (fun item => Inventory.id item <= Inventory.itemCounter (entry st))
            (Inventory.items (entry st)).

Definition quantityRead (q : option Z) : Prop :=
  match q with
  | Some n => 0 < n
  | None => True
  end.

(** What an event does to the items and to their counter. *)
Inductive itemsChange (st st' : State) : Prop :=
  | items_kept :
      Inventory.items (entry st') = Inventory.items (entry st) ->
      Inventory.itemCounter (entry st') = Inventory.itemCounter (entry st) ->
      itemsChange st st'
  | items_filtered keep :
      Inventory.items (entry st') = filter keep (Inventory.items (entry st)) ->
      Inventory.itemCounter (entry st') = Inventory.itemCounter (entry st) ->
      itemsChange st st'
  | item_appended item :
      Inventory.items (entry st')
      = (Inventory.items (entry st) ++ [item])%list ->
      Inventory.id item = Inventory.itemCounter (entry st) + 1 ->
      Inventory.itemCounter (entry st') = Inventory.itemCounter (entry st) + 1 ->
      quantityRead (Inventory.quantity item) ->
      itemsChange st st'.

(** *** Request price update confirmation (lines 1259 to 1269) *)

Inductive PriceToast :=
  | PleaseSelectMedicine        (* Please select a medicine *)
  | PleaseEnterValidMRP.        (* Please enter a valid new MRP *)

Definition requestPriceUpdate (e : Inventory.State)
  : Inventory.State * option PriceToast :=
  if negb (JS.truthy (Inventory.updateMedicineName e))
  then (e, Some PleaseSelectMedicine)
  else if negb (JS.truthy (Inventory.newMRP e))
          || match JS.parseFloat (Inventory.newMRP e) with
             | Some x => JS.le x 0
             | None => false
             end
       then (e, Some PleaseEnterValidMRP)
  else (Inventory.setShowPriceUpdateConfirm true e, None).

(** *** A sample bill

    Ten units of Paracetamol from Acme on bill B-7. *)
Definition sampleBill : State :=
  run [Typed FBillNo "B-7"; Typed FAgency "Acme"; Typed FBillAmount "450";
       Typed FTaxAmount "54"; MedicineSelected "Paracetamol";
       Typed FQuantity "10"; Typed FPurchasePrice "45"; AddItem]
      (initial "2025-01-15").

End InventoryBill.

(** ** More JavaScript primitives *)

Module JSText.

(** [s.replace(/\D/g, '')]: the decimal digits of [s], in their order. *)
Fixpoint keepDigits (s : string) : string :=
  match s with
  | EmptyString => EmptyString
  | String c r =>
      if JS.isNaN (JS.decDigit c) then keepDigits r
      else String c (keepDigits r)
  end.

(** [s.slice(0, n)]: the first [n] code units of [s]. *)
Fixpoint sliceTo (n : nat) (s : string) : string :=
  match n, s with
  | S n', String c r => String c (sliceTo n' r)
  | _, _ => EmptyString
  end.

(** [String(n)] for an integer [n] below 10^21 in absolute value. *)
Definition ofInt (n : Z) : string :=
  if n <? 0 then "-" ++ JS.digitsOf (Z.to_N (- n))
  else JS.digitsOf (Z.to_N n).

(** [toLowerCase] on a code unit below 256: the letters A to Z and the
    capital letters of Latin-1 (all of 192 to 222 but the sign 215). *)
Definition lowerChar (c : ascii) : ascii :=
  let n := N_of_ascii c in
  if ((65 <=? n) && (n <=? 90)
      || (192 <=? n) && (n <=? 222) && negb (n =? 215))%N
  then ascii_of_N (n + 32)
  else c.

Fixpoint toLowerCase (s : string) : string :=
  match s with
  | EmptyString => EmptyString
  | String c r => String (lowerChar c) (toLowerCase r)
  end.

(** [s.includes(t)]: [t] is found somewhere in [s]. *)
Fixpoint includes (s t : string) : bool :=
  String.prefix t s
  || match s with
     | EmptyString => false
     | String _ r => includes r t
     end.

End JSText.

(** ** Patient registration ([OP], in ViewSales.tsx) *)

Module Registration.

Record PatientEntry := {
  UHId : string;
  PName : string;
  PhoneNo : string;
  Age : option Z;           (* an integer, or [NaN] or absent *)
  Gender : string
}.

Record Form := {
  uhid : string;
  date : string;
  opProc : string;
  procedureName : string;
  patientName : string;
  phoneNo : string;
  age : string;
  gender : string;
  paymentMode : string;
  amountPaid : string
}.

Inductive MessageType := msgSuccess | msgError.

Inductive MessageText :=
  | EnterSearchTerm             (* Please enter a search term *)
  | NoPatientsFound             (* No patients found matching your search *)
  | Found (count : option Z)    (* Found .. patient(s) *)
  | SearchFailed                (* Search failed *)
  | PatientDetailsLoaded        (* Patient details loaded *)
  | PatientNameRequired         (* Patient name is required *)
  | PhoneNumberRequired         (* Phone number is required *)
  | AgeRequired                 (* Age is required *)
  | GenderRequired              (* Gender is required *)
  | SelectOpOrProcedure         (* Please select OP or Procedure *)
  | ProcedureNameRequired       (* Procedure name is required *)
  | Registered (uhid : string)  (* Patient registered successfully! UHId: .. *)
  | RegistrationFailed          (* Registration failed *)
  | ErrorMessage (text : string).   (* the message of the error thrown *)

Definition Message : Type := MessageType * MessageText.

Record State := {
  form : Form;
  searchField : string;
  searchTerm : string;
  searchResults : list PatientEntry;
  isSearching : bool;
  isSubmitting : bool;
  message : option Message
}.

Definition initial (today : string) : State := {|
  form := {| uhid := ""; date := today; opProc := ""; procedureName := "";
             patientName := ""; phoneNo := ""; age := ""; gender := "";
             paymentMode := ""; amountPaid := "" |};
  searchField := "phone";
  searchTerm := "";
  searchResults := [];
  isSearching := false;
  isSubmitting := false;
  message := None
|}.

Definition setForm (v : Form) (st : State) : State :=
  {| form := v; searchField := searchField st; searchTerm := searchTerm st;
     searchResults := searchResults st; isSearching := isSearching st;
     isSubmitting := isSubmitting st; message := message st |}.

Definition setSearchField (v : string) (st : State) : State :=
  {| form := form st; searchField := v; searchTerm := searchTerm st;
     searchResults := searchResults st; isSearching := isSearching st;
     isSubmitting := isSubmitting st; message := message st |}.

Definition setSearchTerm (v : string) (st : State) : State :=
  {| form := form st; searchField := searchField st; searchTerm := v;
     searchResults := searchResults st; isSearching := isSearching st;
     isSubmitting := isSubmitting st; message := message st |}.

Definition setSearchResults (v : list PatientEntry) (st : State) : State :=
  {| form := form st; searchField := searchField st;
     searchTerm := searchTerm st;
     searchResults := v; isSearching := isSearching st;
     isSubmitting := isSubmitting st; message := message st |}.

Definition setIsSearching (v : bool) (st : State) : State :=
  {| form := form st; searchField := searchField st;
     searchTerm := searchTerm st;
     searchResults := searchResults st; isSearching := v;
     isSubmitting := isSubmitting st; message := message st |}.

Definition setIsSubmitting (v : bool) (st : State) : State :=
  {| form := form st; searchField := searchField st;
     searchTerm := searchTerm st;
     searchResults := searchResults st; isSearching := isSearching st;
     isSubmitting := v; message := message st |}.

Definition setMessage (v : option Message) (st : State) : State :=
  {| form := form st; searchField := searchField st;
     searchTerm := searchTerm st;
     searchResults := searchResults st; isSearching := isSearching st;
     isSubmitting := isSubmitting st; message := v |}.

(** The cells of the form a field of the page writes. *)
Inductive Field :=
  | FDate | FOpProc | FProcedureName | FPatientName | FPhoneNo
  | FAge | FGender | FPaymentMode | FAmountPaid.

Definition setField (f : Field) (v : string) (x : Form) : Form :=
  match f with
  | FDate =>
      {| uhid := uhid x; date := v; opProc := opProc x;
         procedureName := procedureName x; patientName := patientName x;
         phoneNo := phoneNo x; age := age x; gender := gender x;
         paymentMode := paymentMode x; amountPaid := amountPaid x |}
  | FOpProc =>
      {| uhid := uhid x; date := date x; opProc := v;
         procedureName := procedureName x; patientName := patientName x;
         phoneNo := phoneNo x; age := age x; gender := gender x;
         paymentMode := paymentMode x; amountPaid := amountPaid x |}
  | FProcedureName =>
      {| uhid := uhid x; date := date x; opProc := opProc x;
         procedureName := v; patientName := patientName x;
         phoneNo := phoneNo x; age := age x; gender := gender x;
         paymentMode := paymentMode x; amountPaid := amountPaid x |}
  | FPatientName =>
      {| uhid := uhid x; date := date x; opProc := opProc x;
         procedureName := procedureName x; patientName := v;
         phoneNo := phoneNo x; age := age x; gender := gender x;
         paymentMode := paymentMode x; amountPaid := amountPaid x |}
  | FPhoneNo =>
      {| uhid := uhid x; date := date x; opProc := opProc x;
         procedureName := procedureName x; patientName := patientName x;
         phoneNo := v; age := age x; gender := gender x;
         paymentMode := paymentMode x; amountPaid := amountPaid x |}
  | FAge =>
      {| uhid := uhid x; date := date x; opProc := opProc x;
         procedureName := procedureName x; patientName := patientName x;
         phoneNo := phoneNo x; age := v; gender := gender x;
         paymentMode := paymentMode x; amountPaid := amountPaid x |}
  | FGender =>
      {| uhid := uhid x; date := date x; opProc := opProc x;
         procedureName := procedureName x; patientName := patientName x;
         phoneNo := phoneNo x; age := age x; gender := v;
         paymentMode := paymentMode x; amountPaid := amountPaid x |}
  | FPaymentMode =>
      {| uhid := uhid x; date := date x; opProc := opProc x;
         procedureName := procedureName x; patientName := patientName x;
         phoneNo := phoneNo x; age := age x; gender := gender x;
         paymentMode := v; amountPaid := amountPaid x |}
  | FAmountPaid =>
      {| uhid := uhid x; date := date x; opProc := opProc x;
         procedureName := procedureName x; patientName := patientName x;
         phoneNo := phoneNo x; age := age x; gender := gender x;
         paymentMode := paymentMode x; amountPaid := v |}
  end.

Definition setUhid (v : string) (x : Form) : Form :=
  {| uhid := v; date := date x; opProc := opProc x;
     procedureName := procedureName x; patientName := patientName x;
     phoneNo := phoneNo x; age := age x; gender := gender x;
     paymentMode := paymentMode x; amountPaid := amountPaid x |}.

(** What the phone field keeps of what is typed in it (line 624). *)
Definition phoneTyped (v : string) : string :=
  JSText.sliceTo 10 (JSText.keepDigits v).

(** The [onChange] of a field of the form. *)
Definition typed (f : Field) (v : string) (st : State) : State :=
  match f with
  | FPhoneNo => setForm (setField FPhoneNo (phoneTyped v) (form st)) st
  | _ => setForm (setField f v (form st)) st
  end.

(** *** Generate UHId when patient name changes (lines 398 to 412)

    What [generateUHId] does before the request (and whether it makes
    one), and when the reply brings a UHId. *)
Definition generateUHId (name : string) (st : State) : State * bool :=
  if negb (JS.truthy (JS.trim name))
  then (setForm (setUhid "" (form st)) st, false)
  else (st, true).

Definition uhidArrived (u : string) (st : State) : State :=
  if JS.truthy u then setForm (setUhid u (form st)) st else st.

(** *** Search patients (lines 425 to 451) *)

Inductive SearchReply :=
  | SearchOk (data : list PatientEntry) (count : option Z)
  | SearchRefused
  | SearchThrew (thrown : option string).

Definition beginSearch (st : State) : State * bool :=
  if negb (JS.truthy (JS.trim (searchTerm st)))
  then (setMessage (Some (msgError, EnterSearchTerm)) st, false)
  else (setSearchResults [] (setIsSearching true st), true).

Definition finishSearch (r : SearchReply) (st : State) : State :=
  let st1 :=
    match r with
    | SearchOk data count =>
        let text :=
          match count with
          | Some 0 => (msgError, NoPatientsFound)
          | _ => (msgSuccess, Found count)
          end in
        setMessage (Some text) (setSearchResults data st)
    | SearchRefused => st
    | SearchThrew thrown =>
        let errorMessage :=
          match thrown with
          | Some text => ErrorMessage text
          | None => SearchFailed
          end in
        setMessage (Some (msgError, errorMessage)) st
    end in
  setIsSearching false st1.

(** *** Fill form from search result (lines 454 to 462) *)

(** [String(patient.Age || '')]. *)
Definition ageText (a : option Z) : string :=
  match a with
  | Some n => if n =? 0 then "" else JSText.ofInt n
  | None => ""
  end.

Definition fillFromSearchResult (patient : PatientEntry) (st : State)
  : State :=
  let x := form st in
  setMessage (Some (msgSuccess, PatientDetailsLoaded))
    (setSearchResults []
       (setForm
          {| uhid := UHId patient; date := date x; opProc := opProc x;
             procedureName := procedureName x; patientName := PName patient;
             phoneNo := PhoneNo patient; age := ageText (Age patient);
             gender := Gender patient;
             paymentMode := paymentMode x; amountPaid := amountPaid x |}
          st)).

(** *** Clear form (lines 532 to 542): the date is not among the cells. *)
Definition handleClear (st : State) : State :=
  setForm
    {| uhid := ""; date := date (form st); opProc := ""; procedureName := "";
       patientName := ""; phoneNo := ""; age := ""; gender := "";
       paymentMode := ""; amountPaid := "" |}
    st.

(** *** Submit registration (lines 465 to 529) *)

Record RegistrationData := {
  reg_PName : string;
  reg_PhoneNo : string;
  reg_UHId : string;
  reg_Age : option Z;
  reg_Gender : string;
  reg_Date : string;
  reg_OPProc : string;
  reg_PaymentMode : string;
  reg_AmountPaid : Q;
  reg_ProcedureName : string
}.

Definition validate (x : Form) : option MessageText :=
  if negb (JS.truthy (JS.trim (patientName x))) then Some PatientNameRequired
  else if negb (JS.truthy (JS.trim (phoneNo x))) then Some PhoneNumberRequired
  else if negb (JS.truthy (age x)) then Some AgeRequired
  else if negb (JS.truthy (gender x)) then Some GenderRequired
  else if negb (JS.truthy (opProc x)) then Some SelectOpOrProcedure
  else if String.eqb (opProc x) "procedure"
          && negb (JS.truthy (JS.trim (procedureName x)))
       then Some ProcedureNameRequired
  else None.

Definition registrationData (x : Form) : RegistrationData :=
  {| reg_PName := patientName x;
     reg_PhoneNo := phoneNo x;
     reg_UHId := uhid x;
     reg_Age := JS.parseInt (age x);
     reg_Gender := gender x;
     reg_Date := date x;
     reg_OPProc := opProc x;
     reg_PaymentMode := paymentMode x;
     reg_AmountPaid := JS.orZero (JS.parseFloat (amountPaid x));
     reg_ProcedureName :=
       if String.eqb (opProc x) "procedure" then procedureName x else "" |}.

(** How [api.post('/patient/api/register', registrationData)] ends. *)
Inductive Reply :=
  | Accepted (uhid : string)
  | Refused
  | Threw (thrown : option string).

Definition beginSubmit (st : State) : State * option RegistrationData :=
  match validate (form st) with
  | Some text => (setMessage (Some (msgError, text)) st, None)
  | None =>
      (setMessage None (setIsSubmitting true st),
       Some (registrationData (form st)))
  end.

Definition finishSubmit (r : Reply) (st : State) : State :=
  let st1 :=
    match r with
    | Accepted u =>
        handleClear (setMessage (Some (msgSuccess, Registered u)) st)
    | Refused => st
    | Threw thrown =>
        let errorMessage :=
          match thrown with
          | Some text => ErrorMessage text
          | None => RegistrationFailed
          end in
        setMessage (Some (msgError, errorMessage)) st
    end in
  setIsSubmitting false st1.

(** A click on Submit Registration and the reply to the request it makes,
    with nothing in between. *)
Definition handleSubmit (st : State) (r : Reply) : State :=
  match beginSubmit st with
  | (st1, Some _) => finishSubmit r st1
  | (st1, None) => st1
  end.

(** *** Events of the page *)

Inductive Event :=
  | Typed (f : Field) (v : string)
  | UhidTimer (name : string)
  | UhidArrived (u : string)
  | SearchFieldChosen (v : string)
  | SearchTermTyped (v : string)
  | SearchClicked
  | SearchReplied (r : SearchReply)
  | ResultClicked (patient : PatientEntry)
  | ClearClicked
  | SubmitClicked
  | SubmitReplied (r : Reply).

Definition dispatch (e : Event) (st : State) : State :=
  match e with
  | Typed f v => typed f v st
  | UhidTimer name => fst (generateUHId name st)
  | UhidArrived u => uhidArrived u st
  | SearchFieldChosen v => setSearchField v st
  | SearchTermTyped v => setSearchTerm v st
  | SearchClicked => fst (beginSearch st)
  | SearchReplied r => finishSearch r st
  | ResultClicked patient => fillFromSearchResult patient st
  | ClearClicked => handleClear st
  | SubmitClicked => fst (beginSubmit st)
  | SubmitReplied r => finishSubmit r st
  end.

Definition run (es : list Event) (st : State) : State :=
  fold_left (fun s e => dispatch e s) es st.

(** A result can be clicked while it is listed, and the procedure name
    typed while the visit is a procedure (line 605). *)
Definition offered (e : Event) (st : State) : Prop :=
  match e with
  | ResultClicked patient => In patient (searchResults st)
  | Typed FProcedureName _ => opProc (form st) = "procedure"
  | _ => True
  end.

(** A phone as the phone field leaves it: decimal digits, ten at most. *)
Definition cleanPhone (s : string) : Prop :=
  JS.allDigits s = true /\ (String.length s <= 10)%nat.

(** A reply to a search that brings clean phones only. *)
Definition cleanReply (e : Event) : Prop :=
  match e with
  | SearchReplied (SearchOk data _) =>
      Forall (fun patient => cleanPhone (PhoneNo patient)) data
  | _ => True
  end.

(** The states the page reaches through what it offers, by events that
    are [allowed]. *)
Inductive onPage (today : string) (allowed : Event -> Prop)
  : State -> Prop :=
  | page_initial : onPage today allowed (initial today)
  | page_dispatch e st :
      onPage today allowed st -> offered e st -> allowed e ->
      onPage today allowed (dispatch e st).

(** The phone cell and the phones of the listed results are clean. *)
Definition phonesClean (st : State) : Prop :=
  cleanPhone (phoneNo (form st))
  /\ Forall (fun patient => cleanPhone (PhoneNo patient)) (searchResults st).

(** A sample form that passes the checks. *)
Definition sampleForm : State :=
  run [Typed FPatientName "Asha Rao"; Typed FPhoneNo "98765 43210";
       Typed FAge "34"; Typed FGender "Female"; Typed FOpProc "procedure";
       Typed FProcedureName "Dressing"; Typed FOpProc "op";
       Typed FAmountPaid "300"]
      (initial "2025-01-15").

End Registration.

(** ** Supplier payments ([Payments], in src/unnamed/part_000) *)

Module Payments.

Record Bill := {
  BillId : string;
  BillNo : string;
  BillTotal : Q;
  BillPaymentStatus : string;
  AmountPaid : Q
}.

Record PaymentModal := {
  isOpen : bool;
  bill : option Bill
}.

Inductive MessageType := msgSuccess | msgError.

Inductive MessageText :=
  | SelectPaymentMode           (* Please select a payment mode *)
  | MarkedPaid (billNo : string)    (* Bill .. marked as paid! *)
  | FailedToProcess             (* Failed to process payment *)
  | ErrorMessage (text : string).   (* the message of the error thrown *)

Definition Message : Type := MessageType * MessageText.

Record State := {
  bills : list Bill;
  paymentModal : PaymentModal;
  paymentMode : string;
  amountPaid : string;
  transactionDetails : string;
  isProcessing : bool;
  message : option Message
}.

Definition setMessage (v : option Message) (st : State) : State :=
  {| bills := bills st; paymentModal := paymentModal st;
     paymentMode := paymentMode st; amountPaid := amountPaid st;
     transactionDetails := transactionDetails st;
     isProcessing := isProcessing st; message := v |}.

Definition setIsProcessing (v : bool) (st : State) : State :=
  {| bills := bills st; paymentModal := paymentModal st;
     paymentMode := paymentMode st; amountPaid := amountPaid st;
     transactionDetails := transactionDetails st;
     isProcessing := v; message := message st |}.

(** The four cells of the dialog. *)
Definition setDialog (m : PaymentModal) (mode amount details : string)
    (st : State) : State :=
  {| bills := bills st; paymentModal := m;
     paymentMode := mode; amountPaid := amount;
     transactionDetails := details;
     isProcessing := isProcessing st; message := message st |}.

(** Open payment modal (lines 112 to 117); [total] is
    [String(bill.BillTotal)]. *)
Definition openPaymentModal (b : Bill) (total : string) (st : State)
  : State :=
  setDialog {| isOpen := true; bill := Some b |} "" total "" st.

(** Close payment modal (lines 120 to 125). *)
Definition closePaymentModal (st : State) : State :=
  setDialog {| isOpen := false; bill := None |} "" "" "" st.

(** *** Process payment (lines 128 to 159) *)

Record MarkPaid := {
  paid_bill : string;           (* the bill id in the path *)
  payment_mode : string;
  amount_paid : Q;
  transaction_details : string
}.

(** [parseFloat(amountPaid) || paymentModal.bill.BillTotal]. *)
Definition amountOr (amount : string) (total : Q) : Q :=
  match JS.parseFloat amount with
  | Some x => if Qeq_bool x 0 then total else x
  | None => total
  end.

Inductive Reply :=
  | Marked
  | Refused
  | Threw (thrown : option string).

Definition beginPayment (st : State) : State * option MarkPaid :=
  match bill (paymentModal st) with
  | None => (st, None)
  | Some b =>
      if negb (JS.truthy (paymentMode st))
      then (setMessage (Some (msgError, SelectPaymentMode)) st, None)
      else (setIsProcessing true st,
            Some {| paid_bill := BillId b;
                    payment_mode := paymentMode st;
                    amount_paid := amountOr (amountPaid st) (BillTotal b);
                    transaction_details := transactionDetails st |})
  end.

(** From the reply on; [b] is the bill the dialog held at the click.
    The second component says whether the list of bills is fetched
    again. *)
Definition finishPayment (b : Bill) (r : Reply) (st : State)
  : State * bool :=
  let (st1, refresh) :=
    match r with
    | Marked =>
        (closePaymentModal
           (setMessage (Some (msgSuccess, MarkedPaid (BillNo b))) st),
         true)
    | Refused => (st, false)
    | Threw thrown =>
        let errorMessage :=
          match thrown with
          | Some text => ErrorMessage text
          | None => FailedToProcess
          end in
        (setMessage (Some (msgError, errorMessage)) st, false)
    end in
  (setIsProcessing false st1, refresh).

(** A click on the button of the dialog and the reply to the request it
    makes, with nothing in between. *)
Definition handlePayment (st : State) (r : Reply) : State * bool :=
  match bill (paymentModal st), beginPayment st with
  | Some b, (st1, Some _) => finishPayment b r st1
  | _, (st1, _) => (st1, false)
  end.

(** A dialog open on a bill of 504 to be paid by UPI, the amount left as
    the dialog filled it. *)
Definition samplePayment : State :=
  {| bills := [];
     paymentModal :=
       {| isOpen := true;
          bill := Some {| BillId := "17"; BillNo := "B-7"; BillTotal := 504;
                          BillPaymentStatus := "unpaid"; AmountPaid := 0 |} |};
     paymentMode := "UPI"; amountPaid := "504"; transactionDetails := "";
     isProcessing := false; message := None |}.

End Payments.

(** ** The export of the stock report ([handleExportCSV], in
    src/unnamed/part_001) *)

Module StockExport.
Import Reports.

Definition quote : ascii := ascii_of_nat 34.
Definition comma : ascii := ascii_of_nat 44.
Definition lineFeed : ascii := ascii_of_nat 10.

(** [str.includes(c)] for a text [c] of one character. *)
Fixpoint hasChar (c : ascii) (str : string) : bool :=
  match str with
  | EmptyString => false
  | String c' r => Ascii.eqb c' c || hasChar c r
  end.

(** [str.replace] of every quote by two quotes. *)
Fixpoint doubleQuotes (str : string) : string :=
  match str with
  | EmptyString => EmptyString
  | String c r =>
      if Ascii.eqb c quote then String quote (String quote (doubleQuotes r))
      else String c (doubleQuotes r)
  end.

(** A cell of the file (lines 239 to 245). *)
Definition escapeCell (str : string) : string :=
  if hasChar comma str || hasChar quote str
  then String quote (doubleQuotes str ++ String quote EmptyString)
  else str.

(** [l.join(sep)]. *)
Fixpoint join (sep : string) (l : list string) : string :=
  match l with
  | [] => EmptyString
  | x :: rest =>
      match rest with
      | [] => x
      | _ :: _ => x ++ sep ++ join sep rest
      end
  end.

Definition csvLine (row : list string) : string :=
  join (String comma EmptyString) (map escapeCell row).

Definition headers : list string :=
  ["Medicine Name"; "Current Stock"; "Medicine Type"; "Last Delivery Date";
   "Expiry Date"; "Company"; "Days to Expiry"; "Status"].

(** [x || fallback]. *)
Definition orText (x fallback : string) : string :=
  if JS.truthy x then x else fallback.

(** The cells of an item, each as [String(cell)] writes it. *)
Definition rowOf (item : StockItem) : list string :=
  [ MName item;
    JSText.ofInt (CurrentStock item);
    orText (MType item) "N/A";
    orText (LastDeliveryDate item) "No delivery";
    orText (ClosestToExpiry item) "N/A";
    orText (MCompany item) "N/A";
    match DaysToExpiry item with
    | Some days => JSText.ofInt days
    | None => "N/A"
    end;
    label (getStockStatus item) ].

(** The text of the file, or [None] when there is no data to export. *)
Definition csvContent (stockData : list StockItem) : option string :=
  if (List.length stockData =? 0)%nat then None
  else Some (join (String lineFeed EmptyString)
                  (map csvLine (headers :: map rowOf stockData))).

(** No line feed in a text, and in the texts of an item. *)
Definition oneLine (str : string) : Prop := hasChar lineFeed str = false.

Definition onOneLine (item : StockItem) : Prop :=
  oneLine (MName item) /\ oneLine (MType item)
  /\ oneLine (LastDeliveryDate item) /\ oneLine (ClosestToExpiry item)
  /\ oneLine (MCompany item).

(** What may follow a piece in a text joined with [sep]: nothing, or the
    separator. *)
Definition follows (sep : ascii) (rest : string) : Prop :=
  rest = EmptyString \/ exists r, rest = String sep r.

(** A text that does not begin with a quote. *)
Definition unquoted (rest : string) : Prop :=
  forall r, rest <> String quote r.

End StockExport.

(** ** The list of sales ([ViewSales], in ViewSales.tsx) *)

Module Sales.

Record SaleItem := {
  InvoiceId : string;
  InvoiceDate : string;
  PatientName : string;
  PatientPhone : string;
  UHId : string;
  TotalAmount : Q;
  Discount : Q;
  FinalAmount : Q;
  PaymentMode : string
}.

(** [String.prototype.toLowerCase] follows the case mapping of Unicode,
    which looks at the characters around the one it maps (a capital sigma
    at the end of a word is not lowered as one inside it).  The filter is
    therefore defined over any lowering of texts; [JSText.toLowerCase] is
    the lowering of the texts made of code units below 256. *)
Section Lowering.

Variable toLowerCase : string -> string.

(** Filter sales (lines 105 to 120): the test of one sale. *)
Definition shown (searchTerm paymentFilter : string) (sale : SaleItem)
  : bool :=
  let found :=
    if JS.truthy searchTerm then
      let term := toLowerCase searchTerm in
      JSText.includes (toLowerCase (PatientName sale)) term
      || JSText.includes (toLowerCase (InvoiceId sale)) term
      || JSText.includes (toLowerCase (UHId sale)) term
    else true in
  if negb found then false
  else if JS.truthy paymentFilter
          && negb (String.eqb (PaymentMode sale) paymentFilter)
       then false
  else true.

Definition filteredSales (sales : list SaleItem)
    (searchTerm paymentFilter : string) : list SaleItem :=
  filter (shown searchTerm paymentFilter) sales.

End Lowering.

(** Three sales of a day. *)
Definition saleOfAsha : SaleItem :=
  {| InvoiceId := "INV-001"; InvoiceDate := "2024-01-05";
     PatientName := "Asha Rao"; PatientPhone := "9876543210";
     UHId := "UH-17"; TotalAmount := 65; Discount := 5;
     FinalAmount := 60; PaymentMode := "Cash" |}.

Definition saleOfRavi : SaleItem :=
  {| InvoiceId := "INV-002"; InvoiceDate := "2024-01-05";
     PatientName := "Ravi Kumar"; PatientPhone := "";
     UHId := "UH-18"; TotalAmount := 20; Discount := 0;
     FinalAmount := 20; PaymentMode := "UPI" |}.

Definition saleOfAshok : SaleItem :=
  {| InvoiceId := "INV-003"; InvoiceDate := "2024-01-05";
     PatientName := "ASHOK"; PatientPhone := "";
     UHId := "UH-19"; TotalAmount := 10; Discount := 0;
     FinalAmount := 10; PaymentMode := "Cash" |}.

Definition sampleSales : list SaleItem :=
  [saleOfAsha; saleOfRavi; saleOfAshok].

End Sales.

(** ** The select with search ([SearchableSelect], in Button.tsx) *)

Module SearchableSelect.

Record Option := {
  value : string;
  label : string
}.

Record Props := {
  options : list Option;
  selected : string;        (* the prop [value] *)
  disabled : bool;
  allowCreate : bool
}.

Record State := {
  isOpen : bool;
  searchTerm : string
}.

Definition initial : State := {| isOpen := false; searchTerm := "" |}.

Definition filteredOptions (p : Props) (st : State) : list Option :=
  filter
    (fun opt =>
       JSText.includes (JSText.toLowerCase (label opt))
                       (JSText.toLowerCase (searchTerm st)))
    (options p).

Definition exactMatch (p : Props) (st : State) : bool :=
  existsb
    (fun opt =>
       String.eqb (JSText.toLowerCase (value opt))
                  (JS.trim (JSText.toLowerCase (searchTerm st))))
    (options p).

Definition showCreateOption (p : Props) (st : State) : bool :=
  allowCreate p && JS.truthy (JS.trim (searchTerm st))
  && negb (exactMatch p st).

(** Each handler gives the next state and what it hands to [onChange]. *)
Definition handleSelect (optionValue : string) (st : State)
  : State * option string :=
  ({| isOpen := false; searchTerm := "" |}, Some optionValue).

Definition handleCreate (st : State) : State * option string :=
  let newValue := JS.trim (searchTerm st) in
  if JS.truthy newValue
  then ({| isOpen := false; searchTerm := "" |}, Some newValue)
  else (st, None).

Definition handleClear (st : State) : State * option string :=
  ({| isOpen := isOpen st; searchTerm := "" |}, Some "").

Inductive Event :=
  | ButtonClicked
  | ClickedOutside
  | TermTyped (v : string)
  | EnterPressed
  | CreateClicked
  | OptionClicked (opt : Option)
  | ClearClicked.

Definition handle (p : Props) (e : Event) (st : State)
  : State * option string :=
  match e with
  | ButtonClicked =>
      if disabled p then (st, None)
      else ({| isOpen := negb (isOpen st); searchTerm := searchTerm st |},
            None)
  | ClickedOutside => ({| isOpen := false; searchTerm := searchTerm st |}, None)
  | TermTyped v => ({| isOpen := isOpen st; searchTerm := v |}, None)
  | EnterPressed =>
      if showCreateOption p st then handleCreate st else (st, None)
  | CreateClicked => handleCreate st
  | OptionClicked opt => handleSelect (value opt) st
  | ClearClicked => handleClear st
  end.

(** What is on the screen to act on: the search input, the entry to
    create and the options that pass the filter while the list is open;
    the cross while a value is selected and the select is not disabled. *)
Definition offered (p : Props) (e : Event) (st : State) : Prop :=
  match e with
  | ButtonClicked | ClickedOutside => True
  | TermTyped _ | EnterPressed => isOpen st = true
  | CreateClicked => isOpen st = true /\ showCreateOption p st = true
  | OptionClicked opt => isOpen st = true /\ In opt (filteredOptions p st)
  | ClearClicked => JS.truthy (selected p) = true /\ disabled p = false
  end.

(** A text without white space at either end. *)
Definition startsClean (s : string) : Prop :=
  match s with
  | EmptyString => True
  | String c _ => JS.isWhiteSpace c = false
  end.

End SearchableSelect.

(** ** Signing in ([api.ts], [AuthProvider] and [ProtectedRoute] stored in
    Pharmacy.tsx, [Login.tsx]) *)

Module Auth.

(** The two items of [localStorage] the front end uses; [None] is an
    item that is not there. *)
Record Storage := {
  auth_token : option string;
  stored_username : option string
}.

Definition cleared : Storage :=
  {| auth_token := None; stored_username := None |}.

(** The cells of [AuthProvider]. *)
Record Session := {
  isAuthenticated : bool;
  username : option string;
  isLoading : bool
}.

Record World := {
  storage : Storage;
  session : Session
}.

Definition initial (s : Storage) : World :=
  {| storage := s;
     session := {| isAuthenticated := false; username := None;
                   isLoading := true |} |}.

(** What a request can throw: an error of axios, with the status and the
    [error] and [message] of the body of the reply when there are any,
    another [Error], or a value that is no [Error]. *)
Inductive Thrown :=
  | AxiosError (status : option Z) (dataError dataMessage : option string)
               (message : string)
  | OtherError (message : string)
  | NotAnError.

Definition truthyText (x : option string) : bool :=
  match x with
  | Some t => JS.truthy t
  | None => false
  end.

(** *** api.ts *)

(** Request interceptor to add JWT token: the header [Authorization]. *)
Definition authorization (s : Storage) : option string :=
  match auth_token s with
  | Some token => if JS.truthy token then Some ("Bearer " ++ token) else None
  | None => None
  end.

(** Response interceptor to handle 401 errors. *)
Definition onRejected (t : Thrown) (s : Storage) : Storage :=
  match t with
  | AxiosError (Some status) _ _ _ => if status =? 401 then cleared else s
  | _ => s
  end.

(** [x] when it is there and not empty, [fallback] otherwise. *)
Definition textOr (x : option string) (fallback : string) : string :=
  match x with
  | Some t => if JS.truthy t then t else fallback
  | None => fallback
  end.

(** Type-safe error handler. *)
Definition handleApiError (t : Thrown) : string :=
  match t with
  | AxiosError _ dataError dataMessage message =>
      textOr dataError (textOr dataMessage message)
  | OtherError message => message
  | NotAnError => "An unexpected error occurred"
  end.

(** *** AuthProvider *)

(** Verify token on app load: whether the request is made, and the state
    when it is not. *)
Definition verifies (w : World) : bool :=
  truthyText (auth_token (storage w))
  && truthyText (stored_username (storage w)).

Definition setSession (v : Session) (w : World) : World :=
  {| storage := storage w; session := v |}.

Definition setStorage (v : Storage) (w : World) : World :=
  {| storage := v; session := session w |}.

Definition loaded (w : World) : World :=
  setSession {| isAuthenticated := isAuthenticated (session w);
                username := username (session w);
                isLoading := false |} w.

Definition signedIn (user : string) (w : World) : World :=
  setSession {| isAuthenticated := true; username := Some user;
                isLoading := isLoading (session w) |} w.

Inductive VerifyReply :=
  | Valid (user : string)
  | Invalid
  | VerifyThrew (t : Thrown).

Definition verifyStart (w : World) : World :=
  if verifies w then w else loaded w.

Definition verifyEnd (r : VerifyReply) (w : World) : World :=
  loaded
    match r with
    | Valid user => signedIn user w
    | Invalid => setStorage cleared w
    | VerifyThrew t => setStorage cleared (setStorage (onRejected t (storage w)) w)
    end.

Inductive LoginReply :=
  | LoginOk (token user : string)
  | LoginThrew (t : Thrown).

(** [login]: the next state and the message of the error it throws. *)
Definition login (r : LoginReply) (w : World) : World * option string :=
  match r with
  | LoginOk token user =>
      (signedIn user
         (setStorage {| auth_token := Some token;
                        stored_username := Some user |} w),
       None)
  | LoginThrew t =>
      let errorMessage := handleApiError t in
      (setStorage (onRejected t (storage w)) w,
       Some (if JS.truthy errorMessage then errorMessage
             else "Login failed"))
  end.

Definition logout (w : World) : World :=
  setSession {| isAuthenticated := false; username := None;
                isLoading := isLoading (session w) |}
    (setStorage cleared w).

(** *** ProtectedRoute *)

Inductive View := Spinner | Nothing | Children.

Definition protectedRoute (s : Session) : View :=
  if isLoading s then Spinner
  else if negb (isAuthenticated s) then Nothing
  else Children.

(** The effect of the route: [navigate('/login', ..)]. *)
Definition redirects (s : Session) : bool :=
  negb (isLoading s) && negb (isAuthenticated s).

(** *** Login.tsx *)

Inductive LoginToast :=
  | EnterBoth                   (* Please enter both username and password *)
  | WelcomeBack                 (* Welcome back! *)
  | Failure (text : string).    (* the message of the error *)

Record Submitted := {
  after : World;
  requested : bool;             (* [login] was called *)
  toast : LoginToast;
  navigated : bool              (* [navigate("/")] *)
}.

(** [handleSubmit] of the page, with the reply to the request when one is
    made. *)
Definition handleSubmit (name password : string) (r : LoginReply)
    (w : World) : Submitted :=
  if negb (JS.truthy name) || negb (JS.truthy password)
  then {| after := w; requested := false; toast := EnterBoth;
          navigated := false |}
  else
    match login r w with
    | (w', None) =>
        {| after := w'; requested := true; toast := WelcomeBack;
           navigated := true |}
    | (w', Some text) =>
        {| after := w'; requested := true; toast := Failure text;
           navigated := false |}
    end.

(** *** What happens to a world *)

Inductive Event :=
  | Mounted
  | VerifyReplied (r : VerifyReply)
  | LoginReplied (r : LoginReply)
  | LoggedOut
  | Rejected (t : Thrown).      (* a request of a page is rejected *)

Definition dispatch (e : Event) (w : World) : World :=
  match e with
  | Mounted => verifyStart w
  | VerifyReplied r => verifyEnd r w
  | LoginReplied r => fst (login r w)
  | LoggedOut => logout w
  | Rejected t => setStorage (onRejected t (storage w)) w
  end.

Inductive reachable (s : Storage) : World -> Prop :=
  | reach_initial : reachable s (initial s)
  | reach_dispatch e w : reachable s w -> reachable s (dispatch e w).

(** The two items are there together or not at all. *)
Definition paired (s : Storage) : Prop :=
  auth_token s = None <-> stored_username s = None.

End Auth.

(** ** The toasts ([ToastProvider], in useToast.tsx) *)

Module Toasts.

(** A toast on the screen; its id is drawn when it is shown. *)
Record Toast := {
  id : string;
  type : ToastType;
  message : string
}.

(** [showToast], with the id it drew. *)
Definition showToast (t : Toast) (toasts : list Toast) : list Toast :=
  (toasts ++ [t])%list.

(** [removeToast], and what the timer of a toast does after 4 seconds. *)
Definition removeToast (i : string) (toasts : list Toast) : list Toast :=
  filter (fun toast => negb (String.eqb (id toast) i)) toasts.

Inductive Event :=
  | Shown (t : Toast)
  | TimerFired (i : string)
  | CrossClicked (i : string).

Definition dispatch (e : Event) (toasts : list Toast) : list Toast :=
  match e with
  | Shown t => showToast t toasts
  | TimerFired i | CrossClicked i => removeToast i toasts
  end.

Definition run (es : list Event) (toasts : list Toast) : list Toast :=
  fold_left (fun l e => dispatch e l) es toasts.

(** The event takes the toasts with the id [i] off the screen. *)
Definition removes (i : string) (e : Event) : Prop :=
  match e with
  | Shown _ => False
  | TimerFired j | CrossClicked j => j = i
  end.

(** The toasts the events show, in their order. *)
Fixpoint shown (es : list Event) : list Toast :=
  match es with
  | [] => []
  | Shown t :: rest => t :: shown rest
  | _ :: rest => shown rest
  end.

(** [l] is [l'] with some elements left out. *)
Inductive within {A : Type} : list A -> list A -> Prop :=
  | within_nil : within [] []
  | within_skip x l l' : within l l' -> within l (x :: l')
  | within_keep x l l' : within l l' -> within (x :: l) (x :: l').

End Toasts.

(** ** The medicine entry of the billing screen (Pharmacy.tsx) *)

Module PharmacyEntry.
Import Pharmacy PharmacyRun.

(** The cells of the entry with another selection and stock shown. *)
Definition withSelection (v : string) (stock : option Z)
    (m : MedicineState) : MedicineState :=
  {| medicines := medicines m;
     selectedMedicine := v;
     medicineDetails := medicineDetails m;
     quantity := quantity m;
     entryDuration := entryDuration m;
     batchNo := batchNo m;
     currentStock := stock |}.

Definition withDetails (d : option MedicineDetails) (b : string)
    (m : MedicineState) : MedicineState :=
  {| medicines := medicines m;
     selectedMedicine := selectedMedicine m;
     medicineDetails := d;
     quantity := quantity m;
     entryDuration := entryDuration m;
     batchNo := b;
     currentStock := currentStock m |}.

Definition withTyped (q d : string) (m : MedicineState) : MedicineState :=
  {| medicines := medicines m;
     selectedMedicine := selectedMedicine m;
     medicineDetails := medicineDetails m;
     quantity := q;
     entryDuration := d;
     batchNo := batchNo m;
     currentStock := currentStock m |}.

(** Handle medicine selection (lines 228 to 259), up to the request; the
    second component says whether the details are asked for. *)
Definition handleMedicineSelect (v : string) (st : State) : State * bool :=
  let m := medicine st in
  if negb (JS.truthy v)
  then (setMedicine (withDetails None "-" (withSelection v None m)) st,
        false)
  else
    let stock :=
      match find (fun x => String.eqb (MName x) v) (medicines m) with
      | Some med => Some (CurrentStock med)
      | None => currentStock m
      end in
    (setMedicine (withSelection v stock m) st, true).

(** How the request for the details ends. *)
Inductive DetailsReply :=
  | DetailsOk (d : MedicineDetails)
  | DetailsRefused
  | DetailsThrew.

Definition detailsReplied (r : DetailsReply) (st : State) : State :=
  let m := medicine st in
  match r with
  | DetailsOk d =>
      let b := match dBatchNo d with
               | Some b => orDash b
               | None => "-"
               end in
      setMedicine (withDetails (Some d) b m) st
  | DetailsRefused => st
  | DetailsThrew => setMedicine (withDetails None (batchNo m) m) st
  end.

(** The events of the entry, and those of the rest of the screen. *)
Inductive EntryEvent :=
  | MedicineSelected (v : string)
  | DetailsReplied (r : DetailsReply)
  | QuantityTyped (v : string)
  | DurationTyped (v : string)
  | Screen (e : Event).

Definition step (e : EntryEvent) (st : State) : State :=
  match e with
  | MedicineSelected v => fst (handleMedicineSelect v st)
  | DetailsReplied r => detailsReplied r st
  | QuantityTyped v =>
      setMedicine (withTyped v (entryDuration (medicine st)) (medicine st)) st
  | DurationTyped v =>
      setMedicine (withTyped (quantity (medicine st)) v (medicine st)) st
  | Screen e => dispatch e st
  end.

(** The entry is written through its own handlers only. *)
Definition entryEvent (e : EntryEvent) : Prop :=
  match e with
  | Screen (MedicineEdited _) => False
  | _ => True
  end.

(** The states of the screen once the list of medicines is loaded. *)
Definition loaded (meds : list Medicine) : State :=
  setMedicine
    {| medicines := meds; selectedMedicine := ""; medicineDetails := None;
       quantity := ""; entryDuration := ""; batchNo := "-";
       currentStock := None |}
    initial.

Inductive onEntry (meds : list Medicine) : State -> Prop :=
  | entry_loaded : onEntry meds (loaded meds)
  | entry_step e st :
      onEntry meds st -> entryEvent e -> onEntry meds (step e st).

(** The medicine the stock check of [handleAddMedicine] looks at. *)
Definition checked (st : State) : option Medicine :=
  find (fun x => String.eqb (MName x) (selectedMedicine (medicine st)))
       (medicines (medicine st)).

(** The stock shown is the stock of the medicine that is checked. *)
Definition stockShown (meds : list Medicine) (st : State) : Prop :=
  medicines (medicine st) = meds
  /\ (selectedMedicine (medicine st) <> "" ->
      forall med, checked st = Some med ->
        currentStock (medicine st) = Some (CurrentStock med)).

End PharmacyEntry.

(** ** The patient of a bill (Pharmacy.tsx) *)

Module PharmacyPatient.
Import Pharmacy.

(** A patient of the day, as the server lists them; a phone or a UHId
    the server left out is the empty text. *)
Record Patient := {
  PName : string;
  Phone : string;
  UHId : string
}.

(** Handle patient selection (lines 166 to 199): the cells after the
    handler, and the name a UHId is asked for, if any.  This is the
    handler the name control calls (line 528);
    [handlePatientNameChange] (lines 202 to 225) is defined in the source
    but no control calls it, so it is not part of the screen. *)
Definition handlePatientSelect (patients : list Patient) (v : string)
    (p : PatientState) : PatientState * option string :=
  match find (fun x => String.eqb (PName x) v) patients with
  | Some existingPatient =>
      ({| selectedPatient := v;
          patientName := PName existingPatient;
          phoneNo := Phone existingPatient;
          uhid := UHId existingPatient;
          age := ""; gender := "";
          isNewPatient := false |},
       None)
  | None =>
      if JS.truthy (JS.trim v)
      then ({| selectedPatient := v; patientName := v; phoneNo := "";
               uhid := uhid p; age := ""; gender := "";
               isNewPatient := true |},
            Some v)
      else ({| selectedPatient := v; patientName := ""; phoneNo := "";
               uhid := ""; age := ""; gender := "";
               isNewPatient := false |},
            None)
  end.

(** The phone cell with something else in it. *)
Definition withPhone (v : string) (st : State) : State :=
  let p := patient st in
  setPatient {| selectedPatient := selectedPatient p;
                patientName := patientName p;
                phoneNo := v;
                uhid := uhid p; age := age p; gender := gender p;
                isNewPatient := isNewPatient p |} st.

End PharmacyPatient.

(** ** Binary64 numbers

    A JavaScript [number] is a binary64 floating-point number, and the
    arithmetic of the handlers rounds: [10 - 0.005] is
    9.99499999999999921840..., not 9.995.  A binary64 number is kept as
    the rational it stands for, and an operation is the exact operation
    followed by the rounding to the nearest binary64 number, ties to the
    even one, with gradual underflow.  Numbers of magnitude 2^1024 and
    above, which binary64 turns into an infinity, are not represented:
    they are rounded as if the range of exponents went on. *)

Module Binary64.

Local Open Scope Q_scope.

Definition pow2 (z : Z) : Q := 2 ^ z.

(** The exponent [e] with [2^e <= a < 2^(e+1)], for a positive [a]. *)
Definition ilog2 (a : Q) : Z :=
  let e0 := (Z.log2 (Qnum a) - Z.log2 (Zpos (Qden a)))%Z in
  if Qle_bool (pow2 e0) a then e0 else (e0 - 1)%Z.

(** The exponent of the last place of the binary64 numbers around [a]:
    52 places below the leading one, and -1074 for the subnormal
    numbers. *)
Definition exponent (a : Q) : Z := (Z.max (ilog2 a) (-1022) - 52)%Z.

(** The integer nearest to [q], the even one of the two when [q] is
    half-way. *)
Definition nearestEven (q : Q) : Z :=
  let f := Qfloor q in
  match Qcompare (q - inject_Z f) (1 # 2) with
  | Lt => f
  | Gt => (f + 1)%Z
  | Eq => if Z.even f then f else (f + 1)%Z
  end.

Definition roundPositive (a : Q) : Q :=
  inject_Z (nearestEven (a / pow2 (exponent a))) * pow2 (exponent a).

(** The binary64 number nearest to [x], as a reduced fraction. *)
Definition round (x : Q) : Q :=
  let x := Qred x in
  Qred match Qcompare x 0 with
       | Eq => 0
       | Gt => roundPositive x
       | Lt => - roundPositive (- x)
       end.

(** [x + y], [x - y] and [x * y] on numbers. *)
Definition add (x y : Q) : Q := round (x + y).
Definition sub (x y : Q) : Q := round (x - y).
Definition mul (x y : Q) : Q := round (x * y).

(** The number a decimal literal of the source, or a number in a reply
    of the server, stands for. *)
Definition literal (x : Q) : Q := round x.

(** The number an integer stands for. *)
Definition ofInt (n : Z) : Q := round (inject_Z n).

(** [parseFloat(s)] as a number: the binary64 number nearest to the
    decimal that [JS.parseFloat] reads. *)
Definition parseFloat (s : string) : option Q :=
  option_map round (JS.parseFloat s).

End Binary64.

(** ** Pharmacy.tsx in binary64

    The calculations of the billing screen as the code carries them out,
    in binary64.  The cells, the events and the handlers that do no
    arithmetic are those of [Pharmacy]; the definitions below are the
    ones that compute with numbers, under the names they have there. *)

Module Pharmacy64.
Import Pharmacy PharmacyRun.

(** *** Calculations (lines 91 to 95) *)

Definition grandTotal (st : State) : Q :=
  fold_left (fun sum item => Binary64.add sum (total item)) (billItems st) 0%Q.

Definition discountValue (st : State) : Q :=
  JS.orZero (Binary64.parseFloat (discount (payment st))).

(** Negative discount adds to total, positive subtracts. *)
Definition finalAmount (st : State) : Q :=
  JS.Math_max (Binary64.sub (grandTotal st) (discountValue st)) 0.

(** The final amount as the screen shows it (lines 743, 835 and 905). *)
Definition shownFinalAmount (st : State) : string :=
  JS.toFixed2 (finalAmount st).

(** *** Adding a line (lines 261 to 307) *)

(** The line built for medicine [med] and quantity [q]; the MRP is a
    number of the list of medicines the server sent. *)
Definition newItem (st : State) (med : Medicine) (q : Z) : BillItem :=
  {| id := itemCounter st + 1;
     name := MName med;
     batch := orDash (batchNo (medicine st));
     qty := q;
     price := Binary64.literal (MRP med);
     duration := orDash (entryDuration (medicine st));
     total := Binary64.mul (Binary64.literal (MRP med)) (Binary64.ofInt q);
     mid := MId med |}.

(** Add medicine to bill. *)
Definition handleAddMedicine (st : State) : State * option Toast :=
  let m := medicine st in
  if negb (JS.truthy (selectedMedicine m)) || negb (JS.truthy (quantity m))
  then (st, Some (SelectMedicineAndQuantity, warning))
  else
    match find (fun x => String.eqb (MName x) (selectedMedicine m))
               (medicines m) with
    | None => (st, Some (MedicineNotFound, error))
    | Some med =>
        match JS.parseInt (quantity m) with
        | None => (st, Some (EnterValidQuantity, warning))
        | Some q =>
            if q <=? 0
            then (st, Some (EnterValidQuantity, warning))
            else if q >? CurrentStock med
            then (st, Some (InsufficientStock (CurrentStock med) q, error))
            else (accept st (newItem st med q), None)
        end
    end.

(** *** The payment-mode effect (lines 326 to 339)

    Reset amounts when payment mode changes. *)
Definition paymentModeEffect (st : State) : State :=
  let mode := paymentMode (payment st) in
  if String.eqb mode "Cash" then
    setUpiAmount "0.00" (setCashAmount (JS.toFixed2 (finalAmount st)) st)
  else if String.eqb mode "UPI" then
    setCashAmount "0.00" (setUpiAmount (JS.toFixed2 (finalAmount st)) st)
  else if String.eqb mode "Both" then
    setUpiAmount "" (setCashAmount "" st)
  else st.

(** The dependency array [[paymentMode, finalAmount]]. *)
Definition depsChanged (before after : State) : bool :=
  negb (String.eqb (paymentMode (payment before))
                   (paymentMode (payment after)))
  || negb (Qeq_bool (finalAmount before) (finalAmount after)).

(** The render that follows a handler: the effect runs when its
    dependencies changed. *)
Definition render (before after : State) : State :=
  if depsChanged before after then paymentModeEffect after else after.

(** *** Submitting the invoice (lines 341 to 432) *)

(** The two amounts of a split payment, read at submission. *)
Definition cashEntered (st : State) : Q :=
  JS.orZero (Binary64.parseFloat (cashAmount (payment st))).

Definition upiEntered (st : State) : Q :=
  JS.orZero (Binary64.parseFloat (upiAmount (payment st))).

(** The checks made before anything is sent, in the order of the source:
    the toast of the first one that fails. *)
Definition validate (st : State) : option Toast :=
  let p := patient st in
  let pay := payment st in
  if negb (JS.truthy (JS.trim (patientName p)))
  then Some (EnterPatientName, warning)
  else if (List.length (billItems st) =? 0)%nat
  then Some (AddAtLeastOneMedicine, warning)
  else if negb (JS.truthy (paymentMode pay))
  then Some (SelectPaymentMode, warning)
  else if isNewPatient p && JS.truthy (phoneNo p)
          && negb (JS.tenDigits (phoneNo p))
  then Some (EnterValidPhone, warning)
  else if String.eqb (paymentMode pay) "Both"
          && (let cash := cashEntered st in
              let upi := upiEntered st in
              JS.gt (JS.Math_abs
                       (Binary64.sub (Binary64.add cash upi) (finalAmount st)))
                    (Binary64.literal (1 # 100)))
  then Some (SplitMustEqualTotal
               (JS.toFixed2 (Binary64.add (cashEntered st) (upiEntered st)))
               (JS.toFixed2 (finalAmount st)),
             error)
  else None.

Definition invoiceData (st : State) : InvoiceData :=
  let p := patient st in
  let pay := payment st in
  let mode := paymentMode pay in
  {| patient_name := patientName p;
     phone_no := phoneNo p;
     inv_uhid := uhid p;
     inv_age := age p;
     inv_gender := gender p;
     inv_medicines :=
       map (fun item => {| medicine_name := name item;
                           batch_no := batch item;
                           line_quantity := qty item;
                           line_price := price item;
                           line_duration := duration item |})
           (billItems st);
     inv_discount := discountValue st;
     payment_mode := mode;
     cash_amount :=
       if String.eqb mode "Cash" then finalAmount st
       else if String.eqb mode "Both" then cashEntered st else 0%Q;
     upi_amount :=
       if String.eqb mode "UPI" then finalAmount st
       else if String.eqb mode "Both" then upiEntered st else 0%Q;
     comments := paymentComments pay |}.

(** Submit prescription: the state after the handler, the toast it showed
    and the payload it posted, if any. *)
Definition handleSubmit (st : State) (r : Reply)
  : State * option Toast * option InvoiceData :=
  match validate st with
  | Some t => (st, Some t, None)
  | None => (settle st r, None, Some (invoiceData st))
  end.

(** *** Events *)

(** The handler of an event, before the render that follows it. *)
Definition handle (e : Event) (st : State) : State :=
  match e with
  | PatientEdited p => setPatient p st
  | MedicineEdited m => setMedicine m st
  | AddMedicine => fst (handleAddMedicine st)
  | RemoveMedicine i => handleRemoveMedicine i st
  | ClearAll => handleClearAll st
  | ConfirmClearAll => fst (confirmClearAll st)
  | CancelClearAll => setShowClearConfirm false st
  | DiscountTyped v => setDiscount v st
  | PaymentModeChosen v => setPaymentMode v st
  | CashTyped v => setCashAmount v st
  | UpiTyped v => setUpiAmount v st
  | CommentsTyped v => setPaymentComments v st
  | ClearForm => handleClearForm st
  | SubmitClicked =>
      match validate st with
      | Some _ => st
      | None => beginSubmit st
      end
  | ReplyArrived r => finishSubmit r st
  end.

Definition dispatch (e : Event) (st : State) : State :=
  render st (handle e st).

Definition run (es : list Event) (st : State) : State :=
  fold_left (fun s e => dispatch e s) es st.

(** The states the screen can be in. *)
Inductive reachable : State -> Prop :=
  | reach_initial : reachable initial
  | reach_dispatch e st : reachable st -> reachable (dispatch e st).

(** The states reached through the controls on offer: the two amount
    inputs are rendered only while the payment mode is Both (lines 760 to
    781). *)
Inductive onScreen : State -> Prop :=
  | screen_initial : onScreen initial
  | screen_dispatch e st :
      onScreen st -> PharmacyScreen.offered e st = true ->
      onScreen (dispatch e st).

(** The two amount cells agree with the final amount: in mode Cash the
    cash cell is the final amount written with two decimals and the UPI
    cell is 0.00, in mode UPI the other way round. *)
Definition amountsInSync (st : State) : Prop :=
  (paymentMode (payment st) = "Cash" ->
   cashAmount (payment st) = JS.toFixed2 (finalAmount st)
   /\ upiAmount (payment st) = "0.00")
  /\ (paymentMode (payment st) = "UPI" ->
      upiAmount (payment st) = JS.toFixed2 (finalAmount st)
      /\ cashAmount (payment st) = "0.00").

(** The stored total of a line is the product of its price and its
    quantity. *)
Definition lineConsistent (item : BillItem) : Prop :=
  total item = Binary64.mul (price item) (Binary64.ofInt (qty item)).

(** The subtotal of the specification, the sum over the lines of quantity
    times unit price, summed in the order of the lines in the arithmetic
    of the code. *)
Definition subtotal (L : list BillItem) : Q :=
  fold_left
    (fun sum item =>
       Binary64.add sum (Binary64.mul (price item) (Binary64.ofInt (qty item))))
    L 0%Q.

(** The checks of [handleSubmit] that are not about the payment pass. *)
Definition otherChecksPass (st : State) : Prop :=
  JS.truthy (JS.trim (patientName (patient st))) = true
  /\ billItems st <> []
  /\ isNewPatient (patient st) && JS.truthy (phoneNo (patient st))
     && negb (JS.tenDigits (phoneNo (patient st))) = false.

(** *** Sample bills *)

(** Two lines, 2 at 10.00 and 3 at 15.00, and the discount typed. *)
Definition twoLines (d : string) : State :=
  run [Sample.named "Asha"; Sample.pick "Paracetamol" "2"; AddMedicine;
       Sample.pick "Amoxicillin" "3"; AddMedicine; DiscountTyped d] initial.

(** The two lines with payment mode Both and the amounts typed. *)
Definition split (cash upi : string) : State :=
  run [DiscountTyped ""; PaymentModeChosen "Both"; CashTyped cash;
       UpiTyped upi] (twoLines "").

(** A single line of 10.00 and the discount typed. *)
Definition oneLine (d : string) : State :=
  run [Sample.named "Asha"; Sample.pick "Paracetamol" "1"; AddMedicine;
       DiscountTyped d] initial.

(** The two lines with a discount of 5.00, payment mode Both and the
    amounts typed. *)
Definition split5 (cash upi : string) : State :=
  run [PaymentModeChosen "Both"; CashTyped cash; UpiTyped upi]
      (twoLines "5.00").

(** Cash is chosen for the two lines; then a third line is added and a
    discount typed. *)
Definition cashThenMore : State :=
  run [PaymentModeChosen "Cash"; Sample.pick "Cetirizine" "4"; AddMedicine;
       DiscountTyped "2.5"] (twoLines "").

(** Cash is chosen for an empty bill; then a line of 10.00 is added and a
    discount of 0.005 typed. *)
Definition cashThenTie : State :=
  run [PaymentModeChosen "Cash"; Sample.named "Asha";
       Sample.pick "Paracetamol" "1"; AddMedicine; DiscountTyped "0.005"]
      initial.

End Pharmacy64.

(** ** The purchase entry in binary64

    [handleAddItem] of the [Inventory] component (ViewSales.tsx, lines
    1057 to 1093) with the arithmetic of the code; the cells are those of
    [Inventory]. *)

Module Inventory64.
Import Inventory.

(** [medicineDetails?.MRP || 0]; the MRP is a number of the reply that
    brought the details. *)
Definition catalogMRP (st : State) : Q :=
  match medicineDetails st with
  | Some d => JS.orZero (option_map Binary64.literal (MRP d))
  | None => 0%Q
  end.

(** [parseFloat(purchasePrice) || 0]. *)
Definition unitPrice (st : State) : Q :=
  JS.orZero (Binary64.parseFloat (purchasePrice st)).

(** Add item to list. *)
Definition handleAddItem (st : State) : State :=
  let refuse (t : MessageText) := setMessage (Some (msgError, t)) st in
  if negb (JS.truthy (selectedMedicine st)) then refuse SelectMedicine
  else if quantityRefused (entryQuantity st) then refuse EnterValidQuantity
  else
    let price := unitPrice st in
    let mrp := catalogMRP st in
    let difference := Binary64.sub mrp price in
    let newItem := {|
      id := itemCounter st + 1;
      item_name := selectedMedicine st;
      quantity := JS.parseInt (entryQuantity st);
      batch_no := batchNo st;
      expiry_date := expiryDate st;
      price := price;
      difference := difference
    |} in
    {| selectedMedicine := "";
       medicineDetails := None;
       entryQuantity := "";
       batchNo := "";
       expiryDate := "";
       purchasePrice := "";
       items := items st ++ [newItem];
       itemCounter := itemCounter st + 1;
       message := None;
       showUpdatePriceModal := showUpdatePriceModal st;
       showPriceUpdateConfirm := showPriceUpdateConfirm st;
       updatingPrice := updatingPrice st;
       updateMedicineName := updateMedicineName st;
       newMRP := newMRP st;
       newPTR := newPTR st |}.

End Inventory64.

(** ** Scenarios of the specification *)

Module Scenario.
Import Pharmacy PharmacyRun.

(** Three lines are added, the second is removed by its id and the
    operator picks a medicine again, with quantity 1. *)
Definition afterRemoval : State :=
  run (Sample.threeLinesOneRemoved ++ [Sample.pick "Paracetamol" "1"])%list
      initial.

End Scenario.

(** ** Properties of the billing screen *)

Module PharmacyFacts.
Import Pharmacy PharmacyRun Spec.

Local Open Scope Q_scope.

(** *** Arithmetic of the primitives *)

Lemma orZero_some (q : Q) : JS.orZero (Some q) == q.
Proof.
  unfold JS.orZero. destruct (Qeq_bool q 0) eqn:E.
  - apply Qeq_bool_iff in E. symmetry. exact E.
  - reflexivity.
Qed.

Lemma gt_false_iff (x y : Q) : JS.gt x y = false <-> x <= y.
Proof.
  unfold JS.gt. rewrite negb_false_iff. apply Qle_bool_iff.
Qed.

Lemma gt_true_iff (x y : Q) : JS.gt x y = true <-> y < x.
Proof.
  unfold JS.gt. rewrite negb_true_iff. split; intro H.
  - apply Qnot_le_lt. intro L. apply Qle_bool_iff in L. congruence.
  - destruct (Qle_bool x y) eqn:E; [|reflexivity].
    apply Qle_bool_iff in E. apply Qle_not_lt in E. contradiction.
Qed.

Lemma max_zero_nonneg (x : Q) : 0 <= JS.Math_max x 0.
Proof. unfold JS.Math_max. apply Q.le_max_r. Qed.

Lemma max_zero_of_nonpos (x : Q) : x <= 0 -> JS.Math_max x 0 == 0.
Proof. intro H. unfold JS.Math_max. apply Q.max_r. exact H. Qed.

Lemma max_zero_of_nonneg (x : Q) : 0 <= x -> JS.Math_max x 0 == x.
Proof. intro H. unfold JS.Math_max. apply Q.max_l. exact H. Qed.

(** *** The running sum of [reduce] *)



(** *** What a handler does to the lines and to the counter *)

Lemma render_billItems (a b : State) : billItems (render a b) = billItems b.
Proof.
  unfold render, paymentModeEffect.
  destruct (depsChanged a b); [|reflexivity].
  repeat match goal with |- context [if ?c then _ else _] => destruct c end;
    reflexivity.
Qed.

Lemma render_itemCounter (a b : State) :
  itemCounter (render a b) = itemCounter b.
Proof.
  unfold render, paymentModeEffect.
  destruct (depsChanged a b); [|reflexivity].
  repeat match goal with |- context [if ?c then _ else _] => destruct c end;
    reflexivity.
Qed.

(** The two ways [handleAddMedicine] ends: a toast and the state as it
    was, or the line for a listed medicine and a quantity within stock. *)
Lemma handleAddMedicine_cases (st : State) :
  (exists t, handleAddMedicine st = (st, Some t))
  \/ (exists med q,
        JS.truthy (selectedMedicine (medicine st)) = true
        /\ find (fun x => String.eqb (MName x) (selectedMedicine (medicine st)))
                (medicines (medicine st)) = Some med
        /\ JS.parseInt (quantity (medicine st)) = Some q
        /\ (0 < q <= CurrentStock med)%Z
        /\ handleAddMedicine st = (accept st (newItem st med q), None)).
Proof.
  unfold handleAddMedicine.
  destruct (JS.truthy (selectedMedicine (medicine st))) eqn:Hs; simpl;
    [|left; eauto].
  destruct (JS.truthy (quantity (medicine st))) eqn:Hq; simpl;
    [|left; eauto].
  destruct (find _ _) as [med|] eqn:Hf; [|left; eauto].
  destruct (JS.parseInt _) as [q|] eqn:Hp; [|left; eauto].
  destruct (q <=? 0)%Z eqn:H0; [left; eauto|].
  destruct (q >? CurrentStock med)%Z eqn:H1; [left; eauto|].
  right. exists med, q. repeat split; trivial.
  - apply Z.leb_gt in H0. exact H0.
  - rewrite Z.gtb_ltb in H1. apply Z.ltb_ge in H1. exact H1.
Qed.


Lemma finishSubmit_bill (r : Reply) (st : State) :
  itemCounter (finishSubmit r st) = itemCounter st
  /\ (billItems (finishSubmit r st) = billItems st
      \/ billItems (finishSubmit r st) = []).
Proof.
  unfold finishSubmit. destruct r as [[msg|]|d]; simpl; auto.
  destruct (resp_success d); simpl; auto.
Qed.

(** After the render, the lines and the counter are those the handler
    left. *)
Ltac through_render :=
  rewrite ?render_billItems, ?render_itemCounter.

Lemma dispatch_billChange (e : Event) (st : State) :
  billChange st (dispatch e st).
Proof.
  unfold dispatch.
  destruct e; simpl;
    try (apply bill_kept; through_render; reflexivity).
  - (* AddMedicine *)
    destruct (handleAddMedicine_cases st)
      as [[t Ht]|(med & q & _ & _ & _ & _ & Ha)].
    + rewrite Ht. apply bill_kept; through_render; reflexivity.
    + apply (bill_appended _ _ med q); through_render;
        unfold issued; rewrite Ha; reflexivity.
  - (* RemoveMedicine *)
    apply (bill_filtered _ _ i); through_render; reflexivity.
  - (* ClearAll *)
    apply bill_kept; through_render;
      unfold handleClearAll; destruct (billItems st) eqn:E; simpl;
      rewrite ?E; reflexivity.
  - (* ConfirmClearAll *)
    apply bill_emptied; through_render; reflexivity.
  - (* ClearForm *)
    apply bill_emptied; through_render; reflexivity.
  - (* SubmitClicked *)
    apply bill_kept; through_render; destruct (validate st); reflexivity.
  - (* ReplyArrived *)
    destruct (finishSubmit_bill r st) as [Hc [Hb|Hb]].
    + apply bill_kept; through_render; assumption.
    + apply bill_emptied; through_render; assumption.
Qed.

(** *** Invariants of the reachable states *)

Lemma reachable_run (es : list Event) (st : State) :
  reachable st -> reachable (run es st).
Proof.
  revert st. induction es as [|e es IH]; intros st H; simpl.
  - exact H.
  - apply IH. apply reach_dispatch. exact H.
Qed.

Lemma Forall_filter_keep {A : Type}
    (P : A -> Prop) (f : A -> bool) (l : list A) :
  Forall P l -> Forall P (filter f l).
Proof.
  intro H. apply Forall_forall. intros x Hx.
  apply filter_In in Hx. destruct Hx as [Hx _].
  rewrite Forall_forall in H. apply H. exact Hx.
Qed.


(** *** Payment validation *)

Lemma truthy_false_iff (s : string) : JS.truthy s = false <-> s = ""%string.
Proof. destruct s; simpl; split; intro H; congruence. Qed.

Lemma truthy_true_iff (s : string) : JS.truthy s = true <-> s <> ""%string.
Proof. destruct s; simpl; split; intro H; congruence. Qed.

Lemma length_eqb_zero {A : Type} (l : list A) :
  (List.length l =? 0)%nat = false <-> l <> [].
Proof. destruct l; simpl; split; intro H; congruence. Qed.

(** [validate] once the checks that are not about the payment pass. *)
Lemma validate_payment (st : State) :
  otherChecksPass st ->
  validate st =
    if negb (JS.truthy (paymentMode (payment st)))
    then Some (SelectPaymentMode, warning)
    else if String.eqb (paymentMode (payment st)) "Both"
            && JS.gt (JS.Math_abs (cashEntered st + upiEntered st
                                   - finalAmount st)) (1 # 100)
    then Some (SplitMustEqualTotal
                 (JS.toFixed2 (cashEntered st + upiEntered st))
                 (JS.toFixed2 (finalAmount st)), error)
    else None.
Proof.
  intros (Hn & Hb & Hp). unfold validate.
  rewrite Hn. simpl negb. cbv iota.
  apply length_eqb_zero in Hb. rewrite Hb.
  destruct (negb (JS.truthy (paymentMode (payment st)))); [reflexivity|].
  rewrite Hp. reflexivity.
Qed.


(** *** Adding a line *)

Lemma parseInt_empty : JS.parseInt "" = None.
Proof. reflexivity. Qed.

(** The guard of [handleAddMedicine], read off its two ways to end. *)
Lemma handleAddMedicine_accepts (st : State) (med : Medicine) (q : Z) :
  JS.truthy (selectedMedicine (medicine st)) = true ->
  find (fun x => String.eqb (MName x) (selectedMedicine (medicine st)))
       (medicines (medicine st)) = Some med ->
  JS.parseInt (quantity (medicine st)) = Some q ->
  (0 < q <= CurrentStock med)%Z ->
  handleAddMedicine st = (accept st (newItem st med q), None).
Proof.
  intros Hs Hf Hp [H0 H1]. unfold handleAddMedicine.
  rewrite Hs, Hf, Hp. simpl.
  assert (Hq : JS.truthy (quantity (medicine st)) = true).
  { destruct (quantity (medicine st)); [discriminate Hp|reflexivity]. }
  rewrite Hq. simpl.
  apply Z.leb_gt in H0. rewrite H0.
  assert (Hg : (q >? CurrentStock med)%Z = false).
  { rewrite Z.gtb_ltb. apply Z.ltb_ge. exact H1. }
  rewrite Hg. reflexivity.
Qed.

Lemma handleAddMedicine_short (st : State) (med : Medicine) (q : Z) :
  JS.truthy (selectedMedicine (medicine st)) = true ->
  find (fun x => String.eqb (MName x) (selectedMedicine (medicine st)))
       (medicines (medicine st)) = Some med ->
  JS.parseInt (quantity (medicine st)) = Some q ->
  (0 < q)%Z -> (CurrentStock med < q)%Z ->
  handleAddMedicine st
  = (st, Some (InsufficientStock (CurrentStock med) q, error)).
Proof.
  intros Hs Hf Hp H0 H1. unfold handleAddMedicine.
  rewrite Hs, Hf, Hp. simpl.
  assert (Hq : JS.truthy (quantity (medicine st)) = true).
  { destruct (quantity (medicine st)); [discriminate Hp|reflexivity]. }
  rewrite Hq. simpl.
  apply Z.leb_gt in H0. rewrite H0.
  assert (Hg : (q >? CurrentStock med)%Z = true).
  { rewrite Z.gtb_ltb. apply Z.ltb_lt. exact H1. }
  rewrite Hg. reflexivity.
Qed.

(** C3. For a listed medicine and a quantity that reads as a positive
    integer, the line is refused for stock, with a toast carrying the
    available and the requested quantity and the state left as it was,
    exactly when the requested quantity is strictly greater than the
    stock; a request for exactly the stock is accepted. *)
Theorem stock_check_refuses_iff_above_stock
    (st : State) (med : Medicine) (q : Z) :
  JS.truthy (selectedMedicine (medicine st)) = true ->
  find (fun x => String.eqb (MName x) (selectedMedicine (medicine st)))
       (medicines (medicine st)) = Some med ->
  JS.parseInt (quantity (medicine st)) = Some q ->
  (0 < q)%Z ->
  (handleAddMedicine st
   = (st, Some (InsufficientStock (CurrentStock med) q, error))
   <-> (q > CurrentStock med)%Z)
  /\ (handleAddMedicine st = (accept st (newItem st med q), None)
      <-> (q <= CurrentStock med)%Z)
  /\ (q = CurrentStock med ->
      handleAddMedicine st = (accept st (newItem st med q), None)).
Proof.
  intros Hs Hf Hp H0.
  destruct (Z_le_gt_dec q (CurrentStock med)) as [Hle|Hgt].
  - pose proof (handleAddMedicine_accepts st med q Hs Hf Hp (conj H0 Hle))
      as Ha.
    rewrite Ha. repeat split; try tauto; try lia.
    intro H. discriminate H.
  - assert (Hlt : (CurrentStock med < q)%Z) by lia.
    pose proof (handleAddMedicine_short st med q Hs Hf Hp H0 Hlt) as Ha.
    rewrite Ha. repeat split; try tauto; try lia.
    intro H. discriminate H.
Qed.

Lemma stock_check_refuses_iff_above_stock_witness :
  handleAddMedicine (Sample.asking "5")
  = (accept (Sample.asking "5")
       (newItem (Sample.asking "5") Sample.paracetamol 5), None)
  /\ handleAddMedicine (Sample.asking "6")
     = (Sample.asking "6", Some (InsufficientStock 5 6, error)).
Proof.
  split.
  - apply (stock_check_refuses_iff_above_stock
             (Sample.asking "5") Sample.paracetamol 5);
      reflexivity.
  - apply (stock_check_refuses_iff_above_stock
             (Sample.asking "6") Sample.paracetamol 6);
      reflexivity.
Defined.

(** C4 as first stated fails: with Paracetamol (5 in stock) selected and
    2.5 typed as the quantity, the candidate is not refused; [parseInt]
    reads 2 and the line is added with quantity 2. *)
Lemma fractional_quantity_is_accepted :
  quantity (medicine Sample.fractional) = "2.5"%string
  /\ JS.parseFloat "2.5" = Some 2.5
  /\ snd (handleAddMedicine Sample.fractional) = None
  /\ map qty (billItems (fst (handleAddMedicine Sample.fractional))) = [2%Z]
  /\ billItems Sample.fractional = []
  /\ ~ (exists t,
         handleAddMedicine Sample.fractional = (Sample.fractional, Some t)).
Proof. repeat split. intros [t H]. discriminate H. Qed.

(** C4 (amended). The candidate is refused, with a toast and the state
    left as it was, when the medicine name is empty, when the quantity
    text is empty or has no leading integer, or when the integer
    [parseInt] reads from it is 0 or less.  A quantity is not refused for
    being fractional: for a listed medicine, whatever text reads as an
    integer between 1 and the stock is accepted with that integer as the
    quantity of the line. *)
Theorem add_line_rejections (st : State) :
  let m := medicine st in
  (selectedMedicine m = ""%string
   \/ quantity m = ""%string
   \/ JS.parseInt (quantity m) = None
   \/ (exists q, JS.parseInt (quantity m) = Some q /\ (q <= 0)%Z) ->
   exists t, handleAddMedicine st = (st, Some t))
  /\ (forall med q,
        selectedMedicine m <> ""%string ->
        find (fun x => String.eqb (MName x) (selectedMedicine m))
             (medicines m) = Some med ->
        JS.parseInt (quantity m) = Some q ->
        (0 < q <= CurrentStock med)%Z ->
        handleAddMedicine st = (accept st (newItem st med q), None)
        /\ qty (newItem st med q) = q).
Proof.
  intro m. split.
  - intro H.
    destruct (handleAddMedicine_cases st)
      as [Ht|(med & q & Hs & _ & Hp & Hq & _)]; [exact Ht|].
    fold m in Hs, Hp. exfalso.
    destruct H as [H|[H|[H|(q' & H & Hle)]]].
    + rewrite H in Hs. discriminate.
    + rewrite H in Hp. discriminate.
    + congruence.
    + assert (q' = q) by congruence. lia.
  - intros med q Hs Hf Hp Hq. split; [|reflexivity].
    apply handleAddMedicine_accepts; trivial.
    apply truthy_true_iff. exact Hs.
Qed.

(** *** Ids of the lines *)

Section SortedLists.

Lemma sorted_snoc (l : list Z) (x : Z) :
  StronglySorted Z.lt l -> Forall (fun y => (y < x)%Z) l ->
  StronglySorted Z.lt (l ++ [x]).
Proof.
  induction 1 as [|y l Hl IH Hy]; intro Hx; simpl.
  - repeat constructor.
  - inversion Hx as [|? ? Hyx Hrest]; subst.
    constructor; [apply IH; exact Hrest|].
    apply Forall_app. split; [exact Hy|]. constructor; [exact Hyx|constructor].
Qed.

Lemma sorted_NoDup (l : list Z) : StronglySorted Z.lt l -> NoDup l.
Proof.
  induction 1 as [|y l _ IH Hy]; constructor; [|exact IH].
  intro Hin. rewrite Forall_forall in Hy. specialize (Hy y Hin). lia.
Qed.

Context {A : Type} (key : A -> Z) (keep : A -> bool).

Lemma sorted_filter (l : list A) :
  StronglySorted Z.lt (map key l) ->
  StronglySorted Z.lt (map key (filter keep l)).
Proof.
  induction l as [|a l IH]; simpl; intro H; [constructor|].
  apply StronglySorted_inv in H. destruct H as [Hl Ha].
  destruct (keep a); simpl; [|apply IH; exact Hl].
  constructor; [apply IH; exact Hl|].
  rewrite Forall_forall in *. intros k Hk.
  apply Ha. apply in_map_iff in Hk. destruct Hk as (b & Hb & Hin).
  apply in_map_iff. exists b. split; [exact Hb|].
  apply filter_In in Hin. tauto.
Qed.

Lemma filter_all (l : list A) :
  (forall a, In a l -> keep a = true) -> filter keep l = l.
Proof.
  induction l as [|a l IH]; simpl; intro H; [reflexivity|].
  rewrite (H a (or_introl eq_refl)). f_equal. apply IH.
  intros b Hb. apply H. right. exact Hb.
Qed.

End SortedLists.

Lemma reachable_idsInOrder (st : State) : reachable st -> idsInOrder st.
Proof.
  induction 1 as [|e st _ [IHs IHb]]; unfold idsInOrder.
  - split; constructor.
  - destruct (dispatch_billChange e st)
      as [Hb Hc|med q _ Hb Hc|i Hb Hc|Hb Hc]; rewrite Hb, Hc.
    + split; assumption.
    + split.
      * rewrite map_app. simpl. apply sorted_snoc; [exact IHs|].
        rewrite Forall_forall in *. intros k Hk.
        apply in_map_iff in Hk. destruct Hk as (b & Hb' & Hin).
        specialize (IHb b Hin). simpl in IHb. lia.
      * apply Forall_app. split.
        -- rewrite Forall_forall in *. intros b Hin.
           specialize (IHb b Hin). simpl in IHb. lia.
        -- constructor; [simpl; lia|constructor].
    + split; [apply sorted_filter; exact IHs|].
      apply Forall_filter_keep. exact IHb.
    + split; constructor.
Qed.

Lemma dispatch_counter_mono (e : Event) (st : State) :
  (itemCounter st <= itemCounter (dispatch e st))%Z.
Proof.
  destruct (dispatch_billChange e st) as [_ Hc|? ? _ _ Hc|? _ Hc|_ Hc];
    rewrite Hc; lia.
Qed.

Lemma issued_counter (e : Event) (st : State) (i : Z) :
  issued e st = Some i ->
  i = (itemCounter st + 1)%Z /\ itemCounter (dispatch e st) = i.
Proof.
  destruct e; simpl; try discriminate.
  destruct (handleAddMedicine_cases st)
    as [[t Ht]|(med & q & _ & _ & _ & _ & Ha)].
  - rewrite Ht. simpl. discriminate.
  - unfold dispatch. rewrite render_itemCounter. simpl.
    rewrite Ha. simpl. intro H. injection H as <-. split; reflexivity.
Qed.

(** Every id handed out from a state on is beyond the counter of that
    state, and the ids come out in strictly increasing order. *)
Lemma idsIssued_increase (es : list Event) (st : State) :
  Forall (fun i => (itemCounter st < i)%Z) (idsIssued es st)
  /\ StronglySorted Z.lt (idsIssued es st).
Proof.
  revert st. induction es as [|e es IH]; intro st; simpl.
  - split; constructor.
  - destruct (IH (dispatch e st)) as [Hall Hs].
    pose proof (dispatch_counter_mono e st) as Hm.
    destruct (issued e st) as [i|] eqn:Hi.
    + destruct (issued_counter e st i Hi) as [Hv Hc].
      split.
      * constructor; [lia|].
        eapply Forall_impl; [|exact Hall]. simpl. intros; lia.
      * constructor; [exact Hs|].
        eapply Forall_impl; [|exact Hall]. simpl. intros; lia.
    + split; [|exact Hs].
      eapply Forall_impl; [|exact Hall]. simpl. intros; lia.
Qed.

Lemma setBillItems_same (st : State) : setBillItems (billItems st) st = st.
Proof. destruct st. reflexivity. Qed.

(** Whatever is on the bill after a run was on it before, or was handed
    an id beyond the counter the run started from; and the counter never
    moves back. *)
Lemma run_lines_old_or_new (es : list Event) (st : State) :
  (itemCounter st <= itemCounter (run es st))%Z
  /\ forall item, In item (billItems (run es st)) ->
       In item (billItems st) \/ (itemCounter st < id item)%Z.
Proof.
  revert st. induction es as [|e es IH]; intro st; simpl.
  - split; [lia|]. intros item H. left. exact H.
  - destruct (IH (dispatch e st)) as [Hc Hin].
    pose proof (dispatch_counter_mono e st) as Hm.
    split; [lia|]. intros item H. destruct (Hin item H) as [H'|H']; [|right; lia].
    destruct (dispatch_billChange e st)
      as [Hb _|med q _ Hb _|i Hb _|Hb _]; rewrite Hb in H'.
    + left. exact H'.
    + apply in_app_or in H'. destruct H' as [H'|[<-|[]]]; [left; exact H'|].
      right. simpl. lia.
    + apply filter_In in H'. left. apply H'.
    + destruct H'.
Qed.

(** C5. On every state of the screen: a line that passes the checks (a
    listed medicine is selected and the quantity reads as an integer
    from 1 to the stock) is accepted, appended at the end of the sequence
    with the id [itemCounter + 1], and the counter moves to that id.  The
    ids on the screen are strictly ascending and none is beyond the
    counter, so the id handed out is carried by no line.  Along any run
    from the state the counter never moves back, a line on the bill
    afterwards is a line that was on it, unchanged, or carries an id
    beyond the counter of the state, and the ids handed out are strictly
    increasing: no id is handed out twice, whatever was removed in
    between.  Removing by id leaves the counter alone and keeps exactly
    the lines with another id: nothing changes when no line has the id,
    and otherwise the one line with it is cut out and the lines before
    and after it stay as they were, in their order. *)
Theorem line_ids_are_never_reused (st : State) :
  reachable st ->
  (forall med q,
     JS.truthy (selectedMedicine (medicine st)) = true ->
     find (fun x => String.eqb (MName x) (selectedMedicine (medicine st)))
          (medicines (medicine st)) = Some med ->
     JS.parseInt (quantity (medicine st)) = Some q ->
     (0 < q <= CurrentStock med)%Z ->
     let st' := dispatch AddMedicine st in
     snd (handleAddMedicine st) = None
     /\ (exists item,
           billItems st' = (billItems st ++ [item])%list
           /\ id item = (itemCounter st + 1)%Z
           /\ name item = MName med /\ qty item = q
           /\ ~ In (id item) (map id (billItems st)))
     /\ itemCounter st' = (itemCounter st + 1)%Z
     /\ issued AddMedicine st = Some (itemCounter st + 1)%Z)
  /\ (StronglySorted Z.lt (map id (billItems st))
      /\ NoDup (map id (billItems st))
      /\ Forall (fun item => (id item <= itemCounter st)%Z) (billItems st))
  /\ (forall es,
        (itemCounter st <= itemCounter (run es st))%Z
        /\ (forall item, In item (billItems (run es st)) ->
              In item (billItems st) \/ (itemCounter st < id item)%Z)
        /\ StronglySorted Z.lt (idsIssued es st)
        /\ Forall (fun i => (itemCounter st < i)%Z) (idsIssued es st))
  /\ (forall i,
        let L := billItems st in
        let L' := billItems (handleRemoveMedicine i st) in
        itemCounter (handleRemoveMedicine i st) = itemCounter st
        /\ (forall item, In item L' <-> In item L /\ id item <> i)
        /\ (~ In i (map id L) -> handleRemoveMedicine i st = st)
        /\ (In i (map id L) ->
            exists before x after,
              L = (before ++ x :: after)%list /\ id x = i
              /\ L' = (before ++ after)%list)).
Proof.
  intros Hr. destruct (reachable_idsInOrder st Hr) as [Hs Hb].
  split; [|split; [|split]].
  - intros med q Hsel Hf Hp Hq st'.
    pose proof (handleAddMedicine_accepts st med q Hsel Hf Hp Hq) as Hacc.
    subst st'. unfold dispatch. rewrite render_billItems, render_itemCounter.
    unfold issued. cbn [handle]. rewrite Hacc. cbn [fst snd].
    split; [reflexivity|]. split; [|split; reflexivity].
    exists (newItem st med q). cbn. repeat split.
    intro Hin. apply in_map_iff in Hin. destruct Hin as (b & Hid & Hin).
    rewrite Forall_forall in Hb. specialize (Hb b Hin). lia.
  - split; [exact Hs|]. split; [apply sorted_NoDup; exact Hs|exact Hb].
  - intro es. destruct (run_lines_old_or_new es st) as [Hc Hin].
    destruct (idsIssued_increase es st) as [Ha Hi].
    split; [exact Hc|]. split; [exact Hin|]. split; [exact Hi|exact Ha].
  - intros i L L'. fold L in Hs.
    assert (HL' : L' = filter (fun item => negb (id item =? i)%Z) L)
      by reflexivity.
    split; [reflexivity|]. split; [|split].
    + intro item. rewrite HL', filter_In, negb_true_iff, Z.eqb_neq.
      reflexivity.
    + intro Hnot. unfold handleRemoveMedicine. fold L.
      rewrite filter_all; [apply setBillItems_same|].
      intros a Ha. rewrite negb_true_iff, Z.eqb_neq. intro Hid.
      apply Hnot. apply in_map_iff. exists a. split; assumption.
    + intro Hin. apply in_map_iff in Hin. destruct Hin as (x & Hid & Hin).
      apply in_split in Hin. destruct Hin as (before & after & Hsplit).
      exists before, x, after. split; [exact Hsplit|]. split; [exact Hid|].
      rewrite HL', Hsplit, filter_app. simpl.
      rewrite Hid, Z.eqb_refl. simpl.
      apply sorted_NoDup in Hs. rewrite Hsplit, map_app in Hs. simpl in Hs.
      pose proof (NoDup_remove_2 _ _ _ Hs) as Hout. rewrite Hid in Hout.
      rewrite !filter_all; [reflexivity| |];
        intros a Ha; rewrite negb_true_iff, Z.eqb_neq; intro Hida;
        apply Hout; apply in_or_app; [right|left];
        apply in_map_iff; exists a; split; assumption.
Qed.

(** The removal scenario of the specification: three lines are added and
    the second is removed by id; the lines with ids 1 and 3 remain in
    that order, removing id 2 again changes nothing, and the line added
    next gets id 4, not the id that was freed. *)
Lemma line_ids_are_never_reused_witness :
  map id (billItems Scenario.afterRemoval) = [1; 3]%Z
  /\ map name (billItems Scenario.afterRemoval)
     = ["Paracetamol"; "Cetirizine"]
  /\ itemCounter Scenario.afterRemoval = 3%Z
  /\ handleRemoveMedicine 2 Scenario.afterRemoval = Scenario.afterRemoval
  /\ map id (billItems (dispatch AddMedicine Scenario.afterRemoval))
     = [1; 3; 4]%Z
  /\ itemCounter (dispatch AddMedicine Scenario.afterRemoval) = 4%Z
  /\ map id (billItems (handleRemoveMedicine 1
                          (dispatch AddMedicine Scenario.afterRemoval)))
     = [3; 4]%Z.
Proof.
  pose (st := Scenario.afterRemoval). fold st.
  assert (Hr : reachable st) by (apply reachable_run; constructor).
  destruct (line_ids_are_never_reused st Hr) as [Hadd [_ [_ Hrem]]].
  destruct (Hadd Sample.paracetamol 1%Z) as [_ [[item [Hb [Hid _]]] [Hc _]]];
    [vm_compute; reflexivity|vm_compute; reflexivity|vm_compute; reflexivity
    |vm_compute; split; [reflexivity|discriminate]|].
  destruct (Hrem 2%Z) as [_ [_ [Hnop _]]].
  split; [vm_compute; reflexivity|]. split; [vm_compute; reflexivity|].
  split; [vm_compute; reflexivity|].
  assert (Hn : ~ In 2%Z (map id (billItems st)))
    by (vm_compute; intros [H|[H|[]]]; discriminate H).
  split; [exact (Hnop Hn)|].
  split; [rewrite Hb, map_app; change (map id [item]) with [id item];
          rewrite Hid; vm_compute; reflexivity|].
  split; [rewrite Hc; vm_compute; reflexivity|].
  vm_compute. reflexivity.
Defined.

(** *** Reading back what [toFixed] wrote *)

Section ReadBack.
Import Numeral.

Local Open Scope Z_scope.

(** The digit a literal character stands for. *)
Ltac digit_of_char :=
  match goal with
  | |- context [JS.decDigit ?c] =>
      let v := eval vm_compute in (JS.decDigit c) in
      change (JS.decDigit c) with v
  end.

Lemma readDigits_numeral
    (d : Decimal.uint) (rest : string) (acc : Z) (k : nat) :
  stopsDigits rest ->
  JS.readDigits JS.decDigit 10 (NilEmpty.string_of_uint d ++ rest) acc k
  = (value d acc, (k + Decimal.nb_digits d)%nat, rest).
Proof.
  intro Hrest. revert acc k.
  induction d as [|d IH|d IH|d IH|d IH|d IH|d IH|d IH|d IH|d IH|d IH];
    intros acc k;
    cbn [NilEmpty.string_of_uint append value Decimal.nb_digits].
  - rewrite Nat.add_0_r.
    destruct rest as [|c rest]; [reflexivity|].
    simpl in Hrest. cbn [JS.readDigits]. rewrite Hrest. reflexivity.
  - cbn [JS.readDigits]. digit_of_char. cbv iota beta.
    rewrite IH, Nat.add_succ_r. reflexivity.
  - cbn [JS.readDigits]. digit_of_char. cbv iota beta.
    rewrite IH, Nat.add_succ_r. reflexivity.
  - cbn [JS.readDigits]. digit_of_char. cbv iota beta.
    rewrite IH, Nat.add_succ_r. reflexivity.
  - cbn [JS.readDigits]. digit_of_char. cbv iota beta.
    rewrite IH, Nat.add_succ_r. reflexivity.
  - cbn [JS.readDigits]. digit_of_char. cbv iota beta.
    rewrite IH, Nat.add_succ_r. reflexivity.
  - cbn [JS.readDigits]. digit_of_char. cbv iota beta.
    rewrite IH, Nat.add_succ_r. reflexivity.
  - cbn [JS.readDigits]. digit_of_char. cbv iota beta.
    rewrite IH, Nat.add_succ_r. reflexivity.
  - cbn [JS.readDigits]. digit_of_char. cbv iota beta.
    rewrite IH, Nat.add_succ_r. reflexivity.
  - cbn [JS.readDigits]. digit_of_char. cbv iota beta.
    rewrite IH, Nat.add_succ_r. reflexivity.
  - cbn [JS.readDigits]. digit_of_char. cbv iota beta.
    rewrite IH, Nat.add_succ_r. reflexivity.
Qed.

Lemma value_shift (d : Decimal.uint) (acc : Z) :
  value d acc = acc * 10 ^ Z.of_nat (Decimal.nb_digits d) + value d 0.
Proof.
  revert acc.
  induction d as [|d IH|d IH|d IH|d IH|d IH|d IH|d IH|d IH|d IH|d IH];
    intro acc; cbn [value Decimal.nb_digits];
    [simpl; lia|..];
    rewrite (IH (acc * 10 + _)), (IH (0 * 10 + _));
    rewrite Nat2Z.inj_succ, Z.pow_succ_r by lia; ring.
Qed.

Lemma value_pos_acc (d : Decimal.uint) (p : positive) :
  value d (Z.pos p) = Z.pos (Pos.of_uint_acc d p).
Proof.
  revert p.
  induction d as [|d IH|d IH|d IH|d IH|d IH|d IH|d IH|d IH|d IH|d IH];
    intro p; cbn [value Pos.of_uint_acc]; [reflexivity|..];
    rewrite <- IH; f_equal; lia.
Qed.

Lemma value_of_uint (d : Decimal.uint) : value d 0 = Z.of_N (N.of_uint d).
Proof.
  unfold N.of_uint.
  induction d as [|d IH|d IH|d IH|d IH|d IH|d IH|d IH|d IH|d IH|d IH];
    cbn [value Pos.of_uint]; [reflexivity|exact IH|..];
    simpl (0 * 10 + _); rewrite value_pos_acc; reflexivity.
Qed.

Lemma value_to_uint (n : N) : value (N.to_uint n) 0 = Z.of_N n.
Proof. rewrite value_of_uint, DecimalN.Unsigned.of_to. reflexivity. Qed.

Lemma to_uint_nonnil (n : N) : N.to_uint n <> Decimal.Nil.
Proof.
  destruct n as [|p]; [discriminate|]. apply DecimalPos.Unsigned.to_uint_nonnil.
Qed.

Lemma digitsOf_numeral (n : N) :
  JS.digitsOf n = NilEmpty.string_of_uint (N.to_uint n).
Proof.
  unfold JS.digitsOf, NilZero.string_of_uint.
  pose proof (to_uint_nonnil n) as H.
  destruct (N.to_uint n); [contradiction|..]; reflexivity.
Qed.

Lemma twoDigits_numeral (n : N) :
  JS.twoDigits n = NilEmpty.string_of_uint (twoDigitNumeral n).
Proof.
  unfold JS.twoDigits, twoDigitNumeral.
  destruct (n <? 10)%N; simpl; rewrite digitsOf_numeral; reflexivity.
Qed.

Lemma twoDigitNumeral_digits (n : N) :
  (n < 100)%N -> Decimal.nb_digits (twoDigitNumeral n) = 2%nat.
Proof.
  intro H.
  assert (Hall : forallb (fun m => Nat.eqb (Decimal.nb_digits
                                   (twoDigitNumeral (N.of_nat m))) 2)
                   (seq 0 100) = true) by (vm_compute; reflexivity).
  rewrite forallb_forall in Hall.
  specialize (Hall (N.to_nat n)). rewrite N2Nat.id in Hall.
  apply Nat.eqb_eq. apply Hall. apply in_seq. lia.
Qed.

Lemma twoDigitNumeral_value (n : N) : value (twoDigitNumeral n) 0 = Z.of_N n.
Proof.
  unfold twoDigitNumeral. destruct (n <? 10)%N; cbn [value];
    apply value_to_uint.
Qed.

(** A numeral that is not empty starts with a digit: nothing to trim and
    no sign to read. *)
Lemma numeral_head (d : Decimal.uint) (rest : string) :
  d <> Decimal.Nil ->
  JS.readSign (JS.trimStart (NilEmpty.string_of_uint d ++ rest))
  = (false, NilEmpty.string_of_uint d ++ rest).
Proof.
  destruct d; [contradiction|..]; reflexivity.
Qed.

Lemma append_empty (s : string) : (s ++ "")%string = s.
Proof. induction s as [|c s IH]; simpl; [|rewrite IH]; reflexivity. Qed.

(** Reading a numeral, a point and two decimals. *)
Lemma parseFloat_two_decimals (a b : N) :
  (b < 100)%N ->
  JS.parseFloat (JS.digitsOf a ++ "." ++ JS.twoDigits b)
  = Some (Z.of_N (a * 100 + b) # 100).
Proof.
  intro Hb. unfold JS.parseFloat.
  rewrite digitsOf_numeral, twoDigits_numeral.
  rewrite numeral_head by apply to_uint_nonnil.
  rewrite readDigits_numeral by reflexivity.
  change ("." ++ ?s)%string with (String "." s). cbv iota beta.
  rewrite <- (append_empty (NilEmpty.string_of_uint (twoDigitNumeral b))).
  rewrite readDigits_numeral by exact I.
  rewrite (twoDigitNumeral_digits b Hb). simpl (0 + 2)%nat.
  rewrite value_shift, (twoDigitNumeral_digits b Hb), value_to_uint,
    twoDigitNumeral_value.
  assert (Hv : Z.of_N a * 10 ^ Z.of_nat 2 + Z.of_N b = Z.of_N (a * 100 + b))
    by (simpl; lia).
  rewrite Hv.
  destruct (0 + Decimal.nb_digits (N.to_uint a))%nat; reflexivity.
Qed.

End ReadBack.

Lemma nearestCent_nonneg (x : Q) : 0 <= x -> (0 <= JS.nearestCent x)%Z.
Proof.
  intro H. unfold JS.nearestCent.
  change 0%Z with (Qfloor 0). apply Qfloor_resp_le. lra.
Qed.

(** Written with two decimals and read back, a number that is not
    negative is its nearest number of hundredths. *)
Lemma parseFloat_toFixed2 (x : Q) :
  0 <= x -> JS.parseFloat (JS.toFixed2 x) = Some (JS.nearestCent x # 100).
Proof.
  intro H. unfold JS.toFixed2.
  assert (Hle : Qle_bool 0 x = true) by (apply Qle_bool_iff; exact H).
  rewrite Hle. cbn [negb]. cbv zeta.
  change (("" ++ ?s)%string) with s.
  set (n := Z.to_N (JS.nearestCent x)).
  rewrite parseFloat_two_decimals by (apply N.mod_lt; discriminate).
  assert (Hn : (n / 100 * 100 + n mod 100)%N = n).
  { rewrite N.mul_comm. symmetry. apply N.div_mod. discriminate. }
  rewrite Hn. unfold n. rewrite Z2N.id by (apply nearestCent_nonneg; exact H).
  reflexivity.
Qed.

(** The nearest number of hundredths is within half a hundredth, and is
    the number itself when it has at most two decimals. *)
Lemma nearestCent_close (x : Q) :
  Qabs ((JS.nearestCent x # 100) - x) <= 1 # 200.
Proof.
  unfold JS.nearestCent. set (y := x * 100 + (1 # 2)).
  pose proof (Qfloor_le y) as Hlo. pose proof (Qlt_floor y) as Hhi.
  rewrite inject_Z_plus in Hhi. change (inject_Z 1) with 1 in Hhi.
  assert (He : Qfloor y # 100 == inject_Z (Qfloor y) / 100).
  { rewrite Qmake_Qdiv. reflexivity. }
  rewrite He. apply Qabs_Qle_condition.
  generalize dependent (inject_Z (Qfloor y)). intros f Hlo Hhi _.
  unfold y in *. unfold Qdiv. change (/ 100) with (1 # 100). split; lra.
Qed.

(** *** The payment-mode effect *)

Lemma Qeq_bool_same (x : Q) : Qeq_bool x x = true.
Proof. apply Qeq_bool_iff. reflexivity. Qed.


(** *** Submission *)

Lemma validate_none_lines (st : State) :
  validate st = None -> billItems st <> [].
Proof.
  unfold validate.
  destruct (negb (JS.truthy (JS.trim (patientName (patient st)))));
    [discriminate|].
  destruct (billItems st); simpl; [discriminate|]. intros _. discriminate.
Qed.

Lemma finishSubmit_failure (r : Reply) (st : State) :
  succeeded r = false ->
  exists text,
    finishSubmit r st
    = setSubmitting false
        (setSubmitMessage (Some (msgError, ErrorText text)) st).
Proof.
  unfold finishSubmit. destruct r as [[msg|]|d]; simpl; intro H; eauto.
  rewrite H. eauto.
Qed.

Lemma finishSubmit_success (d : InvoiceResponse) (st : State) :
  resp_success d = true ->
  finishSubmit (Resolved d) st
  = setSubmitting false
      (handleClearForm
         (setSubmitMessage
            (Some (msgSuccess,
                   InvoiceCreated (resp_invoice_id d)
                     (option_map JS.toFixed2 (resp_final_amount d))))
            st)).
Proof. unfold finishSubmit. intro H. rewrite H. reflexivity. Qed.

(** The render leaves a state alone when the lines and the payment cells
    are those of the render before. *)
Lemma render_same_payment (a b : State) :
  billItems b = billItems a -> payment b = payment a -> render a b = b.
Proof.
  intros Hb Hp. unfold render, depsChanged.
  unfold finalAmount, grandTotal, discountValue. rewrite Hb, Hp.
  rewrite String.eqb_refl, Qeq_bool_same. reflexivity.
Qed.

(** The render after the form was cleared: the mode is unset, so the
    effect writes nothing. *)
Lemma render_unset (a b : State) :
  paymentMode (payment b) = ""%string -> render a b = b.
Proof.
  intro H. unfold render, paymentModeEffect. rewrite H. simpl.
  destruct (depsChanged a b); reflexivity.
Qed.

(** What the arrival of a reply does to the screen, whatever happened
    since the click. *)
Lemma dispatch_reply (r : Reply) (st : State) :
  dispatch (ReplyArrived r) st = finishSubmit r st.
Proof.
  unfold dispatch, handle.
  destruct (succeeded r) eqn:Hs.
  - destruct r as [msg|d]; [discriminate|]. simpl in Hs.
    rewrite (finishSubmit_success d st Hs).
    apply render_unset. reflexivity.
  - destruct (finishSubmit_failure r st Hs) as [text Ht]. rewrite Ht.
    apply render_same_payment; reflexivity.
Qed.

(** A click and the reply with nothing in between: the handler run from
    start to end. *)
Lemma click_then_reply (st : State) (r : Reply) :
  validate st = None ->
  run [SubmitClicked; ReplyArrived r] st = fst (fst (handleSubmit st r)).
Proof.
  intro Hv. unfold run, fold_left, handleSubmit. rewrite Hv.
  rewrite dispatch_reply. unfold settle. simpl fst.
  unfold dispatch, handle. rewrite Hv.
  rewrite render_same_payment by reflexivity. reflexivity.
Qed.

(** C8. For a submission that passes the checks, the draft (lines,
    discount, payment mode and the two amounts) is cleared if and only if
    the server answers with success.  When the request fails or the server
    answers without success, the draft is exactly as it was, an error
    message is shown, and the same submission passes the checks again.
    Whatever the operator did while the request was on its way, a reply
    with success empties the draft and any other reply leaves it as it
    is. *)
Theorem draft_cleared_iff_server_confirms (st : State) (r : Reply) :
  validate st = None ->
  let st' := run [SubmitClicked; ReplyArrived r] st in
  (draft st' = emptyDraft <-> succeeded r = true)
  /\ (succeeded r = true ->
      exists invoice total,
        submitMessage st' = Some (msgSuccess, InvoiceCreated invoice total))
  /\ (succeeded r = false ->
      draft st' = draft st
      /\ patient st' = patient st
      /\ (exists text, submitMessage st' = Some (msgError, ErrorText text))
      /\ validate st' = None
      /\ invoiceData st' = invoiceData st)
  /\ (forall later,
        draft (dispatch (ReplyArrived r) later)
        = if succeeded r then emptyDraft else draft later).
Proof.
  intros Hv st'.
  assert (Hst : st' = finishSubmit r (beginSubmit st)).
  { unfold st'. rewrite (click_then_reply st r Hv).
    unfold handleSubmit. rewrite Hv. reflexivity. }
  assert (Hlater : forall later,
             draft (dispatch (ReplyArrived r) later)
             = if succeeded r then emptyDraft else draft later).
  { intro later. rewrite dispatch_reply.
    destruct (succeeded r) eqn:Hs.
    - destruct r as [msg|d]; [discriminate|]. simpl in Hs.
      rewrite (finishSubmit_success d later Hs). reflexivity.
    - destruct (finishSubmit_failure r later Hs) as [text Ht].
      rewrite Ht. reflexivity. }
  split; [|split; [|split; [|exact Hlater]]]; clear Hlater.
  - destruct (succeeded r) eqn:Hs.
    + destruct r as [msg|d]; [discriminate|]. simpl in Hs.
      rewrite (finishSubmit_success d _ Hs) in Hst. rewrite Hst.
      split; reflexivity.
    + destruct (finishSubmit_failure r (beginSubmit st) Hs) as [text Ht].
      rewrite Ht in Hst. split; [|discriminate].
      rewrite Hst. unfold draft, emptyDraft. simpl.
      intro H. apply validate_none_lines in Hv. congruence.
  - intro Hs. destruct r as [msg|d]; [discriminate|]. simpl in Hs.
    rewrite (finishSubmit_success d _ Hs) in Hst. rewrite Hst.
    simpl. eauto.
  - intro Hs.
    destruct (finishSubmit_failure r (beginSubmit st) Hs) as [text Ht].
    rewrite Ht in Hst. rewrite Hst.
    split; [reflexivity|]. split; [reflexivity|].
    split; [simpl; eauto|]. split; [exact Hv|reflexivity].
Qed.

Lemma draft_cleared_iff_server_confirms_witness :
  let st := dispatch (PaymentModeChosen "Cash") Sample.twoLines in
  validate st = None
  /\ draft (run [SubmitClicked; ReplyArrived Sample.confirmed] st)
     = emptyDraft
  /\ draft (run [SubmitClicked; ReplyArrived Sample.refused] st) = draft st
  /\ draft (run [SubmitClicked;
                 ReplyArrived (Rejected (Some "Network Error"%string))] st)
     = draft st.
Proof.
  intro st. assert (H : validate st = None) by reflexivity.
  split; [exact H|]. split; [|split].
  - destruct (draft_cleared_iff_server_confirms st Sample.confirmed H)
      as [Hiff _].
    apply Hiff. reflexivity.
  - destruct (draft_cleared_iff_server_confirms st Sample.refused H)
      as (_ & _ & Hkeep & _).
    apply Hkeep. reflexivity.
  - destruct (draft_cleared_iff_server_confirms st
                (Rejected (Some "Network Error"%string)) H)
      as (_ & _ & Hkeep & _).
    apply Hkeep. reflexivity.
Defined.

(** The explicit clear action empties the draft as well. *)
Lemma clear_form_empties_draft (st : State) :
  draft (dispatch ClearForm st) = emptyDraft.
Proof.
  unfold dispatch. rewrite render_unset by reflexivity. reflexivity.
Qed.

(** *** The payload *)



End PharmacyFacts.

(** ** Properties of the purchase-entry screen *)

Module InventoryFacts.
Import Inventory.

Local Open Scope Q_scope.

(** C9. The price update reports success whether the request went
    through or threw: in both cases the handler leaves the same state
    behind, with the success message for the medicine, the dialog closed
    and the busy flag down, and it starts the refresh of the list of
    medicines; the only trace of the failure is the error it logs.  No
    outcome puts an error message on the screen. *)
Theorem price_update_failure_reported_as_success (st : State) :
  fst (handleUpdatePrice st Thrown) = fst (handleUpdatePrice st Fulfilled)
  /\ (forall o,
        let st' := fst (handleUpdatePrice st o) in
        message st'
        = Some (msgSuccess, PriceUpdated (updateMedicineName st))
        /\ showUpdatePriceModal st' = false
        /\ showPriceUpdateConfirm st' = false
        /\ updatingPrice st' = false
        /\ In FetchMedicines (snd (handleUpdatePrice st o)))
  /\ snd (handleUpdatePrice st Thrown)
     = [PostUpdatePrice {| form_medicine_name := updateMedicineName st;
                           form_new_mrp := newMRP st;
                           form_new_ptr := newPTR st |};
        ConsoleError; FetchMedicines]
  /\ (forall o t,
        message (fst (handleUpdatePrice st o)) <> Some (msgError, t)).
Proof.
  split; [reflexivity|]. split; [|split; [reflexivity|]].
  - intros [|]; simpl; repeat split; auto.
  - intros [|] t; simpl; discriminate.
Qed.

End InventoryFacts.

(** ** Further properties of the billing screen *)

Module PharmacyMore.
Import Pharmacy PharmacyRun Spec PharmacyScreen.

Local Open Scope Q_scope.

(** *** The amount cells follow the final amount *)

Lemma toFixed2_same (x y : Q) : x == y -> JS.toFixed2 x = JS.toFixed2 y.
Proof.
  intro H. unfold JS.toFixed2, JS.nearestCent.
  assert (Hle : Qle_bool 0 x = Qle_bool 0 y).
  { destruct (Qle_bool 0 x) eqn:Hx, (Qle_bool 0 y) eqn:Hy; trivial.
    - apply Qle_bool_iff in Hx. rewrite H in Hx.
      apply Qle_bool_iff in Hx. congruence.
    - apply Qle_bool_iff in Hy. rewrite <- H in Hy.
      apply Qle_bool_iff in Hy. congruence. }
  rewrite Hle.
  assert (Hn : Qfloor ((if negb (Qle_bool 0 y) then - x else x) * 100 + (1 # 2))
               = Qfloor ((if negb (Qle_bool 0 y) then - y else y) * 100
                         + (1 # 2))).
  { apply Qfloor_comp. destruct (negb (Qle_bool 0 y)); rewrite H; reflexivity. }
  cbv zeta. rewrite Hn. reflexivity.
Qed.

(** *** Split amounts and the effect *)




(** *** The stock check looks at one line at a time *)

Lemma quantityOf_app (m : Z) (L L' : list BillItem) :
  quantityOf m (L ++ L') = (quantityOf m L + quantityOf m L')%Z.
Proof.
  induction L as [|item L IH]; simpl; [reflexivity|].
  rewrite IH. destruct (mid item =? m)%Z; lia.
Qed.

(** X3. The stock check compares the stock with the quantity of the line
    being added, not with what the bill already holds for the medicine: a
    medicine accepted with quantity [q] is accepted again with the same
    quantity when picked a second time, as a second line with the next id,
    so the bill then holds [2 * q] more of it than before, whatever the
    stock. *)
Theorem stock_check_ignores_lines_on_the_bill
    (st : State) (med : Medicine) (q : Z) :
  JS.truthy (selectedMedicine (medicine st)) = true ->
  find (fun x => String.eqb (MName x) (selectedMedicine (medicine st)))
       (medicines (medicine st)) = Some med ->
  JS.parseInt (quantity (medicine st)) = Some q ->
  (0 < q <= CurrentStock med)%Z ->
  let again := dispatch (MedicineEdited (medicine st))
                 (dispatch AddMedicine st) in
  let st' := dispatch AddMedicine again in
  snd (handleAddMedicine again) = None
  /\ (exists first second,
        billItems st' = (billItems st ++ [first; second])%list
        /\ mid first = MId med /\ mid second = MId med
        /\ qty first = q /\ qty second = q
        /\ id second = (id first + 1)%Z)
  /\ quantityOf (MId med) (billItems st')
     = (quantityOf (MId med) (billItems st) + 2 * q)%Z.
Proof.
  intros Hs Hf Hp Hq again st'.
  pose proof (PharmacyFacts.handleAddMedicine_accepts st med q Hs Hf Hp Hq)
    as H1.
  assert (Hb1 : billItems again = (billItems st ++ [newItem st med q])%list).
  { unfold again, dispatch. rewrite PharmacyFacts.render_billItems.
    cbn [handle].
    change (billItems (setMedicine ?m ?x)) with (billItems x).
    rewrite PharmacyFacts.render_billItems, H1. reflexivity. }
  assert (Hm : medicine again = medicine st).
  { unfold again, dispatch at 1. unfold render, paymentModeEffect.
    repeat match goal with
           | |- context [if ?c then _ else _] => destruct c
           end; reflexivity. }
  assert (H2 : handleAddMedicine again
               = (accept again (newItem again med q), None)).
  { apply PharmacyFacts.handleAddMedicine_accepts; rewrite ?Hm; assumption. }
  assert (Hc : itemCounter again = (itemCounter st + 1)%Z).
  { unfold again, dispatch. rewrite PharmacyFacts.render_itemCounter.
    cbn [handle].
    change (itemCounter (setMedicine ?m ?x)) with (itemCounter x).
    rewrite PharmacyFacts.render_itemCounter, H1. reflexivity. }
  assert (Hb2 : billItems st'
                = (billItems st ++ [newItem st med q; newItem again med q])%list).
  { unfold st', dispatch. rewrite PharmacyFacts.render_billItems.
    cbn [handle]. rewrite H2. cbn [fst].
    change (billItems (accept again (newItem again med q)))
      with (billItems again ++ [newItem again med q])%list.
    rewrite Hb1, <- app_assoc. reflexivity. }
  split; [rewrite H2; reflexivity|]. split.
  - exists (newItem st med q), (newItem again med q).
    split; [exact Hb2|]. cbn [newItem mid qty id]. rewrite Hc.
    repeat split.
  - rewrite Hb2, quantityOf_app. cbn [quantityOf fold_right newItem mid qty].
    rewrite Z.eqb_refl. lia.
Qed.

Lemma stock_check_ignores_lines_on_the_bill_witness :
  let st := Sample.asking "5" in
  (0 < 5 <= CurrentStock Sample.paracetamol)%Z
  /\ quantityOf 1
       (billItems
          (dispatch AddMedicine
             (dispatch (MedicineEdited (medicine st))
                (dispatch AddMedicine st))))
     = 10%Z.
Proof.
  intro st. assert (H : (0 < 5 <= CurrentStock Sample.paracetamol)%Z).
  { split; reflexivity || discriminate. }
  split; [exact H|].
  destruct (stock_check_ignores_lines_on_the_bill st Sample.paracetamol 5
              eq_refl eq_refl eq_refl H)
    as (_ & _ & Hq).
  exact Hq.
Defined.

(** *** What is posted *)

(** What an event can do to the lines, with the quantity of a line it
    appends. *)
Lemma dispatch_billChange_positive (e : Event) (st : State) :
  billItems (dispatch e st) = billItems st
  \/ (exists item,
        billItems (dispatch e st) = (billItems st ++ [item])%list
        /\ (0 < qty item)%Z)
  \/ (exists i,
        billItems (dispatch e st)
        = filter (fun item => negb (id item =? i)%Z) (billItems st))
  \/ billItems (dispatch e st) = [].
Proof.
  unfold dispatch. rewrite PharmacyFacts.render_billItems.
  destruct e; cbn [handle]; try (left; reflexivity).
  - destruct (PharmacyFacts.handleAddMedicine_cases st)
      as [[t Ht]|(med & q & _ & _ & _ & Hq & Ha)].
    + rewrite Ht. left. reflexivity.
    + rewrite Ha. right. left. exists (newItem st med q).
      split; [reflexivity|]. simpl. lia.
  - right. right. left. exists i. reflexivity.
  - left. unfold handleClearAll. destruct (billItems st) eqn:E; simpl;
      rewrite ?E; reflexivity.
  - right. right. right. reflexivity.
  - right. right. right. reflexivity.
  - left. destruct (validate st); reflexivity.
  - destruct (PharmacyFacts.finishSubmit_bill r st) as [_ [Hb|Hb]];
      rewrite Hb; auto.
Qed.

(** Every line on the screen came out of [handleAddMedicine] with a
    positive quantity. *)
Lemma reachable_positive (st : State) :
  reachable st -> Forall (fun item => (0 < qty item)%Z) (billItems st).
Proof.
  induction 1 as [|e st _ IH].
  - constructor.
  - destruct (dispatch_billChange_positive e st) as [Hb|[(item & Hb & Hq)|[Hb|Hb]]].
    + rewrite Hb. exact IH.
    + rewrite Hb. apply Forall_app. split; [exact IH|].
      constructor; [exact Hq|constructor].
    + destruct Hb as [i Hb]. rewrite Hb.
      apply PharmacyFacts.Forall_filter_keep. exact IH.
    + rewrite Hb. constructor.
Qed.


Lemma posted_is_invoiceData (st : State) (r : Reply) (p : InvoiceData) :
  handleSubmit st r = (settle st r, None, Some p) ->
  validate st = None /\ p = invoiceData st.
Proof.
  unfold handleSubmit. destruct (validate st); [discriminate|].
  intro H. injection H as <-. split; reflexivity.
Qed.




(** X5. Nothing is posted without a patient name that is more than white
    space, a payment mode and at least one line; on every reachable state
    the posted lines are the lines of the bill in their order, with their
    names, quantities and prices, and every posted quantity is
    positive. *)
Theorem posted_invoice_is_well_formed
    (st : State) (r : Reply) (p : InvoiceData) :
  reachable st ->
  handleSubmit st r = (settle st r, None, Some p) ->
  JS.trim (patient_name p) <> ""%string
  /\ payment_mode p <> ""%string
  /\ inv_medicines p <> []
  /\ map (fun l => (medicine_name l, line_quantity l, line_price l))
         (inv_medicines p)
     = map (fun item => (name item, qty item, price item)) (billItems st)
  /\ Forall (fun l => (0 < line_quantity l)%Z) (inv_medicines p).
Proof.
  intros Hr Hs. destruct (posted_is_invoiceData st r p Hs) as [Hv Hp].
  rewrite Hp. cbn [invoiceData patient_name payment_mode inv_medicines].
  assert (Hchecks :
            JS.truthy (JS.trim (patientName (patient st))) = true
            /\ JS.truthy (paymentMode (payment st)) = true).
  { revert Hv. unfold validate.
    destruct (JS.truthy (JS.trim (patientName (patient st))));
      [|discriminate].
    destruct (List.length (billItems st) =? 0)%nat; [discriminate|].
    destruct (JS.truthy (paymentMode (payment st))); [|discriminate].
    split; reflexivity. }
  destruct Hchecks as [Hn Hm].
  split; [apply PharmacyFacts.truthy_true_iff; exact Hn|].
  split; [apply PharmacyFacts.truthy_true_iff; exact Hm|].
  pose proof (PharmacyFacts.validate_none_lines st Hv) as Hl.
  pose proof (reachable_positive st Hr) as Hq.
  split; [|split].
  - destruct (billItems st); [contradiction|discriminate].
  - rewrite map_map. reflexivity.
  - apply Forall_forall. intros l Hin. apply in_map_iff in Hin.
    destruct Hin as (item & <- & Hin). simpl.
    rewrite Forall_forall in Hq. apply Hq. exact Hin.
Qed.

Lemma posted_invoice_is_well_formed_witness :
  let st := dispatch (PaymentModeChosen "UPI") Sample.twoLines in
  reachable st
  /\ handleSubmit st Sample.confirmed
     = (settle st Sample.confirmed, None, Some (invoiceData st))
  /\ map line_quantity (inv_medicines (invoiceData st)) = [2; 3]%Z
  /\ Forall (fun l => (0 < line_quantity l)%Z)
       (inv_medicines (invoiceData st)).
Proof.
  intro st.
  assert (Hr : reachable st).
  { apply reach_dispatch. apply PharmacyFacts.reachable_run, reach_initial. }
  assert (Hs : handleSubmit st Sample.confirmed
               = (settle st Sample.confirmed, None, Some (invoiceData st)))
    by reflexivity.
  split; [exact Hr|]. split; [exact Hs|]. split; [reflexivity|].
  destruct (posted_invoice_is_well_formed st Sample.confirmed _ Hr Hs)
    as (_ & _ & _ & _ & Hq).
  exact Hq.
Defined.

End PharmacyMore.

(** ** Properties of the returns screen *)

Module ReturnsFacts.
Import Returns.

Section Lists.

Context {A : Type} (key : A -> Z).

Lemma NoDup_map_filter (keep : A -> bool) (l : list A) :
  NoDup (map key l) -> NoDup (map key (filter keep l)).
Proof.
  induction l as [|a l IH]; simpl; intro H; [constructor|].
  inversion H as [|? ? Hnot Hrest]; subst.
  destruct (keep a); simpl; [|apply IH; exact Hrest].
  constructor; [|apply IH; exact Hrest].
  intro Hin. apply Hnot. apply in_map_iff in Hin.
  destruct Hin as (b & Hb & Hin). apply filter_In in Hin.
  apply in_map_iff. exists b. tauto.
Qed.

(** With distinct keys, two elements with the same key are the same. *)
Lemma NoDup_map_same_key (l : list A) (x y : A) :
  NoDup (map key l) -> In x l -> In y l -> key x = key y -> x = y.
Proof.
  induction l as [|a l IH]; simpl; intros H Hx Hy Hk; [contradiction|].
  inversion H as [|? ? Hnot Hrest]; subst.
  destruct Hx as [<-|Hx], Hy as [<-|Hy]; trivial.
  - exfalso. apply Hnot. rewrite Hk. apply in_map. exact Hy.
  - exfalso. apply Hnot. rewrite <- Hk. apply in_map. exact Hx.
  - apply IH; assumption.
Qed.

(** With distinct keys, the list splits around the one element with a
    key, and no other element has it. *)
Lemma NoDup_map_split (l : list A) (k : Z) :
  NoDup (map key l) -> In k (map key l) ->
  exists before x after,
    l = (before ++ x :: after)%list /\ key x = k
    /\ (forall a, In a before -> key a <> k)
    /\ (forall a, In a after -> key a <> k).
Proof.
  intros Hn Hin. apply in_map_iff in Hin. destruct Hin as (x & Hk & Hin).
  apply in_split in Hin. destruct Hin as (before & after & Hl).
  exists before, x, after. split; [exact Hl|]. split; [exact Hk|].
  rewrite Hl, map_app in Hn. simpl in Hn.
  pose proof (NoDup_remove_2 _ _ _ Hn) as Hout. rewrite Hk in Hout.
  split; intros a Ha Hka; apply Hout; apply in_or_app; [left|right];
    apply in_map_iff; exists a; split; assumption.
Qed.

End Lists.

Lemma map_id_update (i : Z) (s : Status) (l : list ReturnItem) :
  map Item.id
    (map (fun r => if Item.id r =? i then Item.withStatus s r else r) l)
  = map Item.id l.
Proof.
  rewrite map_map. apply map_ext. intro r.
  destruct (Item.id r =? i); reflexivity.
Qed.

Lemma handleAddReturn_cases (today : string) (st : State) :
  (incomplete (form st) = true
   /\ returns (handleAddReturn today st) = returns st
   /\ itemCounter (handleAddReturn today st) = itemCounter st)
  \/ (incomplete (form st) = false
      /\ exists r,
           returns (handleAddReturn today st) = r :: returns st
           /\ Item.id r = itemCounter st + 1
           /\ Item.status r = pending
           /\ Item.returnDate r = today
           /\ itemCounter (handleAddReturn today st) = itemCounter st + 1).
Proof.
  unfold handleAddReturn. destruct (incomplete (form st)).
  - left. repeat split.
  - right. split; [reflexivity|]. eexists. simpl. repeat split.
Qed.

Lemma dispatch_idsDistinct (e : Event) (st : State) :
  idsDistinct st -> idsDistinct (dispatch e st).
Proof.
  intros [Hn Hb]. unfold idsDistinct.
  destruct e; cbn [dispatch]; try (split; assumption).
  - destruct (handleAddReturn_cases today st)
      as [(_ & Hr & Hc)|(_ & r & Hr & Hi & _ & _ & Hc)]; rewrite Hr, Hc.
    + split; assumption.
    + split.
      * simpl. constructor; [|exact Hn].
        intro Hin. apply in_map_iff in Hin. destruct Hin as (x & Hx & Hin).
        rewrite Forall_forall in Hb. specialize (Hb x Hin). lia.
      * constructor; [lia|].
        eapply Forall_impl; [|exact Hb]. simpl. intros; lia.
  - cbn [handleUpdateStatus returns itemCounter]. split.
    + rewrite map_id_update. exact Hn.
    + apply Forall_forall. intros y Hy. apply in_map_iff in Hy.
      destruct Hy as (x & <- & Hx). rewrite Forall_forall in Hb.
      specialize (Hb x Hx). destruct (Item.id x =? i); simpl; exact Hb.
  - unfold handleDelete. destruct (itemId (deleteConfirm st));
      cbn [returns itemCounter]; [|split; assumption].
    split; [apply NoDup_map_filter; exact Hn|].
    apply PharmacyFacts.Forall_filter_keep. exact Hb.
Qed.

Lemma reachable_idsDistinct (st : State) : reachable st -> idsDistinct st.
Proof.
  induction 1 as [|e st _ IH]; [|apply dispatch_idsDistinct; exact IH].
  split.
  - simpl. repeat constructor; simpl; intuition discriminate.
  - repeat constructor; simpl; lia.
Qed.

Lemma dispatch_counter (e : Event) (st : State) :
  itemCounter st <= itemCounter (dispatch e st)
  /\ (forall i, issued e st = Some i ->
        i = itemCounter st + 1 /\ itemCounter (dispatch e st) = i).
Proof.
  destruct e; cbn [dispatch issued];
    try (split; [simpl; lia|discriminate]).
  - destruct (handleAddReturn_cases today st)
      as [(Hi & _ & Hc)|(Hi & r & _ & _ & _ & _ & Hc)]; rewrite Hi, Hc.
    + split; [lia|discriminate].
    + split; [lia|]. intros i H. injection H as <-. split; reflexivity.
  - split; [|discriminate]. unfold handleDelete.
    destruct (itemId (deleteConfirm st)); simpl; lia.
Qed.

Lemma returnIds_increase (es : list Event) (st : State) :
  Forall (fun i => itemCounter st < i) (idsIssued es st)
  /\ StronglySorted Z.lt (idsIssued es st).
Proof.
  revert st. induction es as [|e es IH]; intro st; simpl.
  - split; constructor.
  - destruct (IH (dispatch e st)) as [Hall Hs].
    destruct (dispatch_counter e st) as [Hm Hi].
    destruct (issued e st) as [i|].
    + destruct (Hi i eq_refl) as [Hv Hc]. split.
      * constructor; [lia|].
        eapply Forall_impl; [|exact Hall]. simpl. intros; lia.
      * constructor; [exact Hs|].
        eapply Forall_impl; [|exact Hall]. simpl. intros; lia.
    + split; [|exact Hs].
      eapply Forall_impl; [|exact Hall]. simpl. intros; lia.
Qed.

(** X6. On the returns screen an accepted return is put at the head of
    the list with the id [itemCounter + 1], status pending and the date of
    the day, and the counter moves to that id; on every reachable state
    the ids on the list are pairwise distinct and none is beyond the
    counter; along any run the ids handed out are strictly increasing and
    above 2, so neither a deleted id nor the id of a sample return is ever
    handed out again. *)
Theorem return_ids_are_never_reused :
  (forall today st,
     incomplete (form st) = false ->
     exists r,
       returns (handleAddReturn today st) = r :: returns st
       /\ Item.id r = itemCounter st + 1
       /\ Item.status r = pending
       /\ Item.returnDate r = today
       /\ itemCounter (handleAddReturn today st) = Item.id r)
  /\ (forall st, reachable st ->
        NoDup (map Item.id (returns st))
        /\ Forall (fun r => Item.id r <= itemCounter st) (returns st))
  /\ (forall es,
        StronglySorted Z.lt (idsIssued es initial)
        /\ Forall (fun i => 2 < i) (idsIssued es initial)).
Proof.
  split; [|split].
  - intros today st Hc.
    destruct (handleAddReturn_cases today st)
      as [(Hi & _)|(_ & r & Hr & Hi & Hs & Hd & Hn)]; [congruence|].
    exists r. rewrite Hn, Hi. repeat split; assumption.
  - apply reachable_idsDistinct.
  - intro es. destruct (returnIds_increase es initial) as [Ha Hs].
    split; [exact Hs|exact Ha].
Qed.

(** *** Decisions *)

Lemma update_others (i : Z) (s : Status) (l : list ReturnItem) :
  (forall r, In r l -> Item.id r <> i) ->
  map (fun r => if Item.id r =? i then Item.withStatus s r else r) l = l.
Proof.
  induction l as [|a l IH]; simpl; intro H; [reflexivity|].
  assert (Ha : (Item.id a =? i) = false)
    by (apply Z.eqb_neq, H; left; reflexivity).
  rewrite Ha, IH; [reflexivity|].
  intros r Hr. apply H. right. exact Hr.
Qed.

Lemma countStatus_app (s : Status) (l l' : list ReturnItem) :
  countStatus s (l ++ l') = (countStatus s l + countStatus s l')%nat.
Proof.
  unfold countStatus. rewrite filter_app, length_app. reflexivity.
Qed.

Lemma countStatus_cons (s : Status) (r : ReturnItem) (l : list ReturnItem) :
  countStatus s (r :: l)
  = ((if Status_eqb (Item.status r) s then 1 else 0) + countStatus s l)%nat.
Proof.
  unfold countStatus. simpl. destruct (Status_eqb (Item.status r) s);
    reflexivity.
Qed.

Lemma setReturns_same (st : State) :
  {| deleteConfirm := deleteConfirm st; form := form st;
     returns := returns st; message := message st;
     itemCounter := itemCounter st |} = st.
Proof. destruct st. reflexivity. Qed.

(** X7. On every reachable state, a decision on the return with id [i]
    touches that return alone and only its status: the list keeps its
    length, its order and its ids, every other return is as it was, and
    nothing at all changes when no return has the id.  When the return was
    pending, the count of pending returns goes down by one and the count
    of returns with the decided status goes up by one. *)
Theorem decision_changes_one_status (st : State) (i : Z) (d : Decision) :
  reachable st ->
  let L := returns st in
  let L' := returns (handleUpdateStatus i d st) in
  map Item.id L' = map Item.id L
  /\ (~ In i (map Item.id L) -> handleUpdateStatus i d st = st)
  /\ (In i (map Item.id L) ->
      exists before x after,
        L = (before ++ x :: after)%list /\ Item.id x = i
        /\ L' = (before ++ Item.withStatus (statusOf d) x :: after)%list
        /\ (Item.status x = pending ->
            S (countStatus pending L') = countStatus pending L
            /\ countStatus (statusOf d) L'
               = S (countStatus (statusOf d) L))).
Proof.
  intros Hr L L'. destruct (reachable_idsDistinct st Hr) as [Hn _].
  fold L in Hn.
  assert (HL' : L' = map (fun r => if Item.id r =? i
                                 then Item.withStatus (statusOf d) r else r) L)
    by reflexivity.
  split; [rewrite HL'; apply map_id_update|]. split.
  - intro Hnot. unfold handleUpdateStatus. fold L.
    rewrite update_others; [apply setReturns_same|].
    intros r Hin Hid. apply Hnot. apply in_map_iff. exists r. tauto.
  - intro Hin.
    destruct (NoDup_map_split Item.id L i Hn Hin)
      as (before & x & after & Hl & Hx & Hb & Ha).
    exists before, x, after. split; [exact Hl|]. split; [exact Hx|].
    assert (Hnew : L' = (before ++ Item.withStatus (statusOf d) x
                                  :: after)%list).
    { rewrite HL', Hl, map_app. simpl. rewrite Hx, Z.eqb_refl.
      rewrite (update_others i _ before Hb), (update_others i _ after Ha).
      reflexivity. }
    split; [exact Hnew|]. intro Hp.
    rewrite Hnew, Hl, !countStatus_app, !countStatus_cons.
    cbn [Item.withStatus Item.status]. rewrite Hp.
    destruct d; simpl; lia.
Qed.

Lemma decision_changes_one_status_witness :
  let st := dispatch (AddReturn "2026-01-05")
              (dispatch (FormEdited
                           {| invoiceId := ""; medicineName := "Cetirizine";
                              batchNo := ""; quantity := "3";
                              reason := "Expired"; returnType := "" |})
                 initial) in
  reachable st
  /\ map Item.status (returns st) = [pending; pending; approved]
  /\ map Item.status (returns (handleUpdateStatus 1 reject st))
     = [pending; rejected; approved]
  /\ map Item.id (returns (handleUpdateStatus 1 reject st))
     = map Item.id (returns st).
Proof.
  intro st.
  assert (H : reachable st) by (repeat apply reach_dispatch; apply reach_initial).
  split; [exact H|]. split; [reflexivity|]. split; [reflexivity|].
  exact (proj1 (decision_changes_one_status st 1 reject H)).
Defined.

(** X8. Through the buttons the screen offers, a decision is final: once
    a return is approved or rejected, no event changes it; whatever is on
    the list afterwards under its id is that very return, until it is
    deleted. *)
Theorem decided_return_keeps_its_status
    (st : State) (e : Event) (x y : ReturnItem) :
  onScreen st -> offered e st = true ->
  In x (returns st) -> Item.status x <> pending ->
  In y (returns (dispatch e st)) -> Item.id y = Item.id x ->
  y = x.
Proof.
  intros Hs Ho Hx Hdec Hy Hid.
  assert (Hr : reachable st).
  { clear -Hs. induction Hs; [apply reach_initial|].
    apply reach_dispatch. assumption. }
  destruct (reachable_idsDistinct st Hr) as [Hn Hb].
  destruct e; cbn [dispatch] in Hy.
  - apply (NoDup_map_same_key Item.id (returns st)); assumption.
  - destruct (handleAddReturn_cases today st)
      as [(_ & Hl & _)|(_ & r & Hl & Hi & _)]; rewrite Hl in Hy.
    + apply (NoDup_map_same_key Item.id (returns st)); assumption.
    + destruct Hy as [<-|Hy].
      * rewrite Forall_forall in Hb. specialize (Hb x Hx). lia.
      * apply (NoDup_map_same_key Item.id (returns st)); assumption.
  - cbn [handleUpdateStatus returns] in Hy. apply in_map_iff in Hy.
    destruct Hy as (z & Hz & Hin).
    assert (Hzx : z = x).
    { apply (NoDup_map_same_key Item.id (returns st)); trivial.
      rewrite <- Hid, <- Hz. destruct (Item.id z =? i); reflexivity. }
    subst z.
    destruct (Item.id x =? i) eqn:Hxi; [|congruence].
    exfalso. apply Z.eqb_eq in Hxi.
    cbn [offered] in Ho. apply existsb_exists in Ho.
    destruct Ho as (r & Hr' & Hc). apply andb_prop in Hc.
    destruct Hc as [Hri Hrp]. apply Z.eqb_eq in Hri.
    assert (r = x).
    { apply (NoDup_map_same_key Item.id (returns st)); trivial. congruence. }
    subst r. apply Hdec. destruct (Item.status x); trivial; discriminate.
  - apply (NoDup_map_same_key Item.id (returns st)); assumption.
  - unfold handleDelete in Hy.
    destruct (itemId (deleteConfirm st)); cbn [returns] in Hy.
    + apply filter_In in Hy. destruct Hy as [Hy _].
      apply (NoDup_map_same_key Item.id (returns st)); assumption.
    + apply (NoDup_map_same_key Item.id (returns st)); assumption.
  - apply (NoDup_map_same_key Item.id (returns st)); assumption.
Qed.

Lemma decided_return_keeps_its_status_witness :
  let st := dispatch (UpdateStatus 1 reject) initial in
  onScreen initial
  /\ offered (UpdateStatus 1 reject) initial = true
  /\ forall x y,
       In x (returns initial) -> Item.status x <> pending ->
       In y (returns st) -> Item.id y = Item.id x -> y = x.
Proof.
  intro st. split; [apply screen_initial|]. split; [reflexivity|].
  intros x y. apply decided_return_keeps_its_status.
  - apply screen_initial.
  - reflexivity.
Defined.

(** *** Deleting *)

(** X9. Confirming a deletion removes exactly the return whose id the
    dialog holds: on every reachable state the returns before and after
    it stay as they were, in their order, and the counter is left alone.
    When no return has that id the list is unchanged, although the
    message still says a return was deleted.  The dialog is closed and
    holds no id afterwards, so confirming again deletes nothing; with no
    id in the dialog nothing is deleted and the message is left as it
    is. *)
Theorem delete_removes_the_confirmed_return (st : State) :
  reachable st ->
  let L := returns st in
  let st' := handleDelete st in
  deleteConfirm st' = {| isOpen := false; itemId := None |}
  /\ itemCounter st' = itemCounter st
  /\ returns (handleDelete st') = returns st'
  /\ (itemId (deleteConfirm st) = None ->
      returns st' = L /\ message st' = message st)
  /\ (forall i,
        itemId (deleteConfirm st) = Some i ->
        message st' = Some (msgSuccess, ReturnDeleted)
        /\ (~ In i (map Item.id L) -> returns st' = L)
        /\ (In i (map Item.id L) ->
            exists before x after,
              L = (before ++ x :: after)%list /\ Item.id x = i
              /\ returns st' = (before ++ after)%list)).
Proof.
  intros Hr L st'. destruct (reachable_idsDistinct st Hr) as [Hn _].
  fold L in Hn. unfold st', handleDelete.
  destruct (itemId (deleteConfirm st)) as [i|] eqn:Hi; cbn.
  - split; [reflexivity|]. split; [reflexivity|]. split; [reflexivity|].
    split; [discriminate|]. intros j Hj. injection Hj as <-.
    split; [reflexivity|]. fold L. split.
    + intro Hnot. apply PharmacyFacts.filter_all.
      intros a Ha. rewrite negb_true_iff, Z.eqb_neq. intro Hid.
      apply Hnot. apply in_map_iff. exists a. tauto.
    + intro Hin.
      destruct (NoDup_map_split Item.id L i Hn Hin)
        as (before & x & after & Hl & Hx & Hb & Ha).
      exists before, x, after. split; [exact Hl|]. split; [exact Hx|].
      rewrite Hl, filter_app. simpl. rewrite Hx, Z.eqb_refl. simpl.
      rewrite !PharmacyFacts.filter_all; [reflexivity| |];
        intros a Hin'; rewrite negb_true_iff, Z.eqb_neq; auto.
  - split; [reflexivity|]. split; [reflexivity|]. split; [reflexivity|].
    split; [split; reflexivity|discriminate].
Qed.

Lemma delete_removes_the_confirmed_return_witness :
  let st := dispatch (RequestDelete 1) initial in
  reachable st
  /\ map Item.id (returns st) = [1; 2]
  /\ map Item.id (returns (handleDelete st)) = [2]
  /\ itemCounter (handleDelete st) = 2.
Proof.
  intro st.
  assert (H : reachable st) by (apply reach_dispatch, reach_initial).
  split; [exact H|]. split; [reflexivity|]. split; [reflexivity|].
  destruct (delete_removes_the_confirmed_return st H) as (_ & Hc & _).
  exact Hc.
Defined.

End ReturnsFacts.

(** ** Properties of the stock report *)

Module ReportsFacts.
Import Reports.

Local Open Scope nat_scope.

(** The four counters, each started anywhere, after a run over the data:
    each grew by the number of items with its label. *)
Lemma tally_counts (stockData : list StockItem) (a b c d : nat) :
  fold_left tally stockData (a, b, c, d)
  = (a + labelled "Out of Stock" stockData,
     b + labelled "Low Stock" stockData,
     c + labelled "Near Expiry" stockData,
     d + labelled "In Stock" stockData).
Proof.
  revert a b c d. induction stockData as [|item L IH]; intros a b c d.
  - simpl. unfold labelled. simpl. rewrite !Nat.add_0_r. reflexivity.
  - cbn [fold_left]. unfold labelled in *. cbn [filter].
    unfold tally at 2, getStockStatus.
    destruct (CurrentStock item <=? 0)%Z;
      [rewrite IH; simpl; rewrite ?Nat.add_succ_r; reflexivity|].
    destruct (CurrentStock item <? 10)%Z;
      [rewrite IH; simpl; rewrite ?Nat.add_succ_r; reflexivity|].
    destruct (DaysToExpiry item) as [days|];
      [destruct (days <=? 90)%Z|];
      rewrite IH; simpl; rewrite ?Nat.add_succ_r; reflexivity.
Qed.

(** X10. The bar chart and the table agree and nothing is left out: the
    bars are Out of Stock, Low Stock, Near Expiry and Healthy in this
    order, each bar counts exactly the items the table labels with its
    status (Healthy for the label In Stock), and the four counts add up to
    the number of items. *)
Theorem stock_bars_partition_the_items (stockData : list StockItem) :
  map bar_name (stockLevelData stockData)
  = ["Out of Stock"; "Low Stock"; "Near Expiry"; "Healthy"]%string
  /\ map bar_count (stockLevelData stockData)
     = [labelled "Out of Stock" stockData; labelled "Low Stock" stockData;
        labelled "Near Expiry" stockData; labelled "In Stock" stockData]
  /\ fold_right Nat.add 0 (map bar_count (stockLevelData stockData))
     = List.length stockData.
Proof.
  unfold stockLevelData. rewrite tally_counts. cbn [map bar_name bar_count].
  split; [reflexivity|]. split; [reflexivity|].
  cbn [fold_right Nat.add]. rewrite ?Nat.add_0_l, ?Nat.add_0_r.
  unfold labelled.
  induction stockData as [|item L IH]; [reflexivity|].
  cbn [filter List.length]. rewrite <- IH. unfold getStockStatus.
  destruct (CurrentStock item <=? 0)%Z; [simpl; lia|].
  destruct (CurrentStock item <? 10)%Z; [simpl; lia|].
  destruct (DaysToExpiry item) as [days|]; [destruct (days <=? 90)%Z|];
    simpl; lia.
Qed.

(** *** Filter options *)

Section SetOf.

Let step (seen : list string) (x : string) : list string :=
  if existsb (String.eqb x) seen then seen else (seen ++ [x])%list.

Lemma existsb_eqb_In (x : string) (l : list string) :
  existsb (String.eqb x) l = true <-> In x l.
Proof.
  rewrite existsb_exists. split.
  - intros (y & Hy & He). apply String.eqb_eq in He. subst. exact Hy.
  - intro H. exists x. split; [exact H|apply String.eqb_refl].
Qed.

Lemma fold_step_In (l seen : list string) (x : string) :
  In x (fold_left step l seen) <-> In x seen \/ In x l.
Proof.
  revert seen. induction l as [|a l IH]; intro seen; simpl.
  - tauto.
  - rewrite IH. unfold step.
    destruct (existsb (String.eqb a) seen) eqn:E.
    + apply existsb_eqb_In in E. split; [tauto|].
      intros [H|[<-|H]]; auto.
    + rewrite in_app_iff. simpl. tauto.
Qed.

Lemma fold_step_NoDup (l seen : list string) :
  NoDup seen -> NoDup (fold_left step l seen).
Proof.
  revert seen. induction l as [|a l IH]; intros seen H; simpl; [exact H|].
  apply IH. unfold step.
  destruct (existsb (String.eqb a) seen) eqn:E; [exact H|].
  apply NoDup_app; [exact H|repeat constructor; intros []|].
  intros x Hx [<-|[]].
  apply existsb_eqb_In in Hx. congruence.
Qed.

(** A list without repetition put after what was seen, none of it seen
    before, comes out as it is. *)
Lemma fold_step_fresh (l seen : list string) :
  NoDup l -> (forall x, In x l -> ~ In x seen) ->
  fold_left step l seen = (seen ++ l)%list.
Proof.
  revert seen. induction l as [|a l IH]; intros seen Hn Hf; simpl.
  - rewrite app_nil_r. reflexivity.
  - inversion Hn as [|? ? Ha Hl]; subst. unfold step at 2.
    destruct (existsb (String.eqb a) seen) eqn:E.
    + apply existsb_eqb_In in E. exfalso. apply (Hf a); [left; reflexivity|].
      exact E.
    + rewrite IH; [rewrite <- app_assoc; reflexivity|exact Hl|].
      intros x Hx Hin. apply in_app_iff in Hin. destruct Hin as [Hin|[<-|[]]].
      * apply (Hf x); [right; exact Hx|exact Hin].
      * contradiction.
Qed.

End SetOf.

Lemma present_In (l : list (option string)) (s : string) :
  In s (present l) <-> In (Some s) l.
Proof.
  induction l as [|[a|] l IH]; simpl.
  - tauto.
  - rewrite IH. split; intros [H|H]; auto; left; congruence.
  - rewrite IH. split; [auto|]. intros [H|H]; [discriminate|exact H].
Qed.

Lemma present_all (l : list string) :
  present (filter nonBlank (map Some l)) = filter (fun s => nonBlank (Some s)) l.
Proof.
  induction l as [|a l IH]; simpl; [reflexivity|].
  destruct (JS.truthy a && JS.truthy (JS.trim a))%bool; simpl; rewrite IH;
    reflexivity.
Qed.

(** X11. The options offered in a filter are the values the server sent,
    cleaned: a value is offered exactly when the server sent it, it is not
    empty and it is not only white space; no value is offered twice; and
    cleaning a cleaned list changes nothing. *)
Theorem filter_options_are_clean (l : list (option string)) :
  NoDup (cleanOptions l)
  /\ (forall s,
        In s (cleanOptions l)
        <-> In (Some s) l /\ s <> ""%string /\ JS.trim s <> ""%string)
  /\ cleanOptions (map Some (cleanOptions l)) = cleanOptions l.
Proof.
  assert (Hn : NoDup (cleanOptions l))
    by (apply fold_step_NoDup; constructor).
  assert (Hin : forall s,
             In s (cleanOptions l)
             <-> In (Some s) l /\ s <> ""%string /\ JS.trim s <> ""%string).
  { intro s. unfold cleanOptions, setOf. rewrite fold_step_In.
    rewrite present_In, filter_In. simpl.
    rewrite andb_true_iff, !PharmacyFacts.truthy_true_iff. tauto. }
  split; [exact Hn|]. split; [exact Hin|].
  unfold cleanOptions at 1. rewrite present_all.
  rewrite PharmacyFacts.filter_all.
  - unfold setOf. rewrite fold_step_fresh; [reflexivity|exact Hn|].
    intros x _ [].
  - intros s Hs. apply Hin in Hs. destruct Hs as (_ & H1 & H2). simpl.
    apply andb_true_iff. rewrite !PharmacyFacts.truthy_true_iff. tauto.
Qed.

(** *** The chart of types *)

Lemma countAt_bump k k' counts :
  countAt k' (bump k counts)
  = (countAt k' counts + (if String.eqb k k' then 1 else 0))%nat.
Proof.
  induction counts as [|[k0 n] rest IH]; simpl.
  - destruct (String.eqb k k'); reflexivity.
  - destruct (String.eqb k0 k) eqn:E0; simpl.
    + apply String.eqb_eq in E0. subst k0.
      destruct (String.eqb k k'); lia.
    + destruct (String.eqb k0 k') eqn:E1; [|exact IH].
      apply String.eqb_eq in E1. subst k0.
      rewrite String.eqb_sym, E0. lia.
Qed.

Lemma bump_keys k k' counts :
  In k' (map fst (bump k counts)) <-> k' = k \/ In k' (map fst counts).
Proof.
  induction counts as [|[k0 n] rest IH]; simpl.
  - intuition congruence.
  - destruct (String.eqb k0 k) eqn:E0; simpl.
    + apply String.eqb_eq in E0. subst k0. intuition congruence.
    + rewrite IH. intuition congruence.
Qed.

Lemma bump_NoDup k counts :
  NoDup (map fst counts) -> NoDup (map fst (bump k counts)).
Proof.
  induction counts as [|[k0 n] rest IH]; simpl; intros Hnd.
  - constructor; [intros []|constructor].
  - inversion Hnd as [|? ? Hnot Hrest]; subst.
    destruct (String.eqb k0 k) eqn:E0; simpl.
    + constructor; assumption.
    + constructor; [|auto].
      rewrite bump_keys. intros [->|Hin]; [|tauto].
      rewrite String.eqb_refl in E0. discriminate.
Qed.

Lemma bump_positive k counts :
  Forall (fun e => (0 < snd e)%nat) counts ->
  Forall (fun e => (0 < snd e)%nat) (bump k counts).
Proof.
  induction counts as [|[k0 n] rest IH]; simpl; intros Hpos.
  - repeat constructor.
  - inversion Hpos; subst.
    destruct (String.eqb k0 k); constructor; simpl in *; auto; lia.
Qed.

Lemma countAt_In k n counts :
  NoDup (map fst counts) -> In (k, n) counts -> countAt k counts = n.
Proof.
  induction counts as [|[k0 n0] rest IH]; simpl; intros Hnd Hin; [tauto|].
  inversion Hnd as [|? ? Hnot Hrest]; subst.
  destruct Hin as [E|Hin].
  - inversion E; subst. rewrite String.eqb_refl. reflexivity.
  - destruct (String.eqb k0 k) eqn:E0; [|auto].
    apply String.eqb_eq in E0. subst k0.
    exfalso. apply Hnot. apply in_map_iff. exists (k, n). auto.
Qed.

Lemma In_countAt k counts :
  (0 < countAt k counts)%nat -> In (k, countAt k counts) counts.
Proof.
  induction counts as [|[k0 n0] rest IH]; simpl; intros Hpos; [lia|].
  destruct (String.eqb k0 k) eqn:E0; [|auto].
  apply String.eqb_eq in E0. subst k0. auto.
Qed.

Lemma countType_app k l1 l2 :
  countType k (l1 ++ l2) = (countType k l1 + countType k l2)%nat.
Proof. unfold countType. rewrite filter_app, length_app. reflexivity. Qed.

Lemma typeCounts_from stockData counts :
  let result :=
    fold_left (fun counts item => bump (typeOf item) counts) stockData counts
  in
  NoDup (map fst counts) ->
  Forall (fun e => (0 < snd e)%nat) counts ->
  NoDup (map fst result)
  /\ Forall (fun e => (0 < snd e)%nat) result
  /\ forall k, countAt k result
               = (countAt k counts + countType k stockData)%nat.
Proof.
  revert counts.
  induction stockData as [|item rest IH]; intros counts; cbn zeta; simpl;
    intros Hnd Hpos.
  - repeat split; auto.
  - destruct (IH (bump (typeOf item) counts)) as (H1 & H2 & H3);
      [apply bump_NoDup; assumption|apply bump_positive; assumption|].
    cbn zeta in *. repeat split; auto.
    intros k. rewrite H3, countAt_bump.
    change (item :: rest) with ([item] ++ rest)%list.
    rewrite countType_app. unfold countType at 2. simpl.
    destruct (String.eqb (typeOf item) k); simpl; lia.
Qed.

Lemma typeCounts_spec stockData :
  NoDup (map fst (typeCounts stockData))
  /\ forall k n,
       In (k, n) (typeCounts stockData)
       <-> n = countType k stockData /\ (0 < n)%nat.
Proof.
  destruct (typeCounts_from stockData []) as (H1 & H2 & H3);
    [constructor|constructor|].
  cbn zeta in *. fold (typeCounts stockData) in *.
  split; [assumption|]. intros k n. split.
  - intros Hin. split.
    + rewrite <- (countAt_In _ _ _ H1 Hin). apply H3.
    + rewrite Forall_forall in H2. apply (H2 _ Hin).
  - intros [-> Hpos]. specialize (H3 k). simpl in H3.
    rewrite <- H3 in *. apply In_countAt. assumption.
Qed.

Lemma insertIndex_perm e l : Permutation (insertIndex e l) (e :: l).
Proof.
  induction l as [|e' rest IH]; simpl; [reflexivity|].
  destruct (indexValue (fst e) <? indexValue (fst e'))%Z; [reflexivity|].
  rewrite IH. apply perm_swap.
Qed.

Lemma filter_split_perm {A} (f : A -> bool) (l : list A) :
  Permutation (filter f l ++ filter (fun x => negb (f x)) l) l.
Proof.
  induction l as [|x rest IH]; simpl; [reflexivity|].
  destruct (f x); simpl.
  - constructor. assumption.
  - rewrite <- Permutation_middle. constructor. assumption.
Qed.

Lemma entries_perm counts : Permutation (entries counts) counts.
Proof.
  unfold entries.
  rewrite <- (filter_split_perm (fun e => isArrayIndex (fst e)) counts) at 3.
  apply Permutation_app_tail.
  induction (filter (fun e => isArrayIndex (fst e)) counts) as [|e l IH];
    simpl; [reflexivity|].
  rewrite insertIndex_perm. constructor. assumption.
Qed.

Lemma insertDesc_perm x l : Permutation (insertDesc x l) (x :: l).
Proof.
  induction l as [|y rest IH]; simpl; [reflexivity|].
  destruct (value y <? value x)%nat; [reflexivity|].
  rewrite IH. apply perm_swap.
Qed.

Lemma insertDesc_sorted x l :
  StronglySorted descending l -> StronglySorted descending (insertDesc x l).
Proof.
  induction l as [|y rest IH]; simpl; intros Hs.
  - repeat constructor.
  - inversion Hs as [|? ? Hrest Hall]; subst.
    destruct (value y <? value x)%nat eqn:E.
    + apply Nat.ltb_lt in E. constructor; [assumption|].
      constructor; [unfold descending; lia|].
      rewrite Forall_forall in *. intros z Hz.
      specialize (Hall z Hz). unfold descending in *. lia.
    + apply Nat.ltb_ge in E. constructor; [auto|].
      rewrite Forall_forall in *. intros z Hz.
      apply (Permutation_in _ (insertDesc_perm x rest)) in Hz.
      destruct Hz as [<-|Hz]; [exact E|auto].
Qed.

Lemma sortDesc_from l sorted :
  let result := fold_left (fun sorted x => insertDesc x sorted) l sorted in
  StronglySorted descending sorted ->
  StronglySorted descending result /\ Permutation result (sorted ++ l).
Proof.
  revert sorted.
  induction l as [|x rest IH]; intros sorted; cbn zeta; simpl; intros Hs.
  - rewrite app_nil_r. split; [assumption|reflexivity].
  - destruct (IH (insertDesc x sorted)) as [H1 H2];
      [apply insertDesc_sorted; assumption|].
    cbn zeta in *. split; [assumption|].
    rewrite H2, insertDesc_perm. simpl.
    apply Permutation_middle.
Qed.

Lemma sortDesc_spec l :
  StronglySorted descending (sortDesc l) /\ Permutation (sortDesc l) l.
Proof. apply (sortDesc_from l []). constructor. Qed.

Lemma sorted_app (l1 l2 : list Slice) :
  StronglySorted descending (l1 ++ l2) ->
  StronglySorted descending l1
  /\ forall a b, In a l1 -> In b l2 -> (value b <= value a)%nat.
Proof.
  induction l1 as [|x rest IH]; simpl; intros Hs.
  - split; [constructor|tauto].
  - inversion Hs as [|? ? Hrest Hall]; subst.
    destruct (IH Hrest) as [H1 H2]. split.
    + constructor; [assumption|].
      rewrite Forall_forall in *. intros z Hz. apply Hall.
      apply in_or_app. auto.
    + intros a b [<-|Ha] Hb; [|auto].
      rewrite Forall_forall in Hall. apply Hall.
      apply in_or_app. auto.
Qed.

Lemma firstn_In {A} (n : nat) (l : list A) x : In x (firstn n l) -> In x l.
Proof.
  intros H. rewrite <- (firstn_skipn n l). apply in_or_app. auto.
Qed.

(** X12.  The chart of types has at most eight slices, one per type and
    no type twice, in descending order of their values; the value of a
    slice is the number of stock items of its type (an item without a
    type counts as "Unknown"), which is at least one; and a type that
    has items but no slice is no more frequent than any type charted, in
    a chart that is full.  The chart is followed for every stock list
    none of whose types is the name of a member of [Object.prototype]. *)
Theorem type_chart_shows_the_most_frequent_types
    (stockData : list StockItem) :
  (typeDistribution stockData = None
   <-> exists item, In item stockData /\ inherited (typeOf item) = true)
  /\ forall chart, typeDistribution stockData = Some chart ->
       (List.length chart <= 8)%nat
       /\ NoDup (map name chart)
       /\ StronglySorted (fun a b => (value b <= value a)%nat) chart
       /\ (forall e, In e chart ->
             value e = countType (name e) stockData /\ (1 <= value e)%nat)
       /\ (forall k, (0 < countType k stockData)%nat ->
             (exists e, In e chart /\ name e = k)
             \/ (List.length chart = 8%nat
                 /\ forall e, In e chart ->
                      (countType k stockData <= value e)%nat)).
Proof.
  unfold typeDistribution.
  destruct (existsb (fun item => inherited (typeOf item)) stockData) eqn:Ex.
  - split; [|discriminate]. split; [intros _|reflexivity].
    apply existsb_exists in Ex. exact Ex.
  - split.
    { split; [discriminate|]. intros Hex.
      apply existsb_exists in Hex. congruence. }
    intros chart Hchart.
    set (mk := fun e : string * nat => {| name := fst e; value := snd e |})
      in *.
    set (all := sortDesc (map mk (entries (typeCounts stockData)))) in *.
    assert (chart = firstn 8 all) by congruence. subst chart. clear Hchart.
    destruct (typeCounts_spec stockData) as [Hnd Hcount].
    destruct (sortDesc_spec (map mk (entries (typeCounts stockData))))
      as [Hsorted Hperm].
    fold all in Hsorted, Hperm.
    assert (Hall : Permutation all (map mk (typeCounts stockData))).
    { rewrite Hperm. apply Permutation_map. apply entries_perm. }
    assert (Hin : forall e, In e all <->
               value e = countType (name e) stockData /\ (0 < value e)%nat).
    { intros e. split.
      - intros He. apply (Permutation_in _ Hall) in He.
        apply in_map_iff in He. destruct He as ([k n] & <- & He).
        apply Hcount in He. exact He.
      - intros He. apply (Permutation_in _ (Permutation_sym Hall)).
        apply in_map_iff. exists (name e, value e).
        split; [destruct e; reflexivity|]. apply Hcount. exact He. }
    assert (Hnames : NoDup (map name all)).
    { apply (Permutation_NoDup
               (Permutation_sym (Permutation_map name Hall))).
      rewrite map_map. exact Hnd. }
    rewrite <- (firstn_skipn 8 all) in Hsorted, Hnames.
    destruct (sorted_app _ _ Hsorted) as [Hs1 Hs2].
    rewrite map_app in Hnames. apply NoDup_app_remove_r in Hnames.
    split; [|split; [|split; [|split]]].
    + apply firstn_le_length.
    + exact Hnames.
    + exact Hs1.
    + intros e He. apply firstn_In in He. apply Hin in He.
      split; [tauto|lia].
    + intros k Hk.
      assert (He : In {| name := k; value := countType k stockData |} all).
      { apply Hin. simpl. auto. }
      rewrite <- (firstn_skipn 8 all) in He.
      apply in_app_or in He. destruct He as [He|He].
      * left. eexists. split; [exact He|reflexivity].
      * right. split.
        -- apply firstn_length_le.
           destruct (Nat.le_gt_cases 8 (List.length all)) as [|Hlt];
             [assumption|].
           rewrite skipn_all2 in He by lia. destruct He.
        -- intros e Hefirst. apply (Hs2 _ _ Hefirst He).
Qed.

End ReportsFacts.

(** ** Properties of the purchase bill *)

Module InventoryBillFacts.
Import InventoryBill.

(** The two ways the item entry ends. *)
Lemma entry_add_cases (e : Inventory.State) :
  (negb (JS.truthy (Inventory.selectedMedicine e))
   || Inventory.quantityRefused (Inventory.entryQuantity e) = true
   /\ Inventory.items (Inventory.handleAddItem e) = Inventory.items e
   /\ Inventory.itemCounter (Inventory.handleAddItem e)
      = Inventory.itemCounter e)
  \/ (negb (JS.truthy (Inventory.selectedMedicine e))
      || Inventory.quantityRefused (Inventory.entryQuantity e) = false
      /\ exists item,
           Inventory.items (Inventory.handleAddItem e)
           = (Inventory.items e ++ [item])%list
           /\ Inventory.id item = Inventory.itemCounter e + 1
           /\ Inventory.itemCounter (Inventory.handleAddItem e)
              = Inventory.itemCounter e + 1
           /\ Inventory.quantity item
              = JS.parseInt (Inventory.entryQuantity e)).
Proof.
  unfold Inventory.handleAddItem.
  destruct (JS.truthy (Inventory.selectedMedicine e));
    cbn [negb orb]; [|left; repeat split].
  destruct (Inventory.quantityRefused (Inventory.entryQuantity e));
    [left; repeat split|right].
  split; [reflexivity|]. eexists. cbn. repeat split.
Qed.

Lemma quantityRefused_read (q : string) :
  Inventory.quantityRefused q = false -> quantityRead (JS.parseInt q).
Proof.
  unfold Inventory.quantityRefused, quantityRead.
  destruct (JS.truthy q); cbn [negb orb]; [|discriminate].
  destruct (JS.parseInt q) as [n|]; [|trivial].
  intro H. apply Z.leb_gt in H. exact H.
Qed.

Lemma updatePrice_items (e : Inventory.State) (o : Inventory.Outcome) :
  Inventory.items (fst (Inventory.handleUpdatePrice e o)) = Inventory.items e
  /\ Inventory.itemCounter (fst (Inventory.handleUpdatePrice e o))
     = Inventory.itemCounter e.
Proof. destruct o; split; reflexivity. Qed.

Lemma dispatch_itemsChange (e : Event) (st : State) :
  itemsChange st (dispatch e st).
Proof.
  destruct e; cbn [dispatch].
  - apply items_kept; destruct f; reflexivity.
  - apply items_kept; reflexivity.
  - apply items_kept; reflexivity.
  - unfold handleAddItem.
    destruct (entry_add_cases (entry st))
      as [(_ & Hi & Hc)|(Hr & item & Hi & Hid & Hc & Hq)].
    + apply items_kept; assumption.
    + apply (item_appended _ _ item); try assumption.
      rewrite Hq. apply quantityRefused_read.
      apply orb_false_iff in Hr. tauto.
  - eapply items_filtered; reflexivity.
  - apply (items_filtered _ _ (fun _ => false)); [|reflexivity].
    cbn. induction (Inventory.items (entry st)); auto.
  - apply items_kept; unfold beginSubmit; destruct (validate st); reflexivity.
  - destruct r.
    + apply (items_filtered _ _ (fun _ => false)); [|reflexivity].
      cbn. induction (Inventory.items (entry st)); auto.
    + apply items_kept; reflexivity.
    + apply items_kept; reflexivity.
  - apply items_kept; apply updatePrice_items.
Qed.

Lemma dispatch_itemsInOrder (e : Event) (st : State) :
  itemsInOrder st -> itemsInOrder (dispatch e st).
Proof.
  unfold itemsInOrder. intros [Hs Hb].
  destruct (dispatch_itemsChange e st)
    as [Hi Hc|keep Hi Hc|item Hi Hid Hc _]; rewrite Hi, Hc.
  - auto.
  - split; [apply PharmacyFacts.sorted_filter; exact Hs|].
    apply PharmacyFacts.Forall_filter_keep. exact Hb.
  - split.
    + rewrite map_app. apply PharmacyFacts.sorted_snoc; [exact Hs|].
      rewrite Forall_map. eapply Forall_impl; [|exact Hb].
      cbn beta. intros; lia.
    + apply Forall_app. split.
      * eapply Forall_impl; [|exact Hb]. cbn beta. intros; lia.
      * constructor; [lia|constructor].
Qed.

Lemma reachable_itemsInOrder (today : string) (st : State) :
  reachable today st -> itemsInOrder st.
Proof.
  induction 1 as [|e st _ IH].
  - split; constructor.
  - apply dispatch_itemsInOrder. exact IH.
Qed.


Lemma purchase_counter (e : Event) (st : State) :
  Inventory.itemCounter (entry st)
  <= Inventory.itemCounter (entry (dispatch e st))
  /\ (forall i, issued e st = Some i ->
        i = Inventory.itemCounter (entry st) + 1
        /\ Inventory.itemCounter (entry (dispatch e st)) = i).
Proof.
  split.
  - destruct (dispatch_itemsChange e st)
      as [_ Hc|keep _ Hc|item _ _ Hc _]; rewrite Hc; lia.
  - destruct e; cbn [issued]; try discriminate.
    cbn [dispatch]. unfold handleAddItem.
    destruct (entry_add_cases (entry st))
      as [(Hr & _)|(Hr & item & _ & _ & Hc & _)]; rewrite Hr;
      [discriminate|].
    intros i [= <-]. split; [reflexivity|exact Hc].
Qed.

Lemma purchaseIds_increase (es : list Event) (st : State) :
  Forall (fun i => Inventory.itemCounter (entry st) < i) (idsIssued es st)
  /\ StronglySorted Z.lt (idsIssued es st).
Proof.
  revert st. induction es as [|e es IH]; intro st; simpl.
  - split; constructor.
  - destruct (IH (dispatch e st)) as [Hall Hs].
    destruct (purchase_counter e st) as [Hm Hi].
    destruct (issued e st) as [i|].
    + destruct (Hi i eq_refl) as [Hv Hc]. split.
      * constructor; [lia|].
        eapply Forall_impl; [|exact Hall]. simpl. intros; lia.
      * constructor; [exact Hs|].
        eapply Forall_impl; [|exact Hall]. simpl. intros; lia.
    + split; [|exact Hs].
      eapply Forall_impl; [|exact Hall]. simpl. intros; lia.
Qed.

(** X13.  On the purchase screen the ids of the items on the list are in
    strictly ascending order, hence pairwise distinct, and none is beyond
    the counter; an accepted item is appended with the id
    [itemCounter + 1] and the counter moves to that id; no event moves the
    counter back, and neither the reply to a saved bill nor Clear All
    changes it, so the numbering goes on over the bills of a session and
    the ids handed out along any run are strictly increasing. *)
Theorem purchase_item_ids_are_never_reused (today : string) :
  (forall st, reachable today st ->
     StronglySorted Z.lt (map Inventory.id (Inventory.items (entry st)))
     /\ NoDup (map Inventory.id (Inventory.items (entry st)))
     /\ Forall (fun item =>
                  Inventory.id item <= Inventory.itemCounter (entry st))
               (Inventory.items (entry st)))
  /\ (forall st i,
        issued AddItem st = Some i ->
        exists item,
          Inventory.items (entry (handleAddItem st))
          = (Inventory.items (entry st) ++ [item])%list
          /\ Inventory.id item = i
          /\ i = Inventory.itemCounter (entry st) + 1
          /\ Inventory.itemCounter (entry (handleAddItem st)) = i)
  /\ (forall e st,
        Inventory.itemCounter (entry st)
        <= Inventory.itemCounter (entry (dispatch e st)))
  /\ (forall r st,
        Inventory.itemCounter (entry (finishSubmit r st))
        = Inventory.itemCounter (entry st)
        /\ Inventory.itemCounter (entry (clearAll st))
           = Inventory.itemCounter (entry st))
  /\ (forall es,
        StronglySorted Z.lt (idsIssued es (initial today))
        /\ Forall (fun i => 0 < i) (idsIssued es (initial today))).
Proof.
  split; [|split; [|split; [|split]]].
  - intros st Hr. destruct (reachable_itemsInOrder today st Hr) as [Hs Hb].
    split; [exact Hs|]. split; [|exact Hb].
    apply PharmacyFacts.sorted_NoDup. exact Hs.
  - intros st i. cbn [issued]. unfold handleAddItem.
    destruct (entry_add_cases (entry st))
      as [(Hr & _)|(Hr & item & Hi & Hid & Hc & _)]; rewrite Hr;
      [discriminate|].
    intros [= <-]. exists item. cbn. rewrite Hi, Hid, Hc. auto.
  - intros e st. apply purchase_counter.
  - intros r st. split; [destruct r; reflexivity|reflexivity].
  - intros es. destruct (purchaseIds_increase es (initial today)) as [Ha Hs].
    split; [exact Hs|exact Ha].
Qed.

Lemma validate_none (st : State) :
  validate st = None <->
  billDate (header st) <> ""
  /\ JS.trim (billNo (header st)) <> ""
  /\ deliveryDate (header st) <> ""
  /\ agency (header st) <> ""
  /\ Inventory.items (entry st) <> [].
Proof.
  unfold validate.
  destruct (JS.truthy (billDate (header st))) eqn:E1; cbn [negb].
  2:{ apply PharmacyFacts.truthy_false_iff in E1.
      split; [discriminate|tauto]. }
  destruct (JS.truthy (JS.trim (billNo (header st)))) eqn:E2; cbn [negb].
  2:{ apply PharmacyFacts.truthy_false_iff in E2.
      split; [discriminate|tauto]. }
  destruct (JS.truthy (deliveryDate (header st))) eqn:E3; cbn [negb].
  2:{ apply PharmacyFacts.truthy_false_iff in E3.
      split; [discriminate|tauto]. }
  destruct (JS.truthy (agency (header st))) eqn:E4; cbn [negb].
  2:{ apply PharmacyFacts.truthy_false_iff in E4.
      split; [discriminate|tauto]. }
  apply PharmacyFacts.truthy_true_iff in E1, E2, E3, E4.
  destruct (Inventory.items (entry st)); cbn.
  - split; [discriminate|]. intros (_ & _ & _ & _ & H). congruence.
  - split; [|reflexivity]. intros _. repeat split; auto. discriminate.
Qed.

(** X14.  When the checks of Save Bill pass and the reply comes: the
    list of items is emptied exactly when the server confirms; then the
    bill number and the three amounts are blanked and the discount flag
    is back on "No", while both dates, the agency and the counter of the
    items stay; in every other case the header and the entry are what
    they were.  No message at all is shown exactly when the server
    answers without confirming; a request that throws shows an error.
    The screen is out of the submitting state in each case. *)
Theorem purchase_bill_cleared_iff_saved (st : State) (r : Reply) :
  validate st = None ->
  let st' := handleSubmitBill st r in
  (Inventory.items (entry st') = [] <-> exists i, r = Saved i)
  /\ (message st' = None <-> r = Refused)
  /\ (forall i, r = Saved i ->
        message st' = Some (Inventory.msgSuccess, BillSaved i)
        /\ billNo (header st') = ""
        /\ billAmount (header st') = ""
        /\ taxAmount (header st') = ""
        /\ discountAmount (header st') = ""
        /\ discountInBill (header st') = "No"
        /\ billDate (header st') = billDate (header st)
        /\ deliveryDate (header st') = deliveryDate (header st)
        /\ agency (header st') = agency (header st)
        /\ Inventory.itemCounter (entry st')
           = Inventory.itemCounter (entry st))
  /\ ((forall i, r <> Saved i) ->
        header st' = header st /\ entry st' = entry st)
  /\ (forall thrown, r = Threw thrown ->
        exists text, message st' = Some (Inventory.msgError, text))
  /\ isSubmitting st' = false.
Proof.
  intros Hv. pose proof Hv as Hne. apply validate_none in Hne.
  destruct Hne as (_ & _ & _ & _ & Hne).
  unfold handleSubmitBill, beginSubmit. rewrite Hv. cbn zeta.
  destruct r as [i| |thrown]; cbn;
    (split; [|split; [|split; [|split; [|split]]]]); try reflexivity.
  - split; [intros _; exists i; reflexivity|reflexivity].
  - split; discriminate.
  - intros i' [= <-]. repeat split.
  - intros H. exfalso. apply (H i). reflexivity.
  - discriminate.
  - split; [intros H; contradiction|intros [i H]; discriminate].
  - split; reflexivity.
  - discriminate.
  - intros _. split; [destruct (header st)|destruct (entry st)]; reflexivity.
  - discriminate.
  - split; [intros H; contradiction|intros [i H]; discriminate].
  - split; discriminate.
  - discriminate.
  - intros _. split; [destruct (header st)|destruct (entry st)]; reflexivity.
  - intros t _. eexists. reflexivity.
Qed.

Lemma purchase_bill_cleared_iff_saved_witness :
  validate sampleBill = None
  /\ (message (handleSubmitBill sampleBill Refused) = None <-> Refused = Refused).
Proof.
  split; [reflexivity|].
  destruct (purchase_bill_cleared_iff_saved sampleBill Refused eq_refl)
    as (_ & H & _).
  exact H.
Defined.




(** X16.  The request to update a price is let through, and the
    confirmation opened, exactly when a medicine is chosen, the new MRP
    is not empty and it does not read as a number that is 0 or less: a
    text that does not read as a number at all is let through.  What is
    let through is what the update then posts, as typed; a request that
    is held back changes nothing. *)
Theorem price_request_lets_unreadable_price_through
    (e : Inventory.State) (o : Inventory.Outcome) :
  (snd (requestPriceUpdate e) = None <->
     Inventory.updateMedicineName e <> ""
     /\ Inventory.newMRP e <> ""
     /\ forall x, JS.parseFloat (Inventory.newMRP e) = Some x -> (0 < x)%Q)
  /\ (Inventory.updateMedicineName e <> "" ->
      Inventory.newMRP e <> "" ->
      JS.parseFloat (Inventory.newMRP e) = None ->
      snd (requestPriceUpdate e) = None)
  /\ (snd (requestPriceUpdate e) = None ->
        Inventory.showPriceUpdateConfirm (fst (requestPriceUpdate e)) = true
        /\ In (Inventory.PostUpdatePrice
                 {| Inventory.form_medicine_name :=
                      Inventory.updateMedicineName e;
                    Inventory.form_new_mrp := Inventory.newMRP e;
                    Inventory.form_new_ptr := Inventory.newPTR e |})
              (snd (Inventory.handleUpdatePrice
                      (fst (requestPriceUpdate e)) o)))
  /\ (snd (requestPriceUpdate e) <> None -> fst (requestPriceUpdate e) = e).
Proof.
  assert (Hiff : snd (requestPriceUpdate e) = None <->
     Inventory.updateMedicineName e <> ""
     /\ Inventory.newMRP e <> ""
     /\ forall x, JS.parseFloat (Inventory.newMRP e) = Some x -> (0 < x)%Q).
  { unfold requestPriceUpdate.
    destruct (JS.truthy (Inventory.updateMedicineName e)) eqn:E1; cbn [negb].
    2:{ apply PharmacyFacts.truthy_false_iff in E1. cbn [snd].
        split; [discriminate|tauto]. }
    destruct (JS.truthy (Inventory.newMRP e)) eqn:E2; cbn [negb orb].
    2:{ apply PharmacyFacts.truthy_false_iff in E2. cbn [snd].
        split; [discriminate|tauto]. }
    apply PharmacyFacts.truthy_true_iff in E1, E2.
    destruct (JS.parseFloat (Inventory.newMRP e)) as [x|].
    - unfold JS.le. destruct (Qle_bool x 0) eqn:E3; cbn [snd].
      + apply Qle_bool_iff in E3. split; [discriminate|].
        intros (_ & _ & H). specialize (H x eq_refl).
        exfalso. apply (Qlt_not_le _ _ H E3).
      + split; [|reflexivity]. intros _. repeat split; auto.
        intros y [= <-]. apply Qnot_le_lt. intro H.
        apply Qle_bool_iff in H. congruence.
    - cbn [snd]. split; [|reflexivity]. intros _. repeat split; auto.
      discriminate. }
  split; [exact Hiff|]. split; [|split].
  - intros H1 H2 H3. apply Hiff. repeat split; auto.
    intros x Hx. congruence.
  - unfold requestPriceUpdate.
    destruct (negb (JS.truthy (Inventory.updateMedicineName e)));
      [discriminate|].
    destruct (_ || _); [discriminate|]. intros _.
    split; [reflexivity|]. destruct o; left; reflexivity.
  - unfold requestPriceUpdate.
    destruct (negb (JS.truthy (Inventory.updateMedicineName e)));
      [reflexivity|].
    destruct (_ || _); [reflexivity|]. intros H. contradiction H. reflexivity.
Qed.

End InventoryBillFacts.

(** ** Properties of the patient registration *)

Module RegistrationFacts.
Import Registration.

Lemma keepDigits_allDigits (s : string) :
  JS.allDigits (JSText.keepDigits s) = true.
Proof.
  induction s as [|c r IH]; simpl; [reflexivity|].
  destruct (JS.isNaN (JS.decDigit c)) eqn:E; simpl; [exact IH|].
  rewrite E, IH. reflexivity.
Qed.

Lemma sliceTo_allDigits (n : nat) (s : string) :
  JS.allDigits s = true -> JS.allDigits (JSText.sliceTo n s) = true.
Proof.
  revert s. induction n as [|n IH]; intros [|c r]; simpl; auto.
  intros H. apply andb_true_iff in H. destruct H as [Hc Hr].
  rewrite Hc, (IH r Hr). reflexivity.
Qed.

Lemma sliceTo_length (n : nat) (s : string) :
  (String.length (JSText.sliceTo n s) <= n)%nat.
Proof.
  revert s. induction n as [|n IH]; intros [|c r]; simpl; try lia.
  specialize (IH r). lia.
Qed.

Lemma keepDigits_fixed (s : string) :
  JS.allDigits s = true -> JSText.keepDigits s = s.
Proof.
  induction s as [|c r IH]; simpl; [reflexivity|].
  intros H. apply andb_true_iff in H. destruct H as [Hc Hr].
  apply negb_true_iff in Hc. rewrite Hc, (IH Hr). reflexivity.
Qed.

Lemma sliceTo_fixed (n : nat) (s : string) :
  (String.length s <= n)%nat -> JSText.sliceTo n s = s.
Proof.
  revert s. induction n as [|n IH]; intros [|c r]; simpl; auto; try lia.
  intros H. rewrite IH by lia. reflexivity.
Qed.

Lemma phoneTyped_clean (v : string) : cleanPhone (phoneTyped v).
Proof.
  split.
  - apply sliceTo_allDigits, keepDigits_allDigits.
  - apply sliceTo_length.
Qed.

Lemma phoneTyped_fixed (v : string) : cleanPhone v -> phoneTyped v = v.
Proof.
  intros [Hd Hl]. unfold phoneTyped.
  rewrite (keepDigits_fixed v Hd). apply sliceTo_fixed. exact Hl.
Qed.

Lemma empty_clean : cleanPhone "".
Proof. split; [reflexivity|simpl; lia]. Qed.

Lemma dispatch_phonesClean (e : Event) (st : State) :
  offered e st -> cleanReply e -> phonesClean st ->
  phonesClean (dispatch e st).
Proof.
  intros Ho Hc [Hp Hr]. unfold phonesClean.
  destruct e; cbn [dispatch].
  - destruct f; cbn; split; auto. apply phoneTyped_clean.
  - unfold generateUHId. destruct (negb _); cbn; auto.
  - unfold uhidArrived. destruct (JS.truthy u); cbn; auto.
  - cbn; auto.
  - cbn; auto.
  - unfold beginSearch. destruct (negb _); cbn; auto.
  - destruct r as [data count| |thrown]; cbn; auto.
  - cbn. split; [|constructor].
    cbn in Ho. rewrite Forall_forall in Hr. apply (Hr _ Ho).
  - cbn. split; [apply empty_clean|exact Hr].
  - unfold beginSubmit. destruct (validate (form st)); cbn; auto.
  - destruct r as [u| |thrown]; cbn; auto.
    split; [apply empty_clean|exact Hr].
Qed.

(** X17.  The phone field keeps the decimal digits of what is typed, ten
    at most: what it keeps is a clean phone, typing a clean phone keeps
    it as it is, and cleaning twice is cleaning once.  While the replies
    to the searches bring clean phones only, the phone cell is clean on
    every state of the page, and so is the phone of a registration that
    is posted; a phone that is not clean can only come from a search
    result that was clicked. *)
Theorem phone_cell_holds_digits_only (today : string) :
  (forall v,
     cleanPhone (phoneTyped v)
     /\ phoneTyped (phoneTyped v) = phoneTyped v
     /\ (cleanPhone v -> phoneTyped v = v))
  /\ (forall st,
        onPage today cleanReply st ->
        cleanPhone (phoneNo (form st))
        /\ forall p, snd (beginSubmit st) = Some p ->
             cleanPhone (reg_PhoneNo p) /\ reg_PhoneNo p <> "")
  /\ (forall st e,
        cleanPhone (phoneNo (form st)) ->
        ~ cleanPhone (phoneNo (form (dispatch e st))) ->
        exists patient,
          e = ResultClicked patient /\ ~ cleanPhone (PhoneNo patient)).
Proof.
  split; [|split].
  - intros v. split; [apply phoneTyped_clean|].
    split; [apply phoneTyped_fixed, phoneTyped_clean|apply phoneTyped_fixed].
  - intros st Hst.
    assert (Hinv : phonesClean st).
    { induction Hst as [|e st _ IH Ho Hc].
      - split; [apply empty_clean|constructor].
      - apply dispatch_phonesClean; assumption. }
    destruct Hinv as [Hp _]. split; [exact Hp|].
    intros p. unfold beginSubmit.
    destruct (validate (form st)) eqn:Hv; cbn [snd]; [discriminate|].
    intros [= <-]. cbn [registrationData reg_PhoneNo]. split; [exact Hp|].
    unfold validate in Hv.
    destruct (JS.truthy (JS.trim (patientName (form st)))); cbn [negb] in Hv;
      [|discriminate].
    destruct (JS.truthy (JS.trim (phoneNo (form st)))) eqn:E; cbn [negb] in Hv;
      [|discriminate].
    intros Hempty. rewrite Hempty in E. discriminate.
  - intros st e Hp Hn.
    destruct e; cbn [dispatch] in Hn;
      try (exfalso; apply Hn; exact Hp).
    + exfalso. apply Hn. destruct f; cbn; auto. apply phoneTyped_clean.
    + exfalso. apply Hn. unfold generateUHId. destruct (negb _); exact Hp.
    + exfalso. apply Hn. unfold uhidArrived. destruct (JS.truthy u); exact Hp.
    + exfalso. apply Hn. unfold beginSearch. destruct (negb _); exact Hp.
    + exfalso. apply Hn. destruct r; exact Hp.
    + exists patient. split; [reflexivity|exact Hn].
    + exfalso. apply Hn. apply empty_clean.
    + exfalso. apply Hn. unfold beginSubmit.
      destruct (validate (form st)); exact Hp.
    + exfalso. apply Hn. destruct r; try exact Hp. apply empty_clean.
Qed.

Lemma registration_checks (x : Form) :
  validate x = None <->
  JS.trim (patientName x) <> ""
  /\ JS.trim (phoneNo x) <> ""
  /\ age x <> ""
  /\ gender x <> ""
  /\ opProc x <> ""
  /\ (opProc x = "procedure" -> JS.trim (procedureName x) <> "").
Proof.
  unfold validate.
  destruct (JS.truthy (JS.trim (patientName x))) eqn:E1; cbn [negb].
  2:{ apply PharmacyFacts.truthy_false_iff in E1.
      split; [discriminate|tauto]. }
  destruct (JS.truthy (JS.trim (phoneNo x))) eqn:E2; cbn [negb].
  2:{ apply PharmacyFacts.truthy_false_iff in E2.
      split; [discriminate|tauto]. }
  destruct (JS.truthy (age x)) eqn:E3; cbn [negb].
  2:{ apply PharmacyFacts.truthy_false_iff in E3.
      split; [discriminate|tauto]. }
  destruct (JS.truthy (gender x)) eqn:E4; cbn [negb].
  2:{ apply PharmacyFacts.truthy_false_iff in E4.
      split; [discriminate|tauto]. }
  destruct (JS.truthy (opProc x)) eqn:E5; cbn [negb].
  2:{ apply PharmacyFacts.truthy_false_iff in E5.
      split; [discriminate|tauto]. }
  apply PharmacyFacts.truthy_true_iff in E1, E2, E3, E4, E5.
  destruct (String.eqb (opProc x) "procedure") eqn:E6; cbn [andb].
  - apply String.eqb_eq in E6.
    destruct (JS.truthy (JS.trim (procedureName x))) eqn:E7; cbn [negb].
    + apply PharmacyFacts.truthy_true_iff in E7. split; [tauto|reflexivity].
    + apply PharmacyFacts.truthy_false_iff in E7.
      split; [discriminate|]. intros (_ & _ & _ & _ & _ & H).
      exfalso. apply (H E6). exact E7.
  - apply String.eqb_neq in E6. split; [|reflexivity]. intros _. tauto.
Qed.

(** X18.  A registration is posted exactly when the name and the phone
    are more than white space, the age, the gender and the kind of visit
    are not empty and, for a procedure, the name of the procedure is more
    than white space; the length of the phone is not looked at.  What is
    posted carries the cells as they are, the amount paid as the number
    read from its cell and 0 when none can be read, and the name of the
    procedure only for a procedure: for any other visit it is empty,
    whatever the cell holds. *)
Theorem posted_registration_is_well_formed (st : State) :
  (snd (beginSubmit st) <> None <->
     JS.trim (patientName (form st)) <> ""
     /\ JS.trim (phoneNo (form st)) <> ""
     /\ age (form st) <> ""
     /\ gender (form st) <> ""
     /\ opProc (form st) <> ""
     /\ (opProc (form st) = "procedure" ->
         JS.trim (procedureName (form st)) <> ""))
  /\ (snd (beginSubmit st) = None -> exists text,
        fst (beginSubmit st) = setMessage (Some (msgError, text)) st)
  /\ forall p, snd (beginSubmit st) = Some p ->
       reg_PName p = patientName (form st)
       /\ reg_PhoneNo p = phoneNo (form st)
       /\ reg_UHId p = uhid (form st)
       /\ reg_Date p = date (form st)
       /\ reg_Age p = JS.parseInt (age (form st))
       /\ (reg_AmountPaid p
           == JS.orZero (JS.parseFloat (amountPaid (form st))))%Q
       /\ (JS.parseFloat (amountPaid (form st)) = None ->
           (reg_AmountPaid p == 0)%Q)
       /\ (reg_OPProc p = "procedure" ->
           reg_ProcedureName p = procedureName (form st)
           /\ JS.trim (reg_ProcedureName p) <> "")
       /\ (reg_OPProc p <> "procedure" -> reg_ProcedureName p = "").
Proof.
  rewrite <- registration_checks. unfold beginSubmit.
  destruct (validate (form st)) eqn:Hv; cbn [fst snd].
  - split; [split; [congruence|discriminate]|].
    split; [|discriminate]. intros _. eexists. reflexivity.
  - split; [split; [reflexivity|discriminate]|].
    split; [discriminate|].
    intros p [= <-]. apply registration_checks in Hv.
    destruct Hv as (_ & _ & _ & _ & _ & Hproc).
    cbn [registrationData reg_PName reg_PhoneNo reg_UHId reg_Date reg_Age
         reg_AmountPaid reg_OPProc reg_ProcedureName].
    repeat (split; [reflexivity|]).
    split; [intros ->; reflexivity|].
    split.
    + intros Hp. rewrite Hp. cbn. split; [reflexivity|].
      apply Hproc. exact Hp.
    + intros Hp. apply String.eqb_neq in Hp. rewrite Hp. reflexivity.
Qed.

(** X19.  When the checks of the registration pass and the reply comes:
    the form is cleared exactly when the server accepts, and then every
    cell of the form is empty but the date, which stays, as do the search
    cells; otherwise the form is what it was.  No message at all is shown
    exactly when the server answers without accepting; a request that
    throws shows an error. *)
Theorem registration_cleared_iff_accepted (st : State) (r : Reply) :
  validate (form st) = None ->
  let st' := handleSubmit st r in
  (patientName (form st') = "" <-> exists u, r = Accepted u)
  /\ (message st' = None <-> r = Refused)
  /\ (forall u, r = Accepted u ->
        message st' = Some (msgSuccess, Registered u)
        /\ form st'
           = {| uhid := ""; date := date (form st); opProc := "";
                procedureName := ""; patientName := ""; phoneNo := "";
                age := ""; gender := ""; paymentMode := "";
                amountPaid := "" |})
  /\ ((forall u, r <> Accepted u) -> form st' = form st)
  /\ (forall thrown, r = Threw thrown ->
        exists text, message st' = Some (msgError, text))
  /\ searchTerm st' = searchTerm st
  /\ searchResults st' = searchResults st
  /\ isSubmitting st' = false.
Proof.
  intros Hv. pose proof Hv as Hne. apply registration_checks in Hne.
  destruct Hne as (Hname & _).
  assert (Hn : patientName (form st) <> "").
  { intros H. rewrite H in Hname. apply Hname. reflexivity. }
  unfold handleSubmit, beginSubmit. rewrite Hv. cbn zeta.
  destruct r as [u| |thrown]; cbn;
    (split; [|split; [|split; [|split; [|split; [|split; [|split]]]]]]);
    try reflexivity.
  - split; [intros _; exists u; reflexivity|reflexivity].
  - split; discriminate.
  - intros u' [= <-]. split; reflexivity.
  - intros H. exfalso. apply (H u). reflexivity.
  - discriminate.
  - split; [intros H; contradiction|intros [u H]; discriminate].
  - split; reflexivity.
  - discriminate.
  - discriminate.
  - split; [intros H; contradiction|intros [u H]; discriminate].
  - split; discriminate.
  - discriminate.
  - intros t _. eexists. reflexivity.
Qed.

Lemma registration_cleared_iff_accepted_witness :
  validate (form sampleForm) = None
  /\ (message (handleSubmit sampleForm Refused) = None <-> Refused = Refused).
Proof.
  split; [reflexivity|].
  destruct (registration_cleared_iff_accepted sampleForm Refused eq_refl)
    as (_ & H & _).
  exact H.
Defined.

End RegistrationFacts.

(** ** Properties of the supplier payments *)

Module PaymentsFacts.
Import Payments.

Lemma amountOr_cases (amount : string) (total : Q) :
  (exists x, JS.parseFloat amount = Some x /\ ~ (x == 0)%Q
             /\ amountOr amount total = x)
  \/ ((forall x, JS.parseFloat amount = Some x -> (x == 0)%Q)
      /\ amountOr amount total = total).
Proof.
  unfold amountOr. destruct (JS.parseFloat amount) as [x|].
  - destruct (Qeq_bool x 0) eqn:E.
    + right. split; [|reflexivity]. intros y [= <-].
      apply Qeq_bool_iff. exact E.
    + left. exists x. repeat split. intro H.
      apply Qeq_bool_iff in H. congruence.
  - right. split; [discriminate|reflexivity].
Qed.

(** X20.  A payment is posted exactly when the dialog holds a bill and a
    payment mode is chosen.  The amount posted is the number read from
    the amount cell when there is one and it is not 0, and the total of
    the bill otherwise: an amount of 0 and a text that does not read as a
    number both post the total, so the amount posted is 0 only for a bill
    whose total is 0; and the amount the dialog filled in posts the
    total. *)
Theorem payment_amount_defaults_to_bill_total (st : State) :
  (snd (beginPayment st) <> None <->
     (exists b, bill (paymentModal st) = Some b) /\ paymentMode st <> "")
  /\ forall b p,
       bill (paymentModal st) = Some b ->
       snd (beginPayment st) = Some p ->
       paid_bill p = BillId b
       /\ payment_mode p = paymentMode st
       /\ transaction_details p = transactionDetails st
       /\ (forall x, JS.parseFloat (amountPaid st) = Some x ->
             ~ (x == 0)%Q -> amount_paid p = x)
       /\ ((forall x, JS.parseFloat (amountPaid st) = Some x -> (x == 0)%Q) ->
             amount_paid p = BillTotal b)
       /\ ((amount_paid p == 0)%Q -> (BillTotal b == 0)%Q)
       /\ (forall x, JS.parseFloat (amountPaid st) = Some x ->
             (x == BillTotal b)%Q -> (amount_paid p == BillTotal b)%Q).
Proof.
  unfold beginPayment. split.
  - destruct (bill (paymentModal st)) as [b|]; cbn [snd].
    + destruct (JS.truthy (paymentMode st)) eqn:E; cbn [negb snd].
      * apply PharmacyFacts.truthy_true_iff in E.
        split; [|discriminate]. intros _. split; [exists b; reflexivity|exact E].
      * apply PharmacyFacts.truthy_false_iff in E.
        split; [congruence|]. intros [_ H]. contradiction.
    + split; [congruence|]. intros [[b H] _]. discriminate.
  - intros b p Hb. rewrite Hb.
    destruct (JS.truthy (paymentMode st)); cbn [negb snd]; [|discriminate].
    intros [= <-]. cbn [paid_bill payment_mode transaction_details amount_paid].
    split; [reflexivity|]. split; [reflexivity|]. split; [reflexivity|].
    destruct (amountOr_cases (amountPaid st) (BillTotal b))
      as [(x & Hx & Hnz & Ha)|[Hz Ha]]; rewrite Ha.
    + split; [intros y Hy _; congruence|].
      split; [intros H; exfalso; apply Hnz, (H x Hx)|].
      split; [intros H; contradiction|].
      intros y Hy Heq. rewrite Hx in Hy. injection Hy as <-. exact Heq.
    + split; [intros y Hy Hnz; exfalso; apply Hnz, (Hz y Hy)|].
      split; [reflexivity|]. split; [auto|]. intros; reflexivity.
Qed.

(** X21.  When a payment is posted and the reply comes: the dialog is
    closed, its cells blanked and the list of bills fetched again exactly
    when the server confirms, with a message naming the bill the dialog
    held; when the server answers without confirming nothing changes, not
    even the message, and the dialog stays open with what was entered;
    a request that throws shows an error and leaves the dialog open.  The
    screen is out of the processing state in each case. *)
Theorem payment_dialog_closed_iff_marked (st : State) (b : Bill) (r : Reply) :
  bill (paymentModal st) = Some b ->
  paymentMode st <> "" ->
  let st' := fst (handlePayment st r) in
  (bill (paymentModal st') = None <-> r = Marked)
  /\ (snd (handlePayment st r) = true <-> r = Marked)
  /\ (r = Marked ->
        message st' = Some (msgSuccess, MarkedPaid (BillNo b))
        /\ isOpen (paymentModal st') = false
        /\ paymentMode st' = "" /\ amountPaid st' = ""
        /\ transactionDetails st' = "")
  /\ (r <> Marked ->
        paymentModal st' = paymentModal st
        /\ paymentMode st' = paymentMode st
        /\ amountPaid st' = amountPaid st
        /\ transactionDetails st' = transactionDetails st)
  /\ (r = Refused -> message st' = message st)
  /\ (forall thrown, r = Threw thrown ->
        exists text, message st' = Some (msgError, text))
  /\ bills st' = bills st
  /\ isProcessing st' = false.
Proof.
  intros Hb Hm. apply PharmacyFacts.truthy_true_iff in Hm.
  unfold handlePayment, beginPayment. rewrite Hb, Hm. cbn [negb].
  destruct r as [| |thrown]; cbn;
    (split; [|split; [|split; [|split; [|split; [|split; [|split]]]]]]);
    try reflexivity; try discriminate; try tauto.
  - split; [rewrite Hb|]; discriminate.
  - split; discriminate.
  - split; [rewrite Hb|]; discriminate.
  - split; discriminate.
  - intros t _. eexists. reflexivity.
Qed.

Lemma payment_dialog_closed_iff_marked_witness :
  bill (paymentModal samplePayment) <> None
  /\ paymentMode samplePayment <> ""
  /\ (snd (handlePayment samplePayment Marked) = true <-> Marked = Marked).
Proof.
  split; [discriminate|]. split; [discriminate|].
  destruct (payment_dialog_closed_iff_marked samplePayment _ Marked eq_refl)
    as (_ & H & _); [discriminate|].
  exact H.
Defined.

End PaymentsFacts.

(** ** Properties of the export *)

Module StockExportFacts.
Import Reports StockExport.

Lemma hasChar_app (c : ascii) (a b : string) :
  hasChar c (a ++ b) = hasChar c a || hasChar c b.
Proof.
  induction a as [|x a IH]; simpl; [reflexivity|].
  rewrite IH. apply orb_assoc.
Qed.

Lemma append_nil (a : string) : a ++ "" = a.
Proof. induction a as [|x a IH]; simpl; [|rewrite IH]; reflexivity. Qed.

Lemma append_assoc (a b c : string) : (a ++ b) ++ c = a ++ (b ++ c).
Proof. induction a as [|x a IH]; simpl; [|rewrite IH]; reflexivity. Qed.

(** Two texts without the separator, each followed by nothing or by the
    separator, are the same when what they make is. *)
Lemma plain_split (sep : ascii) (a b r1 r2 : string) :
  hasChar sep a = false -> hasChar sep b = false ->
  follows sep r1 -> follows sep r2 ->
  a ++ r1 = b ++ r2 -> a = b /\ r1 = r2.
Proof.
  revert b. induction a as [|x a IH]; intros [|y b] Ha Hb H1 H2; simpl.
  - auto.
  - intros ->. exfalso. simpl in Hb. apply orb_false_iff in Hb.
    destruct Hb as [Hy _]. destruct H1 as [H1|[r H1]]; [discriminate|].
    injection H1 as <- _. rewrite Ascii.eqb_refl in Hy. discriminate.
  - intros <-. exfalso. simpl in Ha. apply orb_false_iff in Ha.
    destruct Ha as [Hx _]. destruct H2 as [H2|[r H2]]; [discriminate|].
    injection H2 as <- _. rewrite Ascii.eqb_refl in Hx. discriminate.
  - intros [= <- H]. simpl in Ha, Hb.
    apply orb_false_iff in Ha, Hb.
    destruct (IH b (proj2 Ha) (proj2 Hb) H1 H2 H) as [-> ->]. auto.
Qed.

Lemma quoted_split (a b r1 r2 : string) :
  unquoted r1 -> unquoted r2 ->
  doubleQuotes a ++ String quote r1 = doubleQuotes b ++ String quote r2 ->
  a = b /\ r1 = r2.
Proof.
  intros H1 H2. revert b.
  induction a as [|x a IH]; intros [|y b]; simpl.
  - intros [= ->]. auto.
  - destruct (Ascii.eqb y quote) eqn:Ey; simpl.
    + intros [= H]. exfalso. apply (H1 _ H).
    + intros [= H _]. rewrite <- H, Ascii.eqb_refl in Ey. discriminate.
  - destruct (Ascii.eqb x quote) eqn:Ex; simpl.
    + intros [= H]. exfalso. symmetry in H. apply (H2 _ H).
    + intros [= H _]. rewrite H, Ascii.eqb_refl in Ex. discriminate.
  - destruct (Ascii.eqb x quote) eqn:Ex, (Ascii.eqb y quote) eqn:Ey; simpl.
    + apply Ascii.eqb_eq in Ex, Ey. subst x y.
      intros [= H]. destruct (IH b H) as [-> ->]. auto.
    + intros [= H _]. rewrite <- H, Ascii.eqb_refl in Ey. discriminate.
    + intros [= H _]. rewrite H, Ascii.eqb_refl in Ex. discriminate.
    + intros [= <- H]. destruct (IH b H) as [-> ->]. auto.
Qed.

Lemma follows_unquoted (rest : string) : follows comma rest -> unquoted rest.
Proof.
  intros [->|[r ->]] r'; [discriminate|].
  intros H. vm_compute in H. discriminate H.
Qed.

(** A cell can be read back from the front of a line. *)
Lemma escape_split (a b r1 r2 : string) :
  follows comma r1 -> follows comma r2 ->
  escapeCell a ++ r1 = escapeCell b ++ r2 -> a = b /\ r1 = r2.
Proof.
  intros H1 H2. unfold escapeCell.
  destruct (hasChar comma a || hasChar quote a) eqn:Ea,
           (hasChar comma b || hasChar quote b) eqn:Eb.
  - simpl. rewrite !append_assoc. simpl. intros [= H].
    apply quoted_split in H; auto using follows_unquoted.
  - apply orb_false_iff in Eb. destruct Eb as [_ Eb].
    destruct b as [|y b]; simpl.
    + intros <-. destruct H2 as [H2|[r H2]]; [discriminate|].
      vm_compute in H2. discriminate H2.
    + intros [= <- _]. cbn [hasChar] in Eb.
      rewrite Ascii.eqb_refl in Eb. discriminate.
  - apply orb_false_iff in Ea. destruct Ea as [_ Ea].
    destruct a as [|x a]; simpl.
    + intros ->. destruct H1 as [H1|[r H1]]; [discriminate|].
      vm_compute in H1. discriminate H1.
    + intros [= -> _]. cbn [hasChar] in Ea.
      rewrite Ascii.eqb_refl in Ea. discriminate.
  - apply orb_false_iff in Ea, Eb.
    apply (plain_split comma); tauto.
Qed.

Section Joined.

(** Pieces that can be read back from the front of a joined text. *)
Variables (sep : ascii) (piece : string -> Prop).
Hypothesis piece_split : forall a b r1 r2,
  piece a -> piece b -> follows sep r1 -> follows sep r2 ->
  a ++ r1 = b ++ r2 -> a = b /\ r1 = r2.

Lemma join_follows (x : string) (l : list string) :
  exists rest,
    join (String sep "") (x :: l) = x ++ rest /\ follows sep rest
    /\ (l = [] -> rest = "")
    /\ (l <> [] -> rest = String sep (join (String sep "") l)).
Proof.
  destruct l as [|y l].
  - exists "". simpl. rewrite append_nil.
    repeat split; [left; reflexivity|congruence].
  - exists (String sep (join (String sep "") (y :: l))).
    repeat split; [right; eexists; reflexivity|discriminate].
Qed.

Lemma join_inj (l1 l2 : list string) :
  Forall piece l1 -> Forall piece l2 -> l1 <> [] -> l2 <> [] ->
  join (String sep "") l1 = join (String sep "") l2 -> l1 = l2.
Proof.
  revert l2. induction l1 as [|a l1 IH]; intros [|b l2] F1 F2 N1 N2;
    try congruence.
  inversion F1 as [|? ? Pa F1']; inversion F2 as [|? ? Pb F2']; subst.
  destruct (join_follows a l1) as (r1 & E1 & Hf1 & Hn1 & Hc1).
  destruct (join_follows b l2) as (r2 & E2 & Hf2 & Hn2 & Hc2).
  rewrite E1, E2. intros H.
  destruct (piece_split a b r1 r2 Pa Pb Hf1 Hf2 H) as [-> Hr].
  f_equal.
  destruct l1 as [|a' l1], l2 as [|b' l2]; [reflexivity| | |].
  - rewrite (Hn1 eq_refl), Hc2 in Hr by discriminate. discriminate.
  - rewrite (Hn2 eq_refl), Hc1 in Hr by discriminate. discriminate.
  - rewrite Hc1, Hc2 in Hr by discriminate. injection Hr as Hr.
    apply IH; auto; discriminate.
Qed.

End Joined.

Lemma csvLine_inj (row1 row2 : list string) :
  row1 <> [] -> row2 <> [] -> csvLine row1 = csvLine row2 -> row1 = row2.
Proof.
  intros N1 N2 H. unfold csvLine in H.
  apply (join_inj comma (fun c => exists s, c = escapeCell s)) in H.
  - revert row2 N2 H. clear N1.
    induction row1 as [|a row1 IH]; intros [|b row2] N2; simpl;
      try discriminate; [reflexivity|].
    intros [= Hab H].
    assert (a = b) as ->.
    { apply (escape_split a b "" ""); try (left; reflexivity).
      rewrite !append_nil. exact Hab. }
    f_equal. destruct row1, row2; try discriminate; [reflexivity|].
    apply IH; [discriminate|exact H].
  - intros a b r1 r2 [s ->] [t ->] H1 H2 E.
    destruct (escape_split s t r1 r2 H1 H2 E) as [-> ->]. auto.
  - apply Forall_map. apply Forall_forall. intros s _. exists s. reflexivity.
  - apply Forall_map. apply Forall_forall. intros s _. exists s. reflexivity.
  - destruct row1; [congruence|discriminate].
  - destruct row2; [congruence|discriminate].
Qed.

Lemma doubleQuotes_oneLine (str : string) :
  oneLine str -> oneLine (doubleQuotes str).
Proof.
  unfold oneLine. induction str as [|c r IH]; simpl; [reflexivity|].
  intros H. apply orb_false_iff in H. destruct H as [Hc Hr].
  destruct (Ascii.eqb c quote) eqn:E; simpl.
  - rewrite (IH Hr). reflexivity.
  - rewrite Hc, (IH Hr). reflexivity.
Qed.

Lemma escapeCell_oneLine (str : string) :
  oneLine str -> oneLine (escapeCell str).
Proof.
  intros H. unfold escapeCell. destruct (_ || _); [|exact H].
  unfold oneLine. simpl. rewrite hasChar_app.
  rewrite (doubleQuotes_oneLine str H). reflexivity.
Qed.

Lemma join_oneLine (sep : ascii) (l : list string) :
  Ascii.eqb sep lineFeed = false ->
  Forall oneLine l -> oneLine (join (String sep "") l).
Proof.
  intros Hsep. induction 1 as [|x l Hx Hl IH]; [reflexivity|].
  destruct l as [|y l]; [exact Hx|].
  unfold oneLine in *.
  change (join (String sep "") (x :: y :: l))
    with (x ++ String sep "" ++ join (String sep "") (y :: l)).
  rewrite !hasChar_app, Hx, IH. simpl. rewrite Hsep. reflexivity.
Qed.

Lemma csvLine_oneLine (row : list string) :
  Forall oneLine row -> oneLine (csvLine row).
Proof.
  intros H. apply join_oneLine; [reflexivity|].
  apply Forall_map. eapply Forall_impl; [|exact H].
  apply escapeCell_oneLine.
Qed.

Lemma numeral_oneLine (d : Decimal.uint) :
  oneLine (NilEmpty.string_of_uint d).
Proof. unfold oneLine. induction d; simpl; auto. Qed.

Lemma ofInt_oneLine (n : Z) : oneLine (JSText.ofInt n).
Proof.
  assert (H : forall m, oneLine (JS.digitsOf m)).
  { intros m. unfold JS.digitsOf, NilZero.string_of_uint.
    destruct (N.to_uint m); try reflexivity; apply numeral_oneLine. }
  unfold JSText.ofInt. destruct (n <? 0); [|apply H].
  unfold oneLine. simpl. apply H.
Qed.

Lemma orText_oneLine (x fallback : string) :
  oneLine x -> oneLine fallback -> oneLine (orText x fallback).
Proof. unfold orText. destruct (JS.truthy x); auto. Qed.

Lemma rowOf_oneLine (item : StockItem) :
  onOneLine item -> Forall oneLine (rowOf item).
Proof.
  intros (H1 & H2 & H3 & H4 & H5). unfold rowOf.
  repeat constructor; auto using ofInt_oneLine, orText_oneLine.
  - apply orText_oneLine; [assumption|reflexivity].
  - apply orText_oneLine; [assumption|reflexivity].
  - apply orText_oneLine; [assumption|reflexivity].
  - apply orText_oneLine; [assumption|reflexivity].
  - destruct (DaysToExpiry item); [apply ofInt_oneLine|reflexivity].
  - unfold getStockStatus.
    destruct (CurrentStock item <=? 0); [reflexivity|].
    destruct (CurrentStock item <? 10); [reflexivity|].
    destruct (DaysToExpiry item) as [d|]; [|reflexivity].
    destruct (d <=? 90); reflexivity.
Qed.

Lemma map_inj_on {A B} (f : A -> B) (P : A -> Prop) (l1 l2 : list A) :
  (forall a b, P a -> P b -> f a = f b -> a = b) ->
  Forall P l1 -> Forall P l2 -> map f l1 = map f l2 -> l1 = l2.
Proof.
  intros Hf. revert l2.
  induction l1 as [|a l1 IH]; intros [|b l2] F1 F2; simpl;
    try discriminate; [reflexivity|].
  inversion F1; inversion F2; subst. intros [= Hab H].
  f_equal; auto.
Qed.

(** X22.  The exported file can be read back.  A cell with neither a
    comma nor a quote is written as it is, and any other cell between
    quotes with its quotes doubled; a line determines the cells of its
    row; and when no text of the stock items has a line feed, the file
    determines its rows, cell by cell, in their order.  There is no file
    exactly when there is no item. *)
Theorem exported_file_determines_its_rows :
  (forall str,
     hasChar comma str = false -> hasChar quote str = false ->
     escapeCell str = str)
  /\ (forall str,
        hasChar comma str = true \/ hasChar quote str = true ->
        escapeCell str
        = String quote (doubleQuotes str ++ String quote ""))
  /\ (forall row1 row2,
        row1 <> [] -> row2 <> [] -> csvLine row1 = csvLine row2 ->
        row1 = row2)
  /\ (forall data1 data2 text,
        Forall onOneLine data1 -> Forall onOneLine data2 ->
        csvContent data1 = Some text -> csvContent data2 = Some text ->
        map rowOf data1 = map rowOf data2)
  /\ (forall data, csvContent data = None <-> data = []).
Proof.
  split; [|split; [|split; [|split]]].
  - intros str H1 H2. unfold escapeCell. rewrite H1, H2. reflexivity.
  - intros str H. unfold escapeCell.
    destruct H as [H|H]; rewrite H; [|rewrite orb_true_r]; reflexivity.
  - exact csvLine_inj.
  - intros data1 data2 text F1 F2. unfold csvContent.
    destruct (List.length data1 =? 0)%nat; [discriminate|].
    destruct (List.length data2 =? 0)%nat; [discriminate|].
    intros E1 E2.
    assert (H : join (String lineFeed "")
                  (map csvLine (headers :: map rowOf data2))
                = join (String lineFeed "")
                    (map csvLine (headers :: map rowOf data1)))
      by congruence.
    clear E1 E2.
    assert (Hrows : forall data, Forall onOneLine data ->
              Forall (fun row => row <> [] /\ Forall oneLine row)
                     (headers :: map rowOf data)).
    { intros data F. constructor.
      - split; [discriminate|]. repeat constructor.
      - apply Forall_map. eapply Forall_impl; [|exact F].
        intros item Hi. split; [discriminate|apply rowOf_oneLine, Hi]. }
    apply (join_inj lineFeed oneLine) in H.
    + apply (map_inj_on csvLine _ _ _
               (fun a b Ha Hb => csvLine_inj a b (proj1 Ha) (proj1 Hb))
               (Hrows data2 F2) (Hrows data1 F1)) in H.
      injection H as H. symmetry. exact H.
    + intros a b r1 r2. apply plain_split.
    + apply Forall_map. eapply Forall_impl; [|exact (Hrows data2 F2)].
      intros row [_ Hr]. apply csvLine_oneLine, Hr.
    + apply Forall_map. eapply Forall_impl; [|exact (Hrows data1 F1)].
      intros row [_ Hr]. apply csvLine_oneLine, Hr.
    + discriminate.
    + discriminate.
  - intros data. unfold csvContent. destruct data; simpl.
    + split; reflexivity.
    + split; discriminate.
Qed.

End StockExportFacts.

(** ** Properties of the text primitives *)

Module JSTextFacts.
Import JSText.

Lemma prefix_empty (s : string) : String.prefix "" s = true.
Proof. destruct s; reflexivity. Qed.

Lemma prefix_app (t u s : string) :
  String.prefix (t ++ u) s = true -> String.prefix t s = true.
Proof.
  revert s. induction t as [|c t IH]; intros s; [intros _; apply prefix_empty|].
  destruct s as [|d s]; simpl; [discriminate|].
  destruct (Ascii.ascii_dec c d); [apply IH|discriminate].
Qed.

Lemma includes_prefix (s t : string) :
  String.prefix t s = true -> includes s t = true.
Proof. intros H. destruct s; simpl in *; rewrite H; reflexivity. Qed.

Lemma includes_tail (c : ascii) (s t : string) :
  includes s t = true -> includes (String c s) t = true.
Proof.
  intros H. cbn [includes]. rewrite H. apply orb_true_r.
Qed.

Lemma includes_app_l (s t u : string) :
  includes s (t ++ u) = true -> includes s t = true.
Proof.
  induction s as [|c s IH]; cbn [includes]; intros H;
    apply orb_true_iff in H; destruct H as [H|H].
  - apply prefix_app in H. rewrite H. reflexivity.
  - discriminate.
  - apply prefix_app in H. rewrite H. reflexivity.
  - rewrite (IH H). apply orb_true_r.
Qed.

Lemma prefix_app_includes (u t s : string) :
  String.prefix (u ++ t) s = true -> includes s t = true.
Proof.
  revert s. induction u as [|c u IH]; intros s; [apply includes_prefix|].
  destruct s as [|d s]; simpl; [discriminate|].
  destruct (Ascii.ascii_dec c d); [|discriminate].
  intros H. apply IH in H. fold (includes s t). rewrite H.
  apply orb_true_r.
Qed.

Lemma includes_app_r (s t u : string) :
  includes s (u ++ t) = true -> includes s t = true.
Proof.
  induction s as [|c s IH]; cbn [includes]; intros H;
    apply orb_true_iff in H; destruct H as [H|H].
  - apply (prefix_app_includes u t "") in H. exact H.
  - discriminate.
  - apply (prefix_app_includes u t (String c s)) in H. exact H.
  - apply includes_tail, IH, H.
Qed.

Lemma toLowerCase_truthy (s : string) :
  JS.truthy (toLowerCase s) = JS.truthy s.
Proof. destruct s; reflexivity. Qed.

Lemma lowerChar_space (c : ascii) :
  JS.isWhiteSpace (lowerChar c) = JS.isWhiteSpace c.
Proof. destruct c as [[] [] [] [] [] [] [] []]; vm_compute; reflexivity. Qed.

Lemma toLowerCase_trimStart (s : string) :
  toLowerCase (JS.trimStart s) = JS.trimStart (toLowerCase s).
Proof.
  induction s as [|c s IH]; [reflexivity|].
  cbn [JS.trimStart toLowerCase]. rewrite lowerChar_space.
  destruct (JS.isWhiteSpace c); [exact IH|reflexivity].
Qed.

Lemma toLowerCase_rev_append (s acc : string) :
  toLowerCase (JS.rev_append s acc)
  = JS.rev_append (toLowerCase s) (toLowerCase acc).
Proof.
  revert acc. induction s as [|c s IH]; intros acc; [reflexivity|].
  cbn [JS.rev_append toLowerCase]. rewrite IH. reflexivity.
Qed.

Lemma toLowerCase_rev (s : string) :
  toLowerCase (JS.rev s) = JS.rev (toLowerCase s).
Proof. apply toLowerCase_rev_append. Qed.

Lemma toLowerCase_trim (s : string) :
  toLowerCase (JS.trim s) = JS.trim (toLowerCase s).
Proof.
  unfold JS.trim, JS.trimEnd.
  rewrite toLowerCase_rev, toLowerCase_trimStart, toLowerCase_rev,
    toLowerCase_trimStart.
  reflexivity.
Qed.

Lemma rev_append_twice (s a b : string) :
  JS.rev_append (JS.rev_append s a) b = JS.rev_append a (s ++ b).
Proof.
  revert a b. induction s as [|c s IH]; intros a b; [reflexivity|].
  cbn [JS.rev_append]. rewrite IH. reflexivity.
Qed.

Lemma rev_rev (s : string) : JS.rev (JS.rev s) = s.
Proof.
  unfold JS.rev. rewrite rev_append_twice. simpl.
  induction s as [|c s IH]; simpl; [|rewrite IH]; reflexivity.
Qed.

Lemma text_app_assoc (a b c : string) : (a ++ b) ++ c = a ++ (b ++ c).
Proof. induction a as [|x a IH]; simpl; [|rewrite IH]; reflexivity. Qed.

Lemma rev_append_app (s acc : string) :
  JS.rev_append s acc = JS.rev s ++ acc.
Proof.
  unfold JS.rev. revert acc.
  induction s as [|c s IH]; intros acc; [reflexivity|].
  cbn [JS.rev_append]. rewrite IH, (IH (String c "")), text_app_assoc.
  reflexivity.
Qed.

Lemma rev_append_front (a b acc : string) :
  JS.rev_append (a ++ b) acc = JS.rev_append b (JS.rev_append a acc).
Proof.
  revert acc. induction a as [|c a IH]; intros acc; [reflexivity|].
  simpl. apply IH.
Qed.

Lemma rev_app (a b : string) : JS.rev (a ++ b) = JS.rev b ++ JS.rev a.
Proof.
  unfold JS.rev at 1. rewrite rev_append_front, rev_append_app.
  reflexivity.
Qed.

Lemma trimStart_suffix (s : string) :
  exists p, s = p ++ JS.trimStart s.
Proof.
  induction s as [|c s [p IH]]; [exists ""; reflexivity|].
  cbn [JS.trimStart]. destruct (JS.isWhiteSpace c).
  - exists (String c p). simpl. rewrite <- IH. reflexivity.
  - exists "". reflexivity.
Qed.

End JSTextFacts.

(** ** Properties of the list of sales *)

Module SalesFacts.
Import Sales.

Lemma prefix_iff (t s : string) :
  String.prefix t s = true <-> exists b, s = t ++ b.
Proof.
  revert s. induction t as [|c t IH]; intros s.
  - split; [intros _; exists s; reflexivity|intros _; destruct s; reflexivity].
  - destruct s as [|d s]; simpl.
    + split; [discriminate|intros [b H]; discriminate].
    + destruct (Ascii.ascii_dec c d) as [->|Hn].
      * rewrite IH. split; intros [b H]; exists b; congruence.
      * split; [discriminate|intros [b H]; congruence].
Qed.

(** [s.includes(t)] says that [t] lies somewhere in [s]. *)
Lemma includes_iff (s t : string) :
  JSText.includes s t = true <-> exists a b, s = a ++ t ++ b.
Proof.
  induction s as [|c s IH]; cbn [JSText.includes];
    rewrite orb_true_iff, prefix_iff.
  - split.
    + intros [[b H]|H]; [exists "", b; exact H|discriminate].
    + intros [a [b H]]. left. exists b. destruct a; [exact H|discriminate].
  - rewrite IH. split.
    + intros [[b H]|[a [b H]]]; [exists "", b; exact H|].
      exists (String c a), b. simpl. rewrite H. reflexivity.
    + intros [a [b H]]. destruct a as [|d a]; [left; exists b; exact H|].
      right. exists a, b. simpl in H. congruence.
Qed.

Lemma includes_trans (s u t : string) :
  JSText.includes s u = true -> JSText.includes u t = true ->
  JSText.includes s t = true.
Proof.
  rewrite !includes_iff. intros [a [b ->]] [a' [b' ->]].
  exists (a ++ a'), (b' ++ b).
  rewrite !JSTextFacts.text_app_assoc. reflexivity.
Qed.

Lemma includes_in_empty (t : string) :
  JSText.includes "" t = true -> t = "".
Proof.
  rewrite includes_iff. intros [a [b H]].
  destruct a; [|discriminate]. destruct t; [reflexivity|discriminate].
Qed.

Section Lowering.

Variable toLowerCase : string -> string.

Lemma shown_iff (t pf : string) (sale : SaleItem) :
  shown toLowerCase t pf sale = true <->
  (t = ""
   \/ JSText.includes (toLowerCase (PatientName sale))
                      (toLowerCase t) = true
   \/ JSText.includes (toLowerCase (InvoiceId sale))
                      (toLowerCase t) = true
   \/ JSText.includes (toLowerCase (UHId sale))
                      (toLowerCase t) = true)
  /\ (pf = "" \/ PaymentMode sale = pf).
Proof.
  unfold shown.
  assert (Hpf : (JS.truthy pf
                 && negb (String.eqb (PaymentMode sale) pf) = false)
                <-> (pf = "" \/ PaymentMode sale = pf)).
  { destruct (JS.truthy pf) eqn:E; cbn [andb].
    - apply PharmacyFacts.truthy_true_iff in E.
      rewrite negb_false_iff, String.eqb_eq. tauto.
    - apply PharmacyFacts.truthy_false_iff in E. tauto. }
  destruct (JS.truthy pf && negb (String.eqb (PaymentMode sale) pf)).
  - split.
    + destruct (negb _); discriminate.
    + intros [_ H]. apply Hpf in H. discriminate.
  - assert (Hpf' : pf = "" \/ PaymentMode sale = pf) by (apply Hpf; reflexivity).
    destruct (JS.truthy t) eqn:Et.
    + apply PharmacyFacts.truthy_true_iff in Et.
      destruct (JSText.includes (toLowerCase (PatientName sale)) _);
        cbn [orb negb]; [tauto|].
      destruct (JSText.includes (toLowerCase (InvoiceId sale)) _);
        cbn [orb negb]; [tauto|].
      destruct (JSText.includes (toLowerCase (UHId sale)) _);
        cbn [orb negb]; [tauto|].
      split; [discriminate|]. intros [[H|[H|[H|H]]] _];
        [contradiction|discriminate..].
    + apply PharmacyFacts.truthy_false_iff in Et. cbn [negb]. tauto.
Qed.

Lemma shown_narrows (t t' pf : string) (sale : SaleItem) :
  (t' = "" -> t = "") ->
  JSText.includes (toLowerCase t') (toLowerCase t) = true ->
  shown toLowerCase t' pf sale = true -> shown toLowerCase t pf sale = true.
Proof.
  intros He Hinc. rewrite !shown_iff. intros [[H|[H|[H|H]]] Hp];
    (split; [|exact Hp]); [auto|right..].
  - left. exact (includes_trans _ _ _ H Hinc).
  - right. left. exact (includes_trans _ _ _ H Hinc).
  - right. right. exact (includes_trans _ _ _ H Hinc).
Qed.

End Lowering.

Lemma filter_filter {A} (f g : A -> bool) (l : list A) :
  (forall a, f a = true -> g a = true) ->
  filter f l = filter f (filter g l).
Proof.
  intros H. induction l as [|a l IH]; simpl; [reflexivity|].
  destruct (f a) eqn:Ef.
  - rewrite (H a Ef). simpl. rewrite Ef, IH. reflexivity.
  - destruct (g a); simpl; [rewrite Ef|]; exact IH.
Qed.

(** X23.  The list of sales, for any lowering of texts that lowers the
    empty text, and only it, to the empty text (as
    [String.prototype.toLowerCase] does).  Every sale is shown while both
    filters are empty.  A sale is shown exactly when the search box is
    empty or the lowered term is found in the lowered patient name,
    invoice id or UHId, and the payment filter is empty or is the mode of
    the sale.  Narrowing the term never brings back a sale: when the
    lowered new term contains the lowered old one, the sales shown for
    the new term are those shown for the old one filtered again, so they
    are among them, in their order.  The search does not tell capitals
    from small letters: two terms that are lowered to the same text show
    the same sales.  The payment filter keeps the sales of exactly that
    mode. *)
Theorem typing_on_never_widens_the_sales
    (toLowerCase : string -> string) (sales : list SaleItem) :
  (forall s, toLowerCase s = "" <-> s = "") ->
  filteredSales toLowerCase sales "" "" = sales
  /\ (forall t pf sale,
        In sale (filteredSales toLowerCase sales t pf) <->
        In sale sales
        /\ (t = ""
            \/ JSText.includes (toLowerCase (PatientName sale))
                               (toLowerCase t) = true
            \/ JSText.includes (toLowerCase (InvoiceId sale))
                               (toLowerCase t) = true
            \/ JSText.includes (toLowerCase (UHId sale))
                               (toLowerCase t) = true)
        /\ (pf = "" \/ PaymentMode sale = pf))
  /\ (forall t t' pf,
        JSText.includes (toLowerCase t') (toLowerCase t) = true ->
        filteredSales toLowerCase sales t' pf
        = filter (shown toLowerCase t' pf)
                 (filteredSales toLowerCase sales t pf)
        /\ incl (filteredSales toLowerCase sales t' pf)
                (filteredSales toLowerCase sales t pf))
  /\ (forall t t' pf,
        toLowerCase t = toLowerCase t' ->
        filteredSales toLowerCase sales t pf
        = filteredSales toLowerCase sales t' pf)
  /\ (forall t pf sale,
        pf <> "" -> In sale (filteredSales toLowerCase sales t pf) ->
        PaymentMode sale = pf).
Proof.
  intros Hlow.
  assert (Hnarrow : forall t t' pf,
            JSText.includes (toLowerCase t') (toLowerCase t) = true ->
            forall sale, shown toLowerCase t' pf sale = true ->
                         shown toLowerCase t pf sale = true).
  { intros t t' pf Hinc sale. apply shown_narrows; [|exact Hinc].
    intros ->. apply Hlow. apply includes_in_empty.
    replace "" with (toLowerCase "") at 1 by (apply Hlow; reflexivity).
    exact Hinc. }
  split; [|split; [|split; [|split]]].
  - unfold filteredSales. induction sales as [|a l IH]; simpl;
      [|rewrite IH]; reflexivity.
  - intros t pf sale. unfold filteredSales.
    rewrite filter_In, shown_iff. tauto.
  - intros t t' pf Hinc. unfold filteredSales. split.
    + apply filter_filter. apply Hnarrow. exact Hinc.
    + intros sale. rewrite !filter_In. intros [Hin Hs].
      split; [exact Hin|]. exact (Hnarrow t t' pf Hinc sale Hs).
  - intros t t' pf H. unfold filteredSales.
    assert (Ht : JS.truthy t = JS.truthy t').
    { assert (H0 : toLowerCase "" = "") by (apply Hlow; reflexivity).
      destruct t, t'; try reflexivity; rewrite H0 in H.
      - symmetry in H. apply (proj1 (Hlow _)) in H. discriminate.
      - apply (proj1 (Hlow _)) in H. discriminate. }
    apply filter_ext. intros sale. unfold shown. rewrite Ht, H. reflexivity.
  - intros t pf sale Hpf Hin. apply filter_In in Hin.
    destruct Hin as [_ H]. apply shown_iff in H. tauto.
Qed.

(** The sales of the sample under [JSText.toLowerCase]: the term ASH
    finds the two patients whose names start with it, whatever the case;
    typing on to asha leaves the first of them. *)
Lemma typing_on_never_widens_the_sales_witness :
  filteredSales JSText.toLowerCase sampleSales "ASH" ""
  = [saleOfAsha; saleOfAshok]
  /\ filteredSales JSText.toLowerCase sampleSales "asha" "" = [saleOfAsha]
  /\ filteredSales JSText.toLowerCase sampleSales "asha" ""
     = filter (shown JSText.toLowerCase "asha" "")
              (filteredSales JSText.toLowerCase sampleSales "ASH" "")
  /\ filteredSales JSText.toLowerCase sampleSales "Ash" "Cash"
     = filteredSales JSText.toLowerCase sampleSales "aSH" "Cash".
Proof.
  assert (Hlow : forall s, JSText.toLowerCase s = "" <-> s = "").
  { intros s. destruct s; simpl; split; intros H;
      [reflexivity|reflexivity|discriminate|discriminate]. }
  destruct (typing_on_never_widens_the_sales JSText.toLowerCase sampleSales
              Hlow) as [_ [_ [Hn [Hc _]]]].
  split; [reflexivity|]. split; [reflexivity|]. split.
  - apply (Hn "ASH" "asha" ""). reflexivity.
  - apply Hc. reflexivity.
Defined.

End SalesFacts.

(** ** Properties of the select with search *)

Module SearchableSelectFacts.
Import SearchableSelect.

Lemma trimStart_clean (s : string) : startsClean (JS.trimStart s).
Proof.
  induction s as [|c s IH]; [exact I|].
  cbn [JS.trimStart]. destruct (JS.isWhiteSpace c) eqn:E; [exact IH|exact E].
Qed.

Lemma trimStart_fixed (s : string) : startsClean s -> JS.trimStart s = s.
Proof. destruct s as [|c s]; simpl; [|intros ->]; reflexivity. Qed.

Lemma startsClean_front (a b : string) :
  startsClean (a ++ b) -> a <> "" -> startsClean a.
Proof. destruct a; simpl; [congruence|auto]. Qed.

(** What [trim] gives has no white space at either end. *)
Lemma trim_clean (s : string) :
  startsClean (JS.trim s) /\ startsClean (JS.rev (JS.trim s)).
Proof.
  unfold JS.trim, JS.trimEnd.
  set (u := JS.trimStart s). set (w := JS.trimStart (JS.rev u)).
  rewrite JSTextFacts.rev_rev. split; [|apply trimStart_clean].
  destruct (JSTextFacts.trimStart_suffix (JS.rev u)) as [p Hp].
  fold w in Hp. apply (f_equal JS.rev) in Hp.
  rewrite JSTextFacts.rev_rev, JSTextFacts.rev_app in Hp.
  destruct (JS.rev w) as [|c r] eqn:Ew; [exact I|].
  apply (startsClean_front _ (JS.rev p)); [|discriminate].
  rewrite <- Hp. apply trimStart_clean.
Qed.

Lemma trim_fixed (s : string) :
  startsClean s -> startsClean (JS.rev s) -> JS.trim s = s.
Proof.
  intros H1 H2. unfold JS.trim, JS.trimEnd.
  rewrite (trimStart_fixed s H1), (trimStart_fixed _ H2).
  apply JSTextFacts.rev_rev.
Qed.

Lemma trim_trim (s : string) : JS.trim (JS.trim s) = JS.trim s.
Proof. destruct (trim_clean s). apply trim_fixed; assumption. Qed.

(** X24.  What the select hands to [onChange] through what it shows is
    the value of an option whose label contains the search term, capitals
    and small letters taken as the same; or, where creating is allowed, a
    new text: the search term without the white space around it, which is
    not empty and is not the value of any option, even taking capitals
    and small letters as the same; or the empty text, from the cross.
    The search term is emptied each time. *)
Theorem select_hands_over_an_option_or_a_new_value
    (p : Props) (st : State) (e : Event) (v : string) :
  offered p e st ->
  snd (handle p e st) = Some v ->
  searchTerm (fst (handle p e st)) = ""
  /\ ((exists opt,
         In opt (options p) /\ v = value opt
         /\ JSText.includes (JSText.toLowerCase (label opt))
                            (JSText.toLowerCase (searchTerm st)) = true)
      \/ (allowCreate p = true
          /\ v = JS.trim (searchTerm st) /\ v <> "" /\ JS.trim v = v
          /\ forall opt, In opt (options p) ->
               JSText.toLowerCase (value opt) <> JSText.toLowerCase v)
      \/ (v = "" /\ e = ClearClicked)).
Proof.
  assert (Hcreate : showCreateOption p st = true ->
            snd (handleCreate st) = Some v ->
            searchTerm (fst (handleCreate st)) = ""
            /\ allowCreate p = true
            /\ v = JS.trim (searchTerm st) /\ v <> "" /\ JS.trim v = v
            /\ forall opt, In opt (options p) ->
                 JSText.toLowerCase (value opt) <> JSText.toLowerCase v).
  { unfold showCreateOption, handleCreate. intros Hs.
    apply andb_true_iff in Hs. destruct Hs as [Hs Hm].
    apply andb_true_iff in Hs. destruct Hs as [Ha Ht].
    rewrite Ht. cbn [fst snd searchTerm]. intros [= <-].
    split; [reflexivity|]. split; [exact Ha|]. split; [reflexivity|].
    split; [apply PharmacyFacts.truthy_true_iff; exact Ht|].
    split; [apply trim_trim|].
    intros opt Hin Heq. apply negb_true_iff in Hm.
    unfold exactMatch in Hm.
    assert (Hex : existsb
              (fun opt => String.eqb (JSText.toLowerCase (value opt))
                 (JS.trim (JSText.toLowerCase (searchTerm st))))
              (options p) = true).
    { apply existsb_exists. exists opt. split; [exact Hin|].
      rewrite <- JSTextFacts.toLowerCase_trim. apply String.eqb_eq.
      exact Heq. }
    congruence. }
  destruct e; cbn [offered handle].
  - destruct (disabled p); discriminate.
  - discriminate.
  - discriminate.
  - intros _. destruct (showCreateOption p st) eqn:Es; [|discriminate].
    intros H. destruct (Hcreate eq_refl H) as [H1 H2]. tauto.
  - intros [_ Hs] H. destruct (Hcreate Hs H) as [H1 H2]. tauto.
  - intros [_ Hin]. cbn. intros [= <-]. split; [reflexivity|].
    left. exists opt. unfold filteredOptions in Hin.
    apply filter_In in Hin. tauto.
  - intros _. cbn. intros [= <-]. split; [reflexivity|]. right. right. auto.
Qed.

Lemma select_hands_over_an_option_or_a_new_value_witness :
  exists v,
    snd (handle {| options := [{| value := "Acme"; label := "Acme" |}];
                   selected := ""; disabled := false; allowCreate := true |}
           CreateClicked {| isOpen := true; searchTerm := " Zenith " |})
    = Some v
    /\ v = "Zenith".
Proof.
  exists "Zenith". split; [reflexivity|].
  destruct (select_hands_over_an_option_or_a_new_value
              {| options := [{| value := "Acme"; label := "Acme" |}];
                 selected := ""; disabled := false; allowCreate := true |}
              {| isOpen := true; searchTerm := " Zenith " |}
              CreateClicked "Zenith")
    as [_ [H|[H|H]]].
  - split; reflexivity.
  - reflexivity.
  - destruct H as (opt & [<-|[]] & Hv & _). discriminate Hv.
  - reflexivity.
  - destruct H as [H _]. discriminate H.
Defined.

End SearchableSelectFacts.

(** ** Properties of signing in *)

Module AuthFacts.
Import Auth.

Lemma handleApiError_cases (t : Thrown) :
  match t with
  | AxiosError _ dataError dataMessage message =>
      (truthyText dataError = true /\ Some (handleApiError t) = dataError)
      \/ (truthyText dataError = false /\ truthyText dataMessage = true
          /\ Some (handleApiError t) = dataMessage)
      \/ (truthyText dataError = false /\ truthyText dataMessage = false
          /\ handleApiError t = message)
  | OtherError message => handleApiError t = message
  | NotAnError => handleApiError t <> ""
  end.
Proof.
  destruct t as [status e m message|message|]; cbn;
    [|reflexivity|discriminate].
  destruct e as [e|]; cbn; [destruct (JS.truthy e) eqn:Ee; [left; auto|]|];
    (destruct m as [m|]; cbn;
     [destruct (JS.truthy m) eqn:Em; [right; left; auto|]|]);
    right; right; auto.
Qed.

(** X25.  Signing in asks the server exactly when a name and a password
    are entered.  When the server accepts, the token and the name are
    stored, the session is signed in under that name, the page says
    welcome and goes to the start page.  When the request fails the page
    stays, the session is as it was, and the one message shown is never
    empty: it is the [error] of the reply when there is one, else its
    [message], else the message of the error, and "Login failed" when
    that is empty. *)
Theorem failed_login_always_names_a_reason
    (name password : string) (r : LoginReply) (w : World) :
  let out := handleSubmit name password r w in
  (requested out = true <-> name <> "" /\ password <> "")
  /\ (requested out = false ->
        after out = w /\ toast out = EnterBoth /\ navigated out = false)
  /\ (requested out = true ->
        forall token user, r = LoginOk token user ->
          storage (after out)
          = {| auth_token := Some token; stored_username := Some user |}
          /\ isAuthenticated (session (after out)) = true
          /\ username (session (after out)) = Some user
          /\ toast out = WelcomeBack /\ navigated out = true)
  /\ (requested out = true ->
        forall t, r = LoginThrew t ->
          session (after out) = session w
          /\ navigated out = false
          /\ exists text,
               toast out = Failure text /\ text <> ""
               /\ (handleApiError t <> "" -> text = handleApiError t)
               /\ (handleApiError t = "" -> text = "Login failed"))
  /\ (forall status dataError dataMessage message,
        let reason :=
          handleApiError (AxiosError status dataError dataMessage message) in
        (truthyText dataError = true -> Some reason = dataError)
        /\ (truthyText dataError = false -> truthyText dataMessage = true ->
            Some reason = dataMessage)
        /\ (truthyText dataError = false -> truthyText dataMessage = false ->
            reason = message)).
Proof.
  cbn zeta.
  assert (Hreason : forall status dataError dataMessage message,
        let reason :=
          handleApiError (AxiosError status dataError dataMessage message) in
        (truthyText dataError = true -> Some reason = dataError)
        /\ (truthyText dataError = false -> truthyText dataMessage = true ->
            Some reason = dataMessage)
        /\ (truthyText dataError = false -> truthyText dataMessage = false ->
            reason = message)).
  { intros status e m msg. cbn zeta.
    pose proof (handleApiError_cases (AxiosError status e m msg)) as H.
    cbn beta iota in H.
    destruct H as [[H1 H2]|[(H1 & H2 & H3)|(H1 & H2 & H3)]];
      repeat split; intros; congruence. }
  unfold handleSubmit.
  destruct (JS.truthy name) eqn:En; cbn [negb orb].
  2:{ apply PharmacyFacts.truthy_false_iff in En. cbn.
      split; [split; [discriminate|intros [H _]; contradiction]|].
      split; [auto|]. split; [discriminate|]. split; [discriminate|].
      exact Hreason. }
  destruct (JS.truthy password) eqn:Ep; cbn [negb orb].
  2:{ apply PharmacyFacts.truthy_false_iff in Ep. cbn.
      split; [split; [discriminate|intros [_ H]; contradiction]|].
      split; [auto|]. split; [discriminate|]. split; [discriminate|].
      exact Hreason. }
  apply PharmacyFacts.truthy_true_iff in En, Ep.
  destruct r as [token user|t]; cbn.
  - split; [tauto|]. split; [discriminate|]. split; [|split].
    + intros _ token' user' [= <- <-]. repeat split.
    + intros _ t'. discriminate.
    + exact Hreason.
  - split; [tauto|]. split; [discriminate|]. split; [|split].
    + intros _ token user. discriminate.
    + intros _ t' [= <-]. split; [reflexivity|]. split; [reflexivity|].
      eexists. split; [reflexivity|].
      destruct (JS.truthy (handleApiError t)) eqn:E.
      * apply PharmacyFacts.truthy_true_iff in E. repeat split; auto.
        intros H. contradiction.
      * apply PharmacyFacts.truthy_false_iff in E.
        repeat split; [discriminate|intros H; contradiction].
    + exact Hreason.
Qed.

Lemma dispatch_session (e : Event) (w : World) :
  (isAuthenticated (session w) = false -> username (session w) = None) ->
  isAuthenticated (session (dispatch e w)) = false ->
  username (session (dispatch e w)) = None.
Proof.
  intros H. destruct e; cbn [dispatch].
  - unfold verifyStart. destruct (verifies w); exact H.
  - destruct r; cbn; auto. discriminate.
  - destruct r; cbn; auto. discriminate.
  - reflexivity.
  - exact H.
Qed.

Lemma onRejected_paired (t : Thrown) (s : Storage) :
  paired s -> paired (onRejected t s).
Proof.
  intros H. destruct t as [[status|] ? ? ?| |]; cbn; try exact H.
  destruct (status =? 401); [split; reflexivity|exact H].
Qed.

Lemma dispatch_paired (e : Event) (w : World) :
  paired (storage w) -> paired (storage (dispatch e w)).
Proof.
  intros H. destruct e; cbn [dispatch].
  - unfold verifyStart. destruct (verifies w); exact H.
  - destruct r; cbn; try exact H; split; reflexivity.
  - destruct r as [token user|t]; cbn.
    + split; discriminate.
    + apply onRejected_paired. exact H.
  - split; reflexivity.
  - cbn. apply onRejected_paired. exact H.
Qed.

(** X26.  A reply with status 401 to any request empties the two stored
    items, so the next request carries no [Authorization] header, but it
    leaves the session as it is: a protected route that showed its pages
    goes on showing them.  Signing out empties the stored items and the
    session, and the route then shows nothing and sends to the login
    page.  On every state reached from a storage, a session that is not
    signed in has no name, and the two stored items are there together
    or not at all whenever they were at the start. *)
Theorem rejected_request_keeps_the_session (s : Storage) :
  (forall w dataError dataMessage message,
     let w' :=
       dispatch
         (Rejected (AxiosError (Some 401) dataError dataMessage message)) w in
     storage w' = cleared
     /\ authorization (storage w') = None
     /\ session w' = session w
     /\ protectedRoute (session w') = protectedRoute (session w))
  /\ (forall w,
        storage (logout w) = cleared
        /\ authorization (storage (logout w)) = None
        /\ isAuthenticated (session (logout w)) = false
        /\ (isLoading (session w) = false ->
            protectedRoute (session (logout w)) = Nothing
            /\ redirects (session (logout w)) = true))
  /\ (forall w,
        reachable s w ->
        (isAuthenticated (session w) = false -> username (session w) = None)
        /\ (paired s -> paired (storage w))
        /\ (protectedRoute (session w) = Children <->
            isLoading (session w) = false
            /\ isAuthenticated (session w) = true)).
Proof.
  split; [|split].
  - intros w e m msg. cbn. repeat split.
  - intros w. cbn. split; [reflexivity|]. split; [reflexivity|].
    split; [reflexivity|]. unfold protectedRoute, redirects. cbn.
    intros ->. split; reflexivity.
  - intros w Hw. split; [|split].
    + induction Hw as [|e w _ IH]; [reflexivity|].
      apply dispatch_session. exact IH.
    + intros Hs. induction Hw as [|e w _ IH]; [exact Hs|].
      apply dispatch_paired. exact IH.
    + unfold protectedRoute.
      destruct (isLoading (session w)), (isAuthenticated (session w)); cbn;
        split; try discriminate; try tauto; intros [? ?]; discriminate.
Qed.

End AuthFacts.

(** ** Properties of the toasts *)

Module ToastsFacts.
Import Toasts.

Lemma within_refl {A} (l : list A) : within l l.
Proof. induction l; constructor; assumption. Qed.

Lemma within_filter {A} (f : A -> bool) (l : list A) : within (filter f l) l.
Proof.
  induction l as [|x l IH]; simpl; [constructor|].
  destruct (f x); constructor; exact IH.
Qed.

Lemma within_trans {A} (a b c : list A) :
  within a b -> within b c -> within a c.
Proof.
  intros Hab Hbc. revert a Hab.
  induction Hbc as [|x b c Hbc IH|x b c Hbc IH]; intros a Hab.
  - exact Hab.
  - constructor. apply IH. exact Hab.
  - inversion Hab; subst.
    + constructor. apply IH. assumption.
    + apply within_keep. apply IH. assumption.
Qed.

Lemma within_app {A} (a b c : list A) :
  within a b -> within (a ++ c) (b ++ c).
Proof. induction 1; simpl; [apply within_refl|constructor..]; assumption. Qed.

Lemma run_from (es : list Event) (toasts : list Toast) (t : Toast) :
  In t (run es toasts) <->
  (In t toasts /\ Forall (fun e => ~ removes (id t) e) es)
  \/ exists before rest,
       es = (before ++ Shown t :: rest)%list
       /\ Forall (fun e => ~ removes (id t) e) rest.
Proof.
  revert toasts. induction es as [|e es IH]; intros toasts.
  - simpl. split.
    + intros H. left. split; [exact H|constructor].
    + intros [[H _]|(before & rest & H & _)]; [exact H|].
      destruct before; discriminate.
  - cbn [run fold_left]. fold (run es (dispatch e toasts)). rewrite IH.
    split.
    + intros [[Hin Hc]|(before & rest & -> & Hc)].
      * destruct e as [t'|i|i]; cbn [dispatch] in Hin.
        -- apply in_app_or in Hin. destruct Hin as [Hin|[<-|[]]].
           ++ left. split; [exact Hin|]. constructor; [tauto|exact Hc].
           ++ right. exists [], es. split; [reflexivity|exact Hc].
        -- apply filter_In in Hin. destruct Hin as [Hin Hi].
           left. split; [exact Hin|]. constructor; [|exact Hc].
           cbn. intros ->. rewrite String.eqb_refl in Hi. discriminate.
        -- apply filter_In in Hin. destruct Hin as [Hin Hi].
           left. split; [exact Hin|]. constructor; [|exact Hc].
           cbn. intros ->. rewrite String.eqb_refl in Hi. discriminate.
      * right. exists (e :: before), rest. split; [reflexivity|exact Hc].
    + intros [[Hin Hc]|(before & rest & Heq & Hc)].
      * inversion Hc as [|? ? He Hc']; subst. left. split; [|exact Hc'].
        destruct e as [t'|i|i]; cbn [dispatch].
        -- apply in_or_app. left. exact Hin.
        -- apply filter_In. split; [exact Hin|]. apply negb_true_iff.
           apply String.eqb_neq. cbn in He. congruence.
        -- apply filter_In. split; [exact Hin|]. apply negb_true_iff.
           apply String.eqb_neq. cbn in He. congruence.
      * destruct before as [|e' before]; cbn in Heq.
        -- injection Heq as -> ->. left. split; [|exact Hc].
           cbn. apply in_or_app. right. left. reflexivity.
        -- injection Heq as -> ->. right. exists before, rest. auto.
Qed.

Lemma run_within (es : list Event) (toasts : list Toast) :
  within (run es toasts) (toasts ++ shown es).
Proof.
  revert toasts. induction es as [|e es IH]; intros toasts.
  - simpl. rewrite app_nil_r. apply within_refl.
  - cbn [run fold_left]. fold (run es (dispatch e toasts)).
    eapply within_trans; [apply IH|].
    destruct e as [t|i|i]; cbn [dispatch shown].
    + unfold showToast. rewrite <- app_assoc. apply within_refl.
    + apply within_app, within_filter.
    + apply within_app, within_filter.
Qed.

(** X27.  A toast is on the screen exactly when it was shown and neither
    its timer nor its cross has taken its id off since; the toasts on
    the screen are in the order in which they were shown; and what takes
    a toast off takes off every toast of that id and no other. *)
Theorem toast_stays_until_its_id_is_removed (es : list Event) :
  (forall t,
     In t (run es []) <->
     exists before rest,
       es = (before ++ Shown t :: rest)%list
       /\ Forall (fun e => ~ removes (id t) e) rest)
  /\ within (run es []) (shown es)
  /\ (forall i toasts,
        within (removeToast i toasts) toasts
        /\ forall t, In t (removeToast i toasts) <-> In t toasts /\ id t <> i).
Proof.
  split; [|split].
  - intros t. rewrite run_from. split.
    + intros [[[] _]|H]; exact H.
    + intros H. right. exact H.
  - apply (run_within es []).
  - intros i toasts. split; [apply within_filter|].
    intros t. unfold removeToast. rewrite filter_In, negb_true_iff.
    rewrite String.eqb_neq. reflexivity.
Qed.

End ToastsFacts.

(** ** Properties of the medicine entry *)

Module PharmacyEntryFacts.
Import Pharmacy PharmacyRun PharmacyEntry.

Lemma render_medicine (before after : State) :
  medicine (render before after) = medicine after.
Proof.
  unfold render. destruct (depsChanged before after); [|reflexivity].
  unfold paymentModeEffect.
  destruct (String.eqb _ "Cash"); [reflexivity|].
  destruct (String.eqb _ "UPI"); [reflexivity|].
  destruct (String.eqb _ "Both"); reflexivity.
Qed.

(** What an event of the rest of the screen does to the entry: nothing,
    or it empties the selection. *)
Lemma dispatch_medicine (e : Event) (st : State) :
  entryEvent (Screen e) ->
  medicine (dispatch e st) = medicine st
  \/ (medicines (medicine (dispatch e st)) = medicines (medicine st)
      /\ selectedMedicine (medicine (dispatch e st)) = "").
Proof.
  intros He. unfold dispatch. rewrite render_medicine.
  destruct e; cbn [handle]; try (left; reflexivity).
  - destruct He.
  - unfold handleAddMedicine.
    destruct (_ || _); [left; reflexivity|].
    destruct (find _ _) as [med|]; [|left; reflexivity].
    destruct (JS.parseInt _) as [q|]; [|left; reflexivity].
    destruct (q <=? 0); [left; reflexivity|].
    destruct (q >? CurrentStock med); [left; reflexivity|].
    right. split; reflexivity.
  - unfold handleClearAll. destruct (billItems st); left; reflexivity.
  - right. split; reflexivity.
  - destruct (validate st); left; reflexivity.
  - unfold finishSubmit. destruct r as [[msg|]|d]; try (left; reflexivity).
    destruct (resp_success d); [right; split; reflexivity|left; reflexivity].
Qed.

Lemma step_stockShown (meds : list Medicine) (e : EntryEvent) (st : State) :
  entryEvent e -> stockShown meds st -> stockShown meds (step e st).
Proof.
  intros He [Hm Hs]. unfold stockShown, checked in *.
  destruct e as [v|r|v|v|e]; cbn [step].
  - unfold handleMedicineSelect.
    destruct (JS.truthy v) eqn:Ev; cbn [negb fst].
    + cbn. split; [exact Hm|]. intros _ med Hf. rewrite Hf. reflexivity.
    + cbn. split; [exact Hm|].
      apply PharmacyFacts.truthy_false_iff in Ev. intros H. contradiction.
  - destruct r as [d| |]; cbn; auto.
  - cbn. auto.
  - cbn. auto.
  - destruct (dispatch_medicine e st He) as [H|[H1 H2]].
    + rewrite H. auto.
    + rewrite H1, H2. split; [exact Hm|]. intros H. contradiction.
Qed.

Lemma onEntry_stockShown (meds : list Medicine) (st : State) :
  onEntry meds st -> stockShown meds st.
Proof.
  induction 1 as [|e st _ IH He].
  - split; [reflexivity|]. intros H. contradiction.
  - apply step_stockShown; assumption.
Qed.

(** X28.  Once the list of medicines is loaded, the stock shown beside a
    selected medicine of the list is the stock its lines are checked
    against: on every state of the entry, a quantity that reads as a
    positive integer is refused for lack of stock exactly when it is
    above the stock shown, and accepted otherwise.  Choosing a name that
    is not on the list leaves the stock shown as it was, and the line is
    then refused as not found. *)
Theorem stock_shown_is_the_stock_checked
    (meds : list Medicine) (st : State) (med : Medicine) (q : Z) :
  onEntry meds st ->
  selectedMedicine (medicine st) <> "" ->
  checked st = Some med ->
  JS.parseInt (quantity (medicine st)) = Some q ->
  0 < q ->
  exists shownStock,
    currentStock (medicine st) = Some shownStock
    /\ (shownStock < q ->
        handleAddMedicine st
        = (st, Some (InsufficientStock shownStock q, error)))
    /\ (q <= shownStock ->
        handleAddMedicine st = (accept st (newItem st med q), None))
    /\ (forall v,
          v <> "" ->
          find (fun x => String.eqb (MName x) v) meds = None ->
          let st' := fst (handleMedicineSelect v st) in
          currentStock (medicine st') = Some shownStock
          /\ forall typed,
               typed <> "" ->
               snd (handleAddMedicine
                      (step (QuantityTyped typed) st'))
               = Some (MedicineNotFound, error)).
Proof.
  intros Hst Hsel Hf Hq Hpos.
  destruct (onEntry_stockShown meds st Hst) as [Hm Hs].
  specialize (Hs Hsel med Hf).
  exists (CurrentStock med). split; [exact Hs|].
  assert (Hqt : JS.truthy (quantity (medicine st)) = true).
  { destruct (quantity (medicine st)); [discriminate Hq|reflexivity]. }
  apply PharmacyFacts.truthy_true_iff in Hsel.
  unfold checked in Hf.
  split; [|split].
  - intros Hlt. unfold handleAddMedicine. rewrite Hsel, Hqt. cbn [negb orb].
    rewrite Hf, Hq.
    destruct (q <=? 0) eqn:E0; [apply Z.leb_le in E0; lia|].
    destruct (q >? CurrentStock med) eqn:E1; [reflexivity|].
    rewrite Z.gtb_ltb in E1. apply Z.ltb_ge in E1. lia.
  - intros Hle. unfold handleAddMedicine. rewrite Hsel, Hqt. cbn [negb orb].
    rewrite Hf, Hq.
    destruct (q <=? 0) eqn:E0; [apply Z.leb_le in E0; lia|].
    destruct (q >? CurrentStock med) eqn:E1; [|reflexivity].
    rewrite Z.gtb_ltb in E1. apply Z.ltb_lt in E1. lia.
  - intros v Hv Hnone. cbn zeta. unfold handleMedicineSelect.
    apply PharmacyFacts.truthy_true_iff in Hv. rewrite Hv. cbn [negb fst].
    rewrite Hm, Hnone. cbn. split; [exact Hs|].
    intros typed Ht. apply PharmacyFacts.truthy_true_iff in Ht.
    unfold handleAddMedicine. cbn. rewrite Hv, Ht. cbn [negb orb].
    rewrite Hm, Hnone. reflexivity.
Qed.

Lemma stock_shown_is_the_stock_checked_witness :
  exists shownStock,
    currentStock
      (medicine (step (QuantityTyped "3")
                   (step (MedicineSelected "Paracetamol")
                      (loaded Sample.catalogue))))
    = Some shownStock.
Proof.
  destruct (stock_shown_is_the_stock_checked Sample.catalogue
              (step (QuantityTyped "3")
                 (step (MedicineSelected "Paracetamol")
                    (loaded Sample.catalogue)))
              Sample.paracetamol 3) as (shownStock & H & _).
  - repeat (apply entry_step; [|exact I]). apply entry_loaded.
  - discriminate.
  - reflexivity.
  - reflexivity.
  - lia.
  - exists shownStock. exact H.
Defined.

End PharmacyEntryFacts.

(** ** Properties of the patient of a bill *)

Module PharmacyPatientFacts.
Import Pharmacy PharmacyPatient.

Lemma finalAmount_withPhone (v : string) (st : State) :
  finalAmount (withPhone v st) = finalAmount st.
Proof. reflexivity. Qed.

(** X29.  Who counts as a new patient, and what that does to the phone.
    Picking a name makes the patient new exactly when no patient of the
    day has that very name and the name is more than white space; for a
    patient of the day the name, the phone and the UHId are taken from
    the list as they are, and the age and the gender are emptied in each
    case.  The phone is checked for new patients only: a bill posted
    for a new patient carries a phone that is empty or has exactly ten
    digits, and for any other patient the checks do not look at the
    phone at all. *)
Theorem phone_is_checked_for_new_patients_only :
  (forall patients v p,
     let exact := find (fun x => String.eqb (PName x) v) patients in
     let p' := fst (handlePatientSelect patients v p) in
     (isNewPatient p' = true <-> exact = None /\ JS.trim v <> "")
     /\ age p' = "" /\ gender p' = "" /\ selectedPatient p' = v
     /\ (snd (handlePatientSelect patients v p) <> None <->
         isNewPatient p' = true)
     /\ forall x, exact = Some x ->
          PName x = v /\ patientName p' = v
          /\ phoneNo p' = Phone x /\ uhid p' = UHId x)
  /\ (forall st r posted,
        snd (handleSubmit st r) = Some posted ->
        phone_no posted = phoneNo (patient st)
        /\ (isNewPatient (patient st) = true ->
            phone_no posted = ""
            \/ JS.tenDigits (phone_no posted) = true))
  /\ (forall st v,
        isNewPatient (patient st) = false ->
        validate (withPhone v st) = validate st).
Proof.
  split; [|split].
  - intros patients v p. cbn zeta. unfold handlePatientSelect.
    destruct (find (fun x => String.eqb (PName x) v) patients) as [x|] eqn:Ef.
    + cbn. split; [split; [discriminate|intros [H _]; discriminate]|].
      repeat (split; [reflexivity|]).
      split; [split; [intros H; contradiction|discriminate]|].
      intros y [= <-]. apply find_some in Ef. destruct Ef as [_ Ef].
      apply String.eqb_eq in Ef. rewrite Ef. auto.
    + destruct (JS.truthy (JS.trim v)) eqn:Et; cbn.
      * apply PharmacyFacts.truthy_true_iff in Et.
        split; [tauto|]. repeat (split; [reflexivity|]).
        split; [split; [reflexivity|discriminate]|discriminate].
      * apply PharmacyFacts.truthy_false_iff in Et.
        split; [split; [discriminate|intros [_ H]; contradiction]|].
        repeat (split; [reflexivity|]).
        split; [split; [intros H; contradiction|discriminate]|discriminate].
  - intros st r posted. unfold handleSubmit.
    destruct (validate st) eqn:Hv; cbn [snd]; [discriminate|].
    intros [= <-]. cbn [invoiceData phone_no]. split; [reflexivity|].
    intros Hnew. unfold validate in Hv.
    destruct (negb (JS.truthy (JS.trim (patientName (patient st)))));
      [discriminate|].
    destruct (List.length (billItems st) =? 0)%nat; [discriminate|].
    destruct (negb (JS.truthy (paymentMode (payment st)))); [discriminate|].
    rewrite Hnew in Hv. cbn [andb] in Hv.
    destruct (JS.truthy (phoneNo (patient st))) eqn:Ep.
    * destruct (JS.tenDigits (phoneNo (patient st))); [auto|discriminate].
    * apply PharmacyFacts.truthy_false_iff in Ep. auto.
  - intros st v Hnew. unfold validate.
    rewrite finalAmount_withPhone. cbn [withPhone setPatient patient payment
      billItems patientName phoneNo isNewPatient].
    rewrite Hnew. reflexivity.
Qed.

End PharmacyPatientFacts.

(** ** Properties of the rounding to binary64 *)

Module Binary64Facts.
Import Binary64.
Local Open Scope Q_scope.

Lemma pow2_pos (z : Z) : 0 < pow2 z.
Proof. apply Qpower_0_lt. reflexivity. Qed.

Lemma pow2_add (a b : Z) : pow2 (a + b) == pow2 a * pow2 b.
Proof. apply Qpower_plus. discriminate. Qed.

Lemma pow2_le (a b : Z) : (a <= b)%Z -> pow2 a <= pow2 b.
Proof. intros H. apply Qpower_le_compat_l; [exact H|discriminate]. Qed.

Lemma pow2_lt (a b : Z) : (a < b)%Z -> pow2 a < pow2 b.
Proof. intros H. apply Qpower_lt_compat_l; [exact H|reflexivity]. Qed.

Lemma pow2_lt_inv (a b : Z) : pow2 a < pow2 b -> (a < b)%Z.
Proof. intros H. apply (Qpower_lt_compat_l_inv 2); [exact H|reflexivity]. Qed.

Lemma pow2_Z (n : Z) : (0 <= n)%Z -> pow2 n == inject_Z (2 ^ n).
Proof. intros H. symmetry. exact (Zpower_Qpower 2 n H). Qed.

Lemma pow2_split (a b : Z) : pow2 a == pow2 (a - b) * pow2 b.
Proof. rewrite <- pow2_add. replace (a - b + b)%Z with a by lia. reflexivity. Qed.

(** [ilog2 a] is the exponent of the power of two at or below [a]. *)
Lemma ilog2_spec (a : Q) :
  0 < a -> pow2 (ilog2 a) <= a /\ a < pow2 (ilog2 a + 1).
Proof.
  intros Ha. destruct a as [n d].
  assert (Hn : (0 < n)%Z) by (unfold Qlt in Ha; simpl in Ha; lia).
  unfold ilog2. cbn [Qnum Qden].
  destruct (Z.log2_spec n Hn) as [Hn1 Hn2].
  destruct (Z.log2_spec (Zpos d) eq_refl) as [Hd1 Hd2].
  set (ln := Z.log2 n) in *. set (ld := Z.log2 (Zpos d)) in *.
  assert (Hln : (0 <= ln)%Z) by apply Z.log2_nonneg.
  assert (Hld : (0 <= ld)%Z) by apply Z.log2_nonneg.
  assert (HN1 : pow2 ln <= inject_Z n)
    by (rewrite pow2_Z by exact Hln; rewrite <- Zle_Qle; exact Hn1).
  assert (HN2 : inject_Z n < pow2 (ln + 1))
    by (rewrite pow2_Z by lia; rewrite <- Zlt_Qlt; exact Hn2).
  assert (HD1 : pow2 ld <= inject_Z (Zpos d))
    by (rewrite pow2_Z by exact Hld; rewrite <- Zle_Qle; exact Hd1).
  assert (HD2 : inject_Z (Zpos d) < pow2 (ld + 1))
    by (rewrite pow2_Z by lia; rewrite <- Zlt_Qlt; exact Hd2).
  assert (HaD : (n # d) * inject_Z (Zpos d) == inject_Z n).
  { unfold Qeq, Qmult, inject_Z. simpl. lia. }
  assert (HDpos : 0 < inject_Z (Zpos d)) by reflexivity.
  pose proof (pow2_split (ln + 1) ld) as Hup.
  pose proof (pow2_split ln (ld + 1)) as Hlo.
  replace (ln + 1 - ld)%Z with (ln - ld + 1)%Z in Hup by lia.
  replace (ln - (ld + 1))%Z with (ln - ld - 1)%Z in Hlo by lia.
  pose proof (pow2_pos (ln - ld + 1)) as Hp1.
  pose proof (pow2_pos (ln - ld - 1)) as Hp2.
  pose proof (pow2_pos ld) as Hp3.
  destruct (Qle_bool (pow2 (ln - ld)) (n # d)) eqn:E.
  - apply Qle_bool_iff in E. split; [exact E|].
    apply (Qmult_lt_r _ _ (inject_Z (Zpos d))); [exact HDpos|].
    rewrite HaD.
    revert HN2 HD1 Hup Hp1 Hp3.
    generalize (pow2 (ln - ld + 1)) (pow2 (ln + 1)) (pow2 ld)
               (inject_Z n) (inject_Z (Zpos d)).
    intros A P B N D. intros. rewrite Hup in HN2. nra.
  - assert (E' : (n # d) < pow2 (ln - ld)).
    { apply Qnot_le_lt. intro H. apply Qle_bool_iff in H. congruence. }
    replace (ln - ld - 1 + 1)%Z with (ln - ld)%Z by lia.
    split; [|exact E'].
    apply (Qmult_le_r _ _ (inject_Z (Zpos d))); [exact HDpos|].
    rewrite HaD.
    revert HN1 HD2 Hlo Hp2.
    generalize (pow2 (ln - ld - 1)) (pow2 ln) (pow2 (ld + 1))
               (inject_Z n) (inject_Z (Zpos d)).
    intros A P B N D. intros. rewrite Hlo in HN1. nra.
Qed.

Lemma ilog2_lt (a : Q) (k : Z) : 0 < a -> a < pow2 k -> (ilog2 a < k)%Z.
Proof.
  intros Ha H. destruct (ilog2_spec a Ha) as [H1 _].
  apply pow2_lt_inv. eapply Qle_lt_trans; eassumption.
Qed.

Lemma ilog2_ge (a : Q) (k : Z) : 0 < a -> pow2 k <= a -> (k <= ilog2 a)%Z.
Proof.
  intros Ha H. destruct (ilog2_spec a Ha) as [_ H2].
  assert (pow2 k < pow2 (ilog2 a + 1)) by (eapply Qle_lt_trans; eassumption).
  apply pow2_lt_inv in H0. lia.
Qed.

Lemma ilog2_mono (a b : Q) : 0 < a -> a <= b -> (ilog2 a <= ilog2 b)%Z.
Proof.
  intros Ha H. apply ilog2_ge; [eapply Qlt_le_trans; eassumption|].
  destruct (ilog2_spec a Ha) as [H1 _]. eapply Qle_trans; eassumption.
Qed.

Lemma ilog2_pow2 (k : Z) : ilog2 (pow2 k) = k.
Proof.
  pose proof (pow2_pos k) as Hp.
  pose proof (ilog2_lt (pow2 k) (k + 1) Hp (pow2_lt k (k + 1) ltac:(lia))).
  pose proof (ilog2_ge (pow2 k) k Hp (Qle_refl _)). lia.
Qed.


(** *** The nearest integer, ties to even *)

Lemma nearestEven_floor (q : Q) :
  nearestEven q = Qfloor q \/ nearestEven q = (Qfloor q + 1)%Z.
Proof.
  unfold nearestEven. destruct (Qcompare _ _); [|auto..].
  destruct (Z.even _); auto.
Qed.

Lemma nearestEven_comp (q q' : Q) : q == q' -> nearestEven q = nearestEven q'.
Proof.
  intros H. unfold nearestEven. rewrite (Qfloor_comp q q' H).
  assert (E : q - inject_Z (Qfloor q') == q' - inject_Z (Qfloor q'))
    by (rewrite H; reflexivity).
  rewrite (Qcompare_comp _ _ E (1 # 2) (1 # 2) (Qeq_refl _)). reflexivity.
Qed.

Lemma nearestEven_Z (m : Z) : nearestEven (inject_Z m) = m.
Proof.
  unfold nearestEven. rewrite Qfloor_Z.
  destruct (Qcompare_spec (inject_Z m - inject_Z m) (1 # 2)) as [H|H|H];
    [exfalso; lra|reflexivity|exfalso; lra].
Qed.

Lemma nearestEven_ge (q : Q) (z : Z) :
  inject_Z z <= q -> (z <= nearestEven q)%Z.
Proof.
  intros H. apply Qfloor_resp_le in H. rewrite Qfloor_Z in H.
  destruct (nearestEven_floor q) as [E|E]; rewrite E; lia.
Qed.

Lemma nearestEven_le (q : Q) (z : Z) :
  q <= inject_Z z -> (nearestEven q <= z)%Z.
Proof.
  intros H. pose proof (Qfloor_resp_le _ _ H) as Hf. rewrite Qfloor_Z in Hf.
  destruct (Z.eq_dec (Qfloor q) z) as [E|E].
  - assert (Hq : q == inject_Z z).
    { apply Qle_antisym; [exact H|]. rewrite <- E. apply Qfloor_le. }
    rewrite (nearestEven_comp _ _ Hq), nearestEven_Z. lia.
  - destruct (nearestEven_floor q) as [E'|E']; rewrite E'; lia.
Qed.

Lemma nearestEven_mono (q q' : Q) :
  q <= q' -> (nearestEven q <= nearestEven q')%Z.
Proof.
  intros H. pose proof (Qfloor_resp_le _ _ H) as Hf.
  destruct (Z.eq_dec (Qfloor q) (Qfloor q')) as [E|E].
  - unfold nearestEven. rewrite <- E.
    destruct (Qcompare_spec (q - inject_Z (Qfloor q)) (1 # 2)) as [H1|H1|H1];
    destruct (Qcompare_spec (q' - inject_Z (Qfloor q)) (1 # 2)) as [H2|H2|H2];
      try lia; try (destruct (Z.even (Qfloor q)); lia); exfalso; lra.
  - destruct (nearestEven_floor q) as [E1|E1];
    destruct (nearestEven_floor q') as [E2|E2]; rewrite E1, E2; lia.
Qed.

(** The nearest integer is within one half. *)
Lemma nearestEven_close (q : Q) :
  Qabs (inject_Z (nearestEven q) - q) <= 1 # 2.
Proof.
  pose proof (Qfloor_le q) as H1. pose proof (Qlt_floor q) as H2.
  unfold nearestEven.
  destruct (Qcompare_spec (q - inject_Z (Qfloor q)) (1 # 2)) as [H|H|H];
    [destruct (Z.even (Qfloor q))| |];
    rewrite ?inject_Z_plus in *; apply Qabs_Qle_condition;
    change (inject_Z 1) with 1 in *; split; lra.
Qed.

(** *** Rounding a positive number *)

Lemma exponent_ge (a : Q) : (-1074 <= exponent a)%Z.
Proof. unfold exponent. lia. Qed.

Lemma div_pow2 (a : Q) (e : Z) : a / pow2 e * pow2 e == a.
Proof.
  pose proof (pow2_pos e). field. intro E. rewrite E in H. discriminate.
Qed.

Lemma roundPositive_nonneg (a : Q) : 0 <= a -> 0 <= roundPositive a.
Proof.
  intros Ha. unfold roundPositive.
  pose proof (pow2_pos (exponent a)) as Hp.
  apply Qmult_le_0_compat; [|lra].
  change 0 with (inject_Z 0). rewrite <- Zle_Qle. apply nearestEven_ge.
  apply Qle_shift_div_l; [exact Hp|]. change (inject_Z 0) with 0. lra.
Qed.

Lemma roundPositive_upper (a : Q) :
  0 < a -> roundPositive a <= pow2 (Z.max (ilog2 a) (-1022) + 1).
Proof.
  intros Ha. unfold roundPositive, exponent.
  set (k := Z.max (ilog2 a) (-1022)).
  pose proof (pow2_pos (k - 52)) as Hp.
  assert (Hn : (nearestEven (a / pow2 (k - 52)) <= 2 ^ 53)%Z).
  { apply nearestEven_le. rewrite <- pow2_Z by lia.
    apply Qle_shift_div_r; [exact Hp|]. rewrite <- pow2_add.
    replace (53 + (k - 52))%Z with (k + 1)%Z by lia.
    destruct (ilog2_spec a Ha) as [_ H]. apply Qlt_le_weak.
    eapply Qlt_le_trans; [exact H|]. apply pow2_le. lia. }
  rewrite (pow2_split (k + 1) (k - 52)).
  replace (k + 1 - (k - 52))%Z with 53%Z by lia.
  apply Qmult_le_compat_r; [|lra].
  rewrite (pow2_Z 53) by lia. rewrite <- Zle_Qle. exact Hn.
Qed.

Lemma roundPositive_lower (a : Q) :
  0 < a -> (-1022 <= ilog2 a)%Z -> pow2 (ilog2 a) <= roundPositive a.
Proof.
  intros Ha Hj. unfold roundPositive, exponent.
  replace (Z.max (ilog2 a) (-1022)) with (ilog2 a) by lia.
  set (k := ilog2 a).
  pose proof (pow2_pos (k - 52)) as Hp.
  assert (Hn : (2 ^ 52 <= nearestEven (a / pow2 (k - 52)))%Z).
  { apply nearestEven_ge. rewrite <- pow2_Z by lia.
    apply Qle_shift_div_l; [exact Hp|]. rewrite <- pow2_add.
    replace (52 + (k - 52))%Z with k by lia. apply (ilog2_spec a Ha). }
  rewrite (pow2_split k (k - 52)) at 1.
  replace (k - (k - 52))%Z with 52%Z by lia.
  apply Qmult_le_compat_r; [|lra].
  rewrite (pow2_Z 52) by lia. rewrite <- Zle_Qle. exact Hn.
Qed.

Lemma roundPositive_comp (a b : Q) :
  a = b -> roundPositive a = roundPositive b.
Proof. intros ->. reflexivity. Qed.

Lemma roundPositive_mono (a b : Q) :
  0 < a -> a <= b -> roundPositive a <= roundPositive b.
Proof.
  intros Ha H. assert (Hb : 0 < b) by lra.
  pose proof (ilog2_mono a b Ha H) as Hl.
  destruct (Z.eq_dec (exponent a) (exponent b)) as [E|E].
  - unfold roundPositive. rewrite E.
    pose proof (pow2_pos (exponent b)) as Hp.
    apply Qmult_le_compat_r; [|lra]. rewrite <- Zle_Qle.
    apply nearestEven_mono. apply Qle_shift_div_l; [exact Hp|].
    rewrite div_pow2. exact H.
  - unfold exponent in E.
    assert (Hk : (Z.max (ilog2 a) (-1022) + 1 <= ilog2 b)%Z) by lia.
    eapply Qle_trans; [apply roundPositive_upper; exact Ha|].
    eapply Qle_trans; [apply pow2_le; exact Hk|].
    apply roundPositive_lower; [exact Hb|lia].
Qed.

(** A positive number on the grid of its own exponent is kept. *)
Lemma roundPositive_grid (y : Q) (m j : Z) :
  0 < y -> y == inject_Z m * pow2 j -> (exponent y <= j)%Z ->
  roundPositive y == y.
Proof.
  intros Hy Hm Hj. unfold roundPositive.
  set (e := exponent y) in *.
  assert (E : y / pow2 e == inject_Z (m * 2 ^ (j - e))).
  { rewrite inject_Z_mult, <- pow2_Z by lia. rewrite Hm.
    rewrite (pow2_split j e). pose proof (pow2_pos e) as Hp.
    field. intro E. rewrite E in Hp. discriminate. }
  rewrite (nearestEven_comp _ _ E), nearestEven_Z, <- E.
  apply div_pow2.
Qed.

Lemma roundPositive_idem (a : Q) :
  0 < a -> 0 < roundPositive a ->
  roundPositive (roundPositive a) == roundPositive a.
Proof.
  intros Ha Hy.
  pose proof (roundPositive_upper a Ha) as Hu.
  set (k := Z.max (ilog2 a) (-1022)) in *.
  assert (Hn : (nearestEven (a / pow2 (k - 52)) <= 2 ^ 53)%Z).
  { apply nearestEven_le. rewrite <- pow2_Z by lia.
    pose proof (pow2_pos (k - 52)) as Hp.
    apply Qle_shift_div_r; [exact Hp|]. rewrite <- pow2_add.
    replace (53 + (k - 52))%Z with (k + 1)%Z by lia.
    destruct (ilog2_spec a Ha) as [_ H]. apply Qlt_le_weak.
    eapply Qlt_le_trans; [exact H|]. apply pow2_le. lia. }
  destruct (Z.eq_dec (nearestEven (a / pow2 (k - 52))) (2 ^ 53)) as [E|E].
  - assert (Ey : roundPositive a == pow2 (k + 1)).
    { unfold roundPositive, exponent. fold k. rewrite E.
      rewrite <- pow2_Z, <- pow2_add by lia.
      replace (53 + (k - 52))%Z with (k + 1)%Z by lia. reflexivity. }
    apply (roundPositive_grid _ 1 (k + 1)); [exact Hy| |].
    + rewrite Ey. change (inject_Z 1) with 1. ring.
    + unfold exponent.
      assert (ilog2 (roundPositive a) = (k + 1)%Z).
      { assert (H1 : roundPositive a < pow2 (k + 2))
          by (rewrite Ey; apply pow2_lt; lia).
        assert (H2 : pow2 (k + 1) <= roundPositive a)
          by (rewrite Ey; apply Qle_refl).
        pose proof (ilog2_lt _ _ Hy H1). pose proof (ilog2_ge _ _ Hy H2).
        lia. }
      lia.
  - apply (roundPositive_grid _ (nearestEven (a / pow2 (k - 52))) (k - 52));
      [exact Hy|reflexivity|].
    assert (Hlt : roundPositive a < pow2 (k + 1)).
    { unfold roundPositive, exponent. fold k.
      rewrite (pow2_split (k + 1) (k - 52)).
      replace (k + 1 - (k - 52))%Z with 53%Z by lia.
      apply Qmult_lt_compat_r; [apply pow2_pos|].
      rewrite (pow2_Z 53) by lia. rewrite <- Zlt_Qlt. lia. }
    pose proof (ilog2_lt _ _ Hy Hlt). unfold exponent. lia.
Qed.


(** *** Rounding *)

(** Some binary64 numbers: 0.1, 0.01 and 65.01 as the code has them; the
    difference [10 - 0.005]; a tie that goes to the even neighbour, above
    2^53 and among the subnormal numbers; and the underflow to zero. *)
Lemma round_examples :
  round (1 # 10) = 3602879701896397 # 36028797018963968
  /\ round (1 # 100) = 5764607523034235 # 576460752303423488
  /\ round (6501 # 100) = 4574672058989937 # 70368744177664
  /\ round (10 - round (5 # 1000)) = 5626684784446013 # 562949953421312
  /\ round (inject_Z (2 ^ 53 + 1)) == inject_Z (2 ^ 53)
  /\ round (inject_Z (2 ^ 53 + 3)) == inject_Z (2 ^ 53 + 4)
  /\ round (3 * pow2 (-1075)) == pow2 (-1073)
  /\ round (pow2 (-1075)) == 0
  /\ round (1 # 10 ^ 400) == 0.
Proof. vm_compute. repeat split. Qed.

Lemma Qred_idem (q : Q) : Qred (Qred q) = Qred q.
Proof. apply Qred_complete, Qred_correct. Qed.

Lemma Qopp_opp (q : Q) : - - q = q.
Proof. destruct q as [n d]. unfold Qopp. simpl. rewrite Z.opp_involutive. reflexivity. Qed.

Lemma round_comp (x y : Q) : x == y -> round x = round y.
Proof. intros H. unfold round. rewrite (Qred_complete _ _ H). reflexivity. Qed.

Lemma round_zero : round 0 = 0.
Proof. reflexivity. Qed.

Lemma round_pos (x : Q) : 0 < x -> round x = Qred (roundPositive (Qred x)).
Proof.
  intros H. unfold round. rewrite <- (Qred_correct x) in H.
  destruct (Qcompare_spec (Qred x) 0) as [E|E|E];
    [exfalso; lra|exfalso; lra|reflexivity].
Qed.

Lemma round_neg (x : Q) :
  x < 0 -> round x = Qred (- roundPositive (Qred (- x))).
Proof.
  intros H. unfold round. rewrite <- (Qred_correct x) in H.
  destruct (Qcompare_spec (Qred x) 0) as [E|E|E];
    [exfalso; lra| |exfalso; lra].
  rewrite (Qred_opp x). reflexivity.
Qed.

Lemma round_opp (x : Q) : round (- x) = - round x.
Proof.
  destruct (Q_dec x 0) as [[H|H]|H].
  - rewrite (round_neg x H), round_pos by lra.
    rewrite (Qred_opp (roundPositive _)), Qopp_opp. reflexivity.
  - rewrite (round_pos x H), round_neg by lra.
    rewrite Qopp_opp, Qred_opp. reflexivity.
  - rewrite (round_comp x 0 H), (round_comp (- x) 0) by (rewrite H; reflexivity).
    reflexivity.
Qed.

Lemma round_nonneg (x : Q) : 0 <= x -> 0 <= round x.
Proof.
  intros H. destruct (Qle_lt_or_eq _ _ H) as [H'|H'].
  - rewrite (round_pos x H'), Qred_correct. apply roundPositive_nonneg.
    rewrite Qred_correct. exact H.
  - rewrite (round_comp x 0) by (symmetry; exact H'). apply Qle_refl.
Qed.

Lemma round_nonpos (x : Q) : x <= 0 -> round x <= 0.
Proof.
  intros H. assert (H' : 0 <= round (- x)) by (apply round_nonneg; lra).
  rewrite round_opp in H'. lra.
Qed.

Lemma round_mono_pos (x y : Q) : 0 < x -> x <= y -> round x <= round y.
Proof.
  intros Hx H. rewrite (round_pos x Hx), (round_pos y) by lra.
  apply Qred_le. apply roundPositive_mono; rewrite ?Qred_le; rewrite ?Qred_correct;
    assumption.
Qed.

(** Rounding keeps the order. *)
Lemma round_mono (x y : Q) : x <= y -> round x <= round y.
Proof.
  intros H. destruct (Qlt_le_dec 0 x) as [Hx|Hx].
  - apply round_mono_pos; assumption.
  - destruct (Qlt_le_dec y 0) as [Hy|Hy].
    + assert (H' : round (- y) <= round (- x))
        by (apply round_mono_pos; lra).
      rewrite !round_opp in H'. lra.
    + pose proof (round_nonpos x Hx). pose proof (round_nonneg y Hy). lra.
Qed.

Lemma round_idem_pos (x : Q) : 0 < x -> round (round x) = round x.
Proof.
  intros Hx. pose proof (round_nonneg x (Qlt_le_weak _ _ Hx)) as Hy.
  destruct (Qle_lt_or_eq _ _ Hy) as [Hy'|Hy'].
  - rewrite (round_pos (round x) Hy'). rewrite (round_pos x Hx) at 2.
    apply Qred_complete.
    assert (Hx' : 0 < Qred x) by (rewrite Qred_correct; exact Hx).
    assert (Hr : Qred (round x) == roundPositive (Qred x))
      by (rewrite (round_pos x Hx), !Qred_correct; reflexivity).
    assert (Hp : 0 < roundPositive (Qred x))
      by (rewrite <- Hr, Qred_correct; exact Hy').
    rewrite <- (roundPositive_idem (Qred x) Hx' Hp).
    apply Qle_antisym; apply roundPositive_mono;
      rewrite ?Hr; try exact Hp; try apply Qle_refl.
  - rewrite (round_comp (round x) 0) by (symmetry; exact Hy').
    rewrite round_zero. rewrite (round_pos x Hx) in *.
    rewrite <- (Qred_idem (roundPositive (Qred x))).
    change 0 with (Qred 0) at 1. apply Qred_complete. exact Hy'.
Qed.

(** A rounded number is a binary64 number: rounding it again keeps it. *)
Lemma round_idem (x : Q) : round (round x) = round x.
Proof.
  destruct (Q_dec x 0) as [[H|H]|H].
  - assert (E : round x = - round (- x))
      by (rewrite round_opp, Qopp_opp; reflexivity).
    rewrite E, round_opp, round_idem_pos by lra. reflexivity.
  - apply round_idem_pos. exact H.
  - rewrite (round_comp x 0 H). reflexivity.
Qed.

Lemma round_abs (x : Q) : Qabs (round x) == round (Qabs x).
Proof.
  destruct (Qlt_le_dec x 0) as [H|H].
  - rewrite (round_comp (Qabs x) (- x)) by (apply Qabs_neg; lra).
    rewrite round_opp. apply Qabs_neg. apply round_nonpos. lra.
  - rewrite (round_comp (Qabs x) x) by (apply Qabs_pos; exact H).
    apply Qabs_pos. apply round_nonneg. exact H.
Qed.

(** Every binary64 number is a multiple of 2^-1074. *)
Lemma round_grid (x : Q) : exists m : Z, round x == inject_Z m * pow2 (-1074).
Proof.
  assert (Hpos : forall a, exists m,
            roundPositive a == inject_Z m * pow2 (-1074)).
  { intros a. unfold roundPositive. pose proof (exponent_ge a) as He.
    exists (nearestEven (a / pow2 (exponent a)) * 2 ^ (exponent a + 1074))%Z.
    rewrite inject_Z_mult, <- pow2_Z by lia.
    rewrite <- Qmult_assoc, <- pow2_add.
    replace (exponent a + 1074 + -1074)%Z with (exponent a) by lia.
    reflexivity. }
  destruct (Q_dec x 0) as [[H|H]|H].
  - destruct (Hpos (Qred (- x))) as [m Hm]. exists (- m)%Z.
    rewrite (round_neg x H). rewrite (Qred_correct (- _)).
    rewrite Hm, inject_Z_opp. ring.
  - destruct (Hpos (Qred x)) as [m Hm]. exists m.
    rewrite (round_pos x H). rewrite (Qred_correct (roundPositive _)).
    exact Hm.
  - exists 0%Z. rewrite (round_comp x 0 H), round_zero.
    change (inject_Z 0) with 0. ring.
Qed.

Lemma round_least : round (pow2 (-1074)) == pow2 (-1074).
Proof.
  pose proof (pow2_pos (-1074)) as Hp.
  rewrite (round_pos _ Hp), Qred_correct.
  assert (Hq : 0 < Qred (pow2 (-1074))) by (rewrite Qred_correct; exact Hp).
  rewrite <- (Qred_correct (pow2 (-1074))) at 2.
  apply (roundPositive_grid _ 1 (-1074)); [exact Hq| |].
  - rewrite Qred_correct. change (inject_Z 1) with 1. ring.
  - unfold exponent.
    assert (ilog2 (Qred (pow2 (-1074))) = (-1074)%Z).
    { assert (H1 : Qred (pow2 (-1074)) < pow2 (-1073))
        by (rewrite Qred_correct; apply pow2_lt; lia).
      assert (H2 : pow2 (-1074) <= Qred (pow2 (-1074)))
        by (rewrite Qred_correct; apply Qle_refl).
      pose proof (ilog2_lt _ _ Hq H1). pose proof (ilog2_ge _ _ Hq H2). lia. }
    lia.
Qed.

(** The difference of two binary64 numbers does not round to zero
    unless they are equal (gradual underflow). *)
Lemma round_sub_pos (x y : Q) :
  round x < round y -> 0 < round (round y - round x).
Proof.
  intros H. destruct (round_grid x) as [mx Hx].
  destruct (round_grid y) as [my Hy].
  pose proof (pow2_pos (-1074)) as Hp.
  assert (Hm : (mx + 1 <= my)%Z).
  { rewrite Hx, Hy in H. apply Qmult_lt_r in H; [|exact Hp].
    rewrite <- Zlt_Qlt in H. lia. }
  assert (Hd : pow2 (-1074) <= round y - round x).
  { rewrite Hx, Hy. rewrite Zle_Qle, inject_Z_plus in Hm.
    change (inject_Z 1) with 1 in Hm. nra. }
  apply round_mono in Hd. rewrite round_least in Hd. lra.
Qed.

Lemma round_sub_sign (x y : Q) :
  (0 < round (round y - round x) <-> round x < round y)
  /\ (round (round y - round x) < 0 <-> round y < round x)
  /\ (round (round y - round x) == 0 <-> round x == round y).
Proof.
  assert (Hopp : round (round x - round y) == - round (round y - round x)).
  { rewrite <- round_opp. rewrite (round_comp (- (round y - round x))
                                     (round x - round y)) by ring.
    reflexivity. }
  destruct (Q_dec (round x) (round y)) as [[H|H]|H].
  - pose proof (round_sub_pos x y H). repeat split; intros; try lra.
  - pose proof (round_sub_pos y x H). rewrite Hopp in H0.
    repeat split; intros; try lra.
  - rewrite (round_comp (round y - round x) 0) by (rewrite H; ring).
    rewrite round_zero. repeat split; intros; try lra.
Qed.

End Binary64Facts.

(** ** Properties of the billing screen in binary64 *)

Module Pharmacy64Facts.
Import Pharmacy PharmacyRun Pharmacy64 Binary64Facts.

Local Open Scope Q_scope.

(** *** The lines of the bill *)

Lemma render64_billItems (a b : State) : billItems (render a b) = billItems b.
Proof.
  unfold render, paymentModeEffect.
  destruct (depsChanged a b); [|reflexivity].
  repeat match goal with |- context [if ?c then _ else _] => destruct c end;
    reflexivity.
Qed.

Lemma render64_itemCounter (a b : State) :
  itemCounter (render a b) = itemCounter b.
Proof.
  unfold render, paymentModeEffect.
  destruct (depsChanged a b); [|reflexivity].
  repeat match goal with |- context [if ?c then _ else _] => destruct c end;
    reflexivity.
Qed.

Lemma render64_patient (a b : State) : patient (render a b) = patient b.
Proof.
  unfold render, paymentModeEffect.
  destruct (depsChanged a b); [|reflexivity].
  repeat match goal with |- context [if ?c then _ else _] => destruct c end;
    reflexivity.
Qed.

(** The two ways [handleAddMedicine] ends. *)
Lemma handleAddMedicine64_cases (st : State) :
  (exists t, handleAddMedicine st = (st, Some t))
  \/ (exists med q,
        JS.truthy (selectedMedicine (medicine st)) = true
        /\ find (fun x => String.eqb (MName x) (selectedMedicine (medicine st)))
                (medicines (medicine st)) = Some med
        /\ JS.parseInt (quantity (medicine st)) = Some q
        /\ (0 < q <= CurrentStock med)%Z
        /\ handleAddMedicine st = (accept st (newItem st med q), None)).
Proof.
  unfold handleAddMedicine.
  destruct (JS.truthy (selectedMedicine (medicine st))) eqn:Hs; simpl;
    [|left; eauto].
  destruct (JS.truthy (quantity (medicine st))) eqn:Hq; simpl;
    [|left; eauto].
  destruct (find _ _) as [med|] eqn:Hf; [|left; eauto].
  destruct (JS.parseInt _) as [q|] eqn:Hp; [|left; eauto].
  destruct (q <=? 0)%Z eqn:H0; [left; eauto|].
  destruct (q >? CurrentStock med)%Z eqn:H1; [left; eauto|].
  right. exists med, q. repeat split; trivial.
  - apply Z.leb_gt in H0. exact H0.
  - rewrite Z.gtb_ltb in H1. apply Z.ltb_ge in H1. exact H1.
Qed.

(** What an event does to the lines: it keeps them, appends a line built
    by [newItem], filters them or empties them. *)
Lemma dispatch64_lines (e : Event) (st : State) :
  billItems (dispatch e st) = billItems st
  \/ (exists med q,
        billItems (dispatch e st) = (billItems st ++ [newItem st med q])%list)
  \/ (exists i,
        billItems (dispatch e st)
        = filter (fun item => negb (id item =? i)%Z) (billItems st))
  \/ billItems (dispatch e st) = [].
Proof.
  unfold dispatch. rewrite render64_billItems.
  destruct e; cbn [handle]; try (left; reflexivity).
  - destruct (handleAddMedicine64_cases st)
      as [[t Ht]|(med & q & _ & _ & _ & _ & Ha)].
    + rewrite Ht. left. reflexivity.
    + rewrite Ha. right. left. exists med, q. reflexivity.
  - right. right. left. exists i. reflexivity.
  - left. unfold handleClearAll. destruct (billItems st) eqn:E; simpl;
      rewrite ?E; reflexivity.
  - right. right. right. reflexivity.
  - right. right. right. reflexivity.
  - left. destruct (validate st); reflexivity.
  - destruct (PharmacyFacts.finishSubmit_bill r st) as [_ [H|H]];
      [left|right; right; right]; exact H.
Qed.

Lemma reachable64_run (es : list Event) (st : State) :
  reachable st -> reachable (run es st).
Proof.
  revert st. induction es as [|e es IH]; intros st H; simpl.
  - exact H.
  - apply IH. apply reach_dispatch. exact H.
Qed.

(** On every state of the screen the total of each line is the product of
    its price and its quantity, as [handleAddMedicine] computed it. *)
Lemma reachable64_consistent (st : State) :
  reachable st -> Forall lineConsistent (billItems st).
Proof.
  induction 1 as [|e st _ IH]; [constructor|].
  destruct (dispatch64_lines e st) as [H|[(med & q & H)|[(i & H)|H]]];
    rewrite H.
  - exact IH.
  - apply Forall_app. split; [exact IH|]. constructor; [|constructor].
    reflexivity.
  - apply PharmacyFacts.Forall_filter_keep. exact IH.
  - constructor.
Qed.

Lemma grandTotal64_subtotal (st : State) :
  Forall lineConsistent (billItems st) ->
  grandTotal st = subtotal (billItems st).
Proof.
  unfold grandTotal, subtotal. generalize 0. 
  induction (billItems st) as [|item L IH]; intros a H; [reflexivity|].
  inversion H as [|? ? Hi HL]; subst. cbn [fold_left].
  rewrite Hi. apply IH. exact HL.
Qed.

(** The subtotal is a binary64 number. *)
Lemma subtotal_round (L : list BillItem) :
  Binary64.round (subtotal L) = subtotal L.
Proof.
  unfold subtotal.
  assert (H : forall a, Binary64.round a = a ->
            Binary64.round
              (fold_left
                 (fun sum item =>
                    Binary64.add sum
                      (Binary64.mul (price item) (Binary64.ofInt (qty item))))
                 L a)
            = fold_left
                (fun sum item =>
                   Binary64.add sum
                     (Binary64.mul (price item) (Binary64.ofInt (qty item))))
                L a).
  { induction L as [|item L IH]; intros a Ha; [exact Ha|].
    cbn [fold_left]. apply IH. apply round_idem. }
  apply H. reflexivity.
Qed.

(** *** The final amount *)

Lemma max_zero_cases (x : Q) :
  (x <= 0 /\ JS.Math_max x 0 == 0) \/ (0 < x /\ JS.Math_max x 0 == x).
Proof.
  destruct (Qlt_le_dec 0 x) as [H|H].
  - right. split; [exact H|]. apply PharmacyFacts.max_zero_of_nonneg. lra.
  - left. split; [exact H|]. apply PharmacyFacts.max_zero_of_nonpos. exact H.
Qed.

Lemma max_zero_mono (x y : Q) :
  x <= y -> JS.Math_max x 0 <= JS.Math_max y 0.
Proof.
  intros H. destruct (max_zero_cases x) as [[Hx Ex]|[Hx Ex]];
    destruct (max_zero_cases y) as [[Hy Ey]|[Hy Ey]]; rewrite Ex, Ey; lra.
Qed.

Lemma max_zero_comp (x y : Q) : x == y -> JS.Math_max x 0 == JS.Math_max y 0.
Proof.
  intros H. apply Qle_antisym; apply max_zero_mono; rewrite H; apply Qle_refl.
Qed.

(** The number read from the discount cell. *)
Lemma discountValue_read (st : State) :
  match JS.parseFloat (discount (payment st)) with
  | Some x => discountValue st == Binary64.round x
  | None => discountValue st = 0
  end.
Proof.
  unfold discountValue, Binary64.parseFloat.
  destruct (JS.parseFloat (discount (payment st))); [|reflexivity].
  apply PharmacyFacts.orZero_some.
Qed.

(** The final amount, from the lines and the number read from the
    discount cell. *)
Lemma finalAmount_formula (st : State) :
  reachable st ->
  finalAmount st
  == Qmax (Binary64.round
             (subtotal (billItems st)
              - match JS.parseFloat (discount (payment st)) with
                | Some x => Binary64.round x
                | None => 0
                end)) 0.
Proof.
  intros Hr. unfold finalAmount, JS.Math_max, Binary64.sub.
  rewrite (grandTotal64_subtotal st (reachable64_consistent st Hr)).
  pose proof (discountValue_read st) as Hd.
  destruct (JS.parseFloat (discount (payment st))) as [x|].
  - rewrite (round_comp _ (subtotal (billItems st) - Binary64.round x))
      by (rewrite Hd; reflexivity).
    reflexivity.
  - rewrite Hd. reflexivity.
Qed.

Lemma finalAmount64_nonneg (st : State) : 0 <= finalAmount st.
Proof. apply PharmacyFacts.max_zero_nonneg. Qed.

(** With the discount cell emptied the final amount is the subtotal,
    clamped. *)
Lemma finalAmount_no_discount (st : State) :
  reachable st ->
  finalAmount (setDiscount "" st) == Qmax (subtotal (billItems st)) 0.
Proof.
  intros Hr. unfold finalAmount, JS.Math_max, Binary64.sub.
  change (grandTotal (setDiscount "" st)) with (grandTotal st).
  rewrite (grandTotal64_subtotal st (reachable64_consistent st Hr)).
  change (discountValue (setDiscount "" st)) with 0.
  rewrite (round_comp _ (subtotal (billItems st))) by ring.
  rewrite subtotal_round. reflexivity.
Qed.

(** C1 (amended).  On every state of the screen, with [L] the lines of
    the bill and [d] the number the discount cell reads as: the final
    amount is the subtotal of [L] minus [d], computed in binary64 and
    clamped at zero, and what the screen shows is that number written
    with two decimals, the nearest number of hundredths (the larger one
    at a tie), less than half a hundredth away from it.  The final amount
    is never negative; a discount that is the subtotal or more gives 0,
    shown as 0.00; a negative discount never lowers the final amount and
    raises it when the sum is a binary64 number; and for an empty bill
    the final amount is [max(-d, 0)].  A discount cell that does not read
    as a number counts as no discount. *)
Theorem final_amount_is_clamped_difference (st : State) :
  reachable st ->
  let L := billItems st in
  (forall x,
     JS.parseFloat (discount (payment st)) = Some x ->
     let d := Binary64.round x in
     finalAmount st == Qmax (Binary64.round (subtotal L - d)) 0
     /\ (subtotal L <= d ->
         finalAmount st == 0 /\ shownFinalAmount st = "0.00"%string)
     /\ (d < 0 -> finalAmount (setDiscount "" st) <= finalAmount st)
     /\ (d < 0 -> 0 <= subtotal L ->
         Binary64.round (subtotal L - d) == subtotal L - d ->
         finalAmount st == subtotal L - d
         /\ finalAmount (setDiscount "" st) < finalAmount st)
     /\ (L = [] -> finalAmount st == Qmax (- d) 0))
  /\ (JS.parseFloat (discount (payment st)) = None ->
      finalAmount st == Qmax (subtotal L) 0)
  /\ 0 <= finalAmount st
  /\ shownFinalAmount st = JS.toFixed2 (finalAmount st)
  /\ JS.parseFloat (shownFinalAmount st)
     = Some (JS.nearestCent (finalAmount st) # 100)
  /\ Qabs ((JS.nearestCent (finalAmount st) # 100) - finalAmount st)
     <= 1 # 200.
Proof.
  intros Hr L. pose proof (finalAmount_formula st Hr) as Hf. fold L in Hf.
  pose proof (finalAmount_no_discount st Hr) as Hn. fold L in Hn.
  split; [|split; [|split; [|split; [|split]]]].
  - intros x Hx d. rewrite Hx in Hf. fold d in Hf.
    split; [exact Hf|]. split; [|split; [|split]].
    + intros Hle.
      assert (H0 : finalAmount st == 0).
      { rewrite Hf. apply Q.max_r. apply round_nonpos. lra. }
      split; [exact H0|].
      unfold shownFinalAmount.
      rewrite (PharmacyMore.toFixed2_same _ _ H0). reflexivity.
    + intros Hd. rewrite Hf, Hn.
      apply max_zero_mono. rewrite <- (subtotal_round L) at 1.
      apply round_mono. lra.
    + intros Hd Hs He.
      assert (Hv : finalAmount st == subtotal L - d).
      { rewrite Hf, He. apply Q.max_l. lra. }
      split; [exact Hv|]. rewrite Hv, Hn, (Q.max_l _ _ Hs). lra.
    + intros HL. rewrite Hf. unfold JS.Math_max.
      apply max_zero_comp. rewrite HL. 
      change (subtotal []) with 0.
      rewrite (round_comp (0 - d) (- d)) by ring.
      rewrite round_opp. unfold d. rewrite round_idem. reflexivity.
  - intros Hx. rewrite Hx in Hf. rewrite Hf.
    rewrite (round_comp (subtotal L - 0) (subtotal L)) by ring.
    rewrite subtotal_round. reflexivity.
  - apply finalAmount64_nonneg.
  - reflexivity.
  - apply PharmacyFacts.parseFloat_toFixed2. apply finalAmount64_nonneg.
  - apply PharmacyFacts.nearestCent_close.
Qed.

(** Two lines, 2 at 10.00 and 3 at 15.00: a discount of 5.00 gives 60.00,
    a surcharge of 5 gives 70.00 and a discount of 70 gives 0.00. *)
Lemma final_amount_is_clamped_difference_witness :
  (finalAmount (twoLines "5.00") == 60
   /\ shownFinalAmount (twoLines "5.00") = "60.00"%string)
  /\ (finalAmount (twoLines "-5") == 70
      /\ finalAmount (setDiscount "" (twoLines "-5")) < finalAmount (twoLines "-5")
      /\ shownFinalAmount (twoLines "-5") = "70.00"%string)
  /\ (finalAmount (twoLines "70") == 0
      /\ shownFinalAmount (twoLines "70") = "0.00"%string).
Proof.
  assert (Hr : forall d, reachable (twoLines d))
    by (intros d; unfold twoLines;
        exact (reachable64_run _ initial reach_initial)).
  assert (H5 : JS.parseFloat (discount (payment (twoLines "5.00")))
               = Some (500 # 100)) by (vm_compute; reflexivity).
  assert (Hm : JS.parseFloat (discount (payment (twoLines "-5")))
               = Some (- 5)) by (vm_compute; reflexivity).
  assert (H70 : JS.parseFloat (discount (payment (twoLines "70")))
                = Some 70) by (vm_compute; reflexivity).
  split; [|split].
  - destruct (final_amount_is_clamped_difference _ (Hr "5.00"%string))
      as [H [_ [_ [Hs _]]]].
    destruct (H _ H5) as [Hf _].
    split; [|rewrite Hs; vm_compute; reflexivity].
    eapply Qeq_trans; [exact Hf|]. vm_compute. reflexivity.
  - destruct (final_amount_is_clamped_difference _ (Hr "-5"%string))
      as [H [_ [_ [Hs _]]]].
    destruct (H _ Hm) as [_ [_ [_ [Hup _]]]].
    assert (H1 : Binary64.round (- 5) < 0) by (vm_compute; reflexivity).
    assert (H2 : 0 <= subtotal (billItems (twoLines "-5")))
      by (vm_compute; discriminate).
    assert (H3 : Binary64.round (subtotal (billItems (twoLines "-5"))
                                 - Binary64.round (- 5))
                 == subtotal (billItems (twoLines "-5"))
                    - Binary64.round (- 5))
      by (vm_compute; reflexivity).
    destruct (Hup H1 H2 H3) as [Hv Hlt].
    split; [|split; [exact Hlt|rewrite Hs; vm_compute; reflexivity]].
    eapply Qeq_trans; [exact Hv|]. vm_compute. reflexivity.
  - destruct (final_amount_is_clamped_difference _ (Hr "70"%string))
      as [H _].
    destruct (H _ H70) as [_ [Hz _]].
    assert (H1 : subtotal (billItems (twoLines "70")) <= Binary64.round 70)
      by (vm_compute; discriminate).
    exact (Hz H1).
Defined.

(** C1 as first stated fails: what the screen shows is the final amount
    written with two decimals.  With one line of 1 at 10.00 and a
    discount of 0.004 the decimal [max(1 * 10 - 0.004, 0)] is 9.996 and
    the screen shows 10.00.  Nor is it the decimal rounded to hundredths:
    with a discount of 0.005 the decimal is 9.995, which written with two
    decimals is 10.00, while the binary64 number [10 - 0.005] is below
    9.995 and the screen shows 9.99. *)
Lemma shown_final_amount_is_rounded :
  map (fun item => (qty item, price item)) (billItems (oneLine "0.004"))
  = [(1%Z, 10)]
  /\ (exists x, JS.parseFloat (discount (payment (oneLine "0.004"))) = Some x
                /\ x == 0.004)
  /\ Qmax (inject_Z 1 * 10 - 0.004) 0 == 9.996
  /\ shownFinalAmount (oneLine "0.004") = "10.00"%string
  /\ ~ 10 == 9.996
  /\ (exists x, JS.parseFloat (discount (payment (oneLine "0.005"))) = Some x
                /\ x == 0.005)
  /\ JS.toFixed2 (Qmax (inject_Z 1 * 10 - 0.005) 0) = "10.00"%string
  /\ finalAmount (oneLine "0.005") < 9.995
  /\ shownFinalAmount (oneLine "0.005") = "9.99"%string.
Proof.
  split; [vm_compute; reflexivity|].
  split; [eexists; split; [vm_compute; reflexivity|vm_compute; reflexivity]|].
  split; [vm_compute; reflexivity|].
  split; [vm_compute; reflexivity|].
  split; [vm_compute; discriminate|].
  split; [eexists; split; [vm_compute; reflexivity|vm_compute; reflexivity]|].
  split; [vm_compute; reflexivity|].
  split; vm_compute; reflexivity.
Qed.

(** *** The payment check *)

Lemma validate64_payment (st : State) :
  otherChecksPass st ->
  validate st
  = if negb (JS.truthy (paymentMode (payment st)))
    then Some (SelectPaymentMode, warning)
    else if String.eqb (paymentMode (payment st)) "Both"
            && JS.gt (JS.Math_abs
                        (Binary64.sub
                           (Binary64.add (cashEntered st) (upiEntered st))
                           (finalAmount st)))
                     (Binary64.literal (1 # 100))
    then Some (SplitMustEqualTotal
                 (JS.toFixed2 (Binary64.add (cashEntered st) (upiEntered st)))
                 (JS.toFixed2 (finalAmount st)),
               error)
    else None.
Proof.
  intros (Hn & Hl & Hp). unfold validate. rewrite Hn. cbn [negb].
  destruct (billItems st) as [|item L]; [contradiction|]. cbn [List.length Nat.eqb].
  destruct (negb (JS.truthy (paymentMode (payment st)))); [reflexivity|].
  rewrite Hp. reflexivity.
Qed.

(** The two amounts of a split, from what the cells read as. *)
Lemma entered_read (text : string) :
  JS.orZero (Binary64.parseFloat text)
  == match JS.parseFloat text with
     | Some x => Binary64.round x
     | None => 0
     end.
Proof.
  unfold Binary64.parseFloat. destruct (JS.parseFloat text); [|reflexivity].
  apply PharmacyFacts.orZero_some.
Qed.

(** The binary64 number nearest to 0.01 is above 0.01, by less than
    10^-17. *)
Lemma tolerance_value :
  1 # 100 < Binary64.literal (1 # 100)
  /\ Binary64.literal (1 # 100) < (1 # 100) + (1 # 10 ^ 17)
  /\ Binary64.literal (1 # 100)
     < Binary64.round ((1 # 100) + (1 # 10 ^ 17)).
Proof. vm_compute. repeat split. Qed.

(** C2 (amended).  When the checks that are not about the payment pass,
    submission is blocked exactly when the payment mode is unset, or the
    mode is Both and the binary64 number [abs(cash + upi - finalAmount)]
    is above the binary64 number nearest to 0.01; [cash] and [upi] are
    the numbers the two cells read as, 0 for a cell that does not read as
    a number.  A blocked submission leaves the state as it is, posts
    nothing and shows a message: the violation is an error, not something
    corrected.  Measured on the binary64 numbers [cash + upi] and
    [finalAmount] themselves, a distance of 0.01 or less always proceeds,
    and a distance of 0.01 + 10^-17 or more is always blocked. *)
Theorem payment_validation_blocks_submission (st : State) (r : Reply) :
  otherChecksPass st ->
  let mode := paymentMode (payment st) in
  let read (text : string) :=
    match JS.parseFloat text with
    | Some x => Binary64.round x
    | None => 0
    end in
  let sum :=
    Binary64.round (read (cashAmount (payment st))
                    + read (upiAmount (payment st))) in
  let gap := Qabs (Binary64.round (sum - finalAmount st)) in
  let tolerance := Binary64.round (1 # 100) in
  (mode = ""%string ->
   handleSubmit st r = (st, Some (SelectPaymentMode, warning), None))
  /\ (mode = "Both"%string ->
      (tolerance < gap ->
       handleSubmit st r
       = (st,
          Some (SplitMustEqualTotal
                  (JS.toFixed2 sum) (JS.toFixed2 (finalAmount st)),
                error),
          None))
      /\ (gap <= tolerance ->
          handleSubmit st r = (settle st r, None, Some (invoiceData st)))
      /\ (Qabs (sum - finalAmount st) <= 1 # 100 -> gap <= tolerance)
      /\ ((1 # 100) + (1 # 10 ^ 17) <= Qabs (sum - finalAmount st) ->
          tolerance < gap))
  /\ (mode <> ""%string -> mode <> "Both"%string ->
      handleSubmit st r = (settle st r, None, Some (invoiceData st)))
  /\ (snd (handleSubmit st r) = None <->
      mode = ""%string \/ (mode = "Both"%string /\ tolerance < gap)).
Proof.
  intros Ho mode read sum gap tolerance.
  assert (Hsum : Binary64.add (cashEntered st) (upiEntered st) = sum).
  { unfold Binary64.add, sum, cashEntered, upiEntered. apply round_comp.
    rewrite !entered_read. reflexivity. }
  assert (Hv : validate st
               = if negb (JS.truthy mode)
                 then Some (SelectPaymentMode, warning)
                 else if String.eqb mode "Both" && JS.gt gap tolerance
                 then Some (SplitMustEqualTotal
                              (JS.toFixed2 sum)
                              (JS.toFixed2 (finalAmount st)),
                            error)
                 else None).
  { rewrite (validate64_payment st Ho), Hsum. reflexivity. }
  assert (Hclose : Qabs (sum - finalAmount st) <= 1 # 100 ->
                   gap <= tolerance).
  { intros H. unfold gap, tolerance. rewrite round_abs.
    apply round_mono. exact H. }
  assert (Hfar : (1 # 100) + (1 # 10 ^ 17) <= Qabs (sum - finalAmount st) ->
                 tolerance < gap).
  { intros H. unfold gap, tolerance. rewrite round_abs.
    apply round_mono in H.
    destruct tolerance_value as [_ [_ Ht]]. unfold Binary64.literal in Ht.
    lra. }
  unfold handleSubmit. rewrite Hv.
  destruct (JS.truthy mode) eqn:Hm; cbn [negb].
  - apply PharmacyFacts.truthy_true_iff in Hm.
    destruct (String.eqb mode "Both") eqn:Hb; cbn [andb].
    + apply String.eqb_eq in Hb.
      destruct (JS.gt gap tolerance) eqn:Hg.
      * apply PharmacyFacts.gt_true_iff in Hg.
        split; [intros; contradiction|].
        split; [intros _; split; [reflexivity|]|].
        { split; [intros; exfalso; lra|]. split; assumption. }
        split; [intros; contradiction|].
        cbn [snd]. split; [intros _; right; split; assumption|reflexivity].
      * apply PharmacyFacts.gt_false_iff in Hg.
        split; [intros; contradiction|].
        split; [intros _; split; [intros; exfalso; lra|]|].
        { split; [reflexivity|]. split; assumption. }
        split; [intros; contradiction|].
        cbn [snd]. split; [discriminate|].
        intros [H|[_ H]]; [contradiction|exfalso; lra].
    + apply String.eqb_neq in Hb.
      split; [intros; contradiction|].
      split; [intros; contradiction|].
      split; [reflexivity|].
      cbn [snd]. split; [discriminate|].
      intros [H|[H _]]; contradiction.
  - apply PharmacyFacts.truthy_false_iff in Hm.
    split; [reflexivity|].
    split; [intros H; rewrite Hm in H; discriminate|].
    split; [intros; contradiction|].
    cbn [snd]. split; [intros _; left; exact Hm|reflexivity].
Qed.

Lemma split_checks (cash upi : string) : otherChecksPass (split cash upi).
Proof. repeat split. vm_compute. discriminate. Qed.

(** The two lines, 65.00 in all: a split of 40 and 25 is posted, a split
    of 40 and 24 is blocked with an error, and so is a bill without a
    payment mode. *)
Lemma payment_validation_blocks_submission_witness :
  handleSubmit (split "40" "25") Sample.confirmed
  = (settle (split "40" "25") Sample.confirmed, None,
     Some (invoiceData (split "40" "25")))
  /\ handleSubmit (split "40" "24") Sample.confirmed
     = (split "40" "24",
        Some (SplitMustEqualTotal "64.00" "65.00", error), None)
  /\ handleSubmit (twoLines "") Sample.confirmed
     = (twoLines "", Some (SelectPaymentMode, warning), None).
Proof.
  split; [|split].
  - destruct (payment_validation_blocks_submission
                (split "40" "25") Sample.confirmed (split_checks _ _))
      as [_ [H _]].
    destruct (H ltac:(vm_compute; reflexivity)) as [_ [Hp _]].
    apply Hp. vm_compute. discriminate.
  - destruct (payment_validation_blocks_submission
                (split "40" "24") Sample.confirmed (split_checks _ _))
      as [_ [H _]].
    destruct (H ltac:(vm_compute; reflexivity)) as [Hb _].
    assert (Hg : Binary64.round (1 # 100)
                 < Qabs (Binary64.round
                           (Binary64.round (Binary64.round 40
                                            + Binary64.round 24)
                            - finalAmount (split "40" "24"))))
      by (vm_compute; reflexivity).
    apply Hb in Hg. rewrite Hg. vm_compute. reflexivity.
  - assert (Ho : otherChecksPass (twoLines "")).
    { repeat split. vm_compute. discriminate. }
    destruct (payment_validation_blocks_submission
                (twoLines "") Sample.confirmed Ho) as [H _].
    apply H. vm_compute. reflexivity.
Defined.

(** C2 as first stated fails: with a total of 65.00, cash 65.01 and UPI 0
    the decimals are exactly 0.01 apart, which the specification lets
    through, and the code blocks the submission: the binary64 number
    nearest to 65.01 is more than the binary64 number nearest to 0.01
    above 65. *)
Lemma one_cent_gap_is_blocked :
  paymentMode (payment (split "65.01" "0")) = "Both"%string
  /\ otherChecksPass (split "65.01" "0")
  /\ (exists c u,
        JS.parseFloat (cashAmount (payment (split "65.01" "0"))) = Some c
        /\ JS.parseFloat (upiAmount (payment (split "65.01" "0"))) = Some u
        /\ finalAmount (split "65.01" "0") == 65
        /\ Qabs (c + u - 65) == 1 # 100)
  /\ handleSubmit (split "65.01" "0") Sample.confirmed
     = (split "65.01" "0",
        Some (SplitMustEqualTotal "65.01" "65.00", error), None).
Proof.
  split; [vm_compute; reflexivity|].
  split; [apply split_checks|].
  split; [|vm_compute; reflexivity].
  eexists. eexists.
  split; [vm_compute; reflexivity|].
  split; [vm_compute; reflexivity|].
  split; vm_compute; reflexivity.
Qed.

(** *** The payment-mode effect *)

(** The render after the payment mode was switched to another value. *)
Lemma dispatch64_mode_switch (v : string) (st : State) :
  paymentMode (payment st) <> v ->
  dispatch (PaymentModeChosen v) st = paymentModeEffect (setPaymentMode v st).
Proof.
  intro H. unfold dispatch, render, depsChanged. simpl.
  apply String.eqb_neq in H. rewrite H. reflexivity.
Qed.

(** C6 (amended).  When the payment mode changes to Cash, whatever the
    two amount cells held, the cash cell is overwritten with the final
    amount written with two decimals ([finalAmount.toFixed(2)]) and the
    UPI cell with 0.00; the final amount itself is not changed by the
    switch.  What the cash cell then holds is the decimal numeral of the
    number of hundredths nearest to the final amount (the larger one at a
    tie), which is less than half a hundredth away from the final amount
    and need not be equal to it.  When the mode changes to UPI the same
    holds with the two cells exchanged. *)
Theorem mode_switch_fills_amount_cells (st : State) :
  (paymentMode (payment st) <> "Cash"%string ->
   let st' := dispatch (PaymentModeChosen "Cash") st in
   paymentMode (payment st') = "Cash"%string
   /\ cashAmount (payment st') = JS.toFixed2 (finalAmount st)
   /\ upiAmount (payment st') = "0.00"%string
   /\ finalAmount st' = finalAmount st
   /\ JS.parseFloat (cashAmount (payment st'))
      = Some (JS.nearestCent (finalAmount st) # 100)
   /\ JS.parseFloat (upiAmount (payment st')) = Some (0 # 100))
  /\ (paymentMode (payment st) <> "UPI"%string ->
      let st' := dispatch (PaymentModeChosen "UPI") st in
      paymentMode (payment st') = "UPI"%string
      /\ upiAmount (payment st') = JS.toFixed2 (finalAmount st)
      /\ cashAmount (payment st') = "0.00"%string
      /\ finalAmount st' = finalAmount st
      /\ JS.parseFloat (upiAmount (payment st'))
         = Some (JS.nearestCent (finalAmount st) # 100)
      /\ JS.parseFloat (cashAmount (payment st')) = Some (0 # 100))
  /\ Qabs ((JS.nearestCent (finalAmount st) # 100) - finalAmount st)
     <= 1 # 200.
Proof.
  pose proof (PharmacyFacts.parseFloat_toFixed2 (finalAmount st)
                (finalAmount64_nonneg st)) as Hread.
  split; [|split; [|apply PharmacyFacts.nearestCent_close]];
    intros H st'; unfold st'; rewrite (dispatch64_mode_switch _ st H);
    (split; [reflexivity|]); (split; [reflexivity|]);
    (split; [reflexivity|]); (split; [reflexivity|]);
    (split; [exact Hread|reflexivity]).
Qed.

(** The scenario of the specification: with a final amount of 60.00 and
    a split of 12 and 48 typed, choosing Cash fills 60.00 and 0.00, and
    choosing UPI fills 0.00 and 60.00. *)
Lemma mode_switch_fills_amount_cells_witness :
  (cashAmount (payment (split5 "12" "48")),
   upiAmount (payment (split5 "12" "48"))) = ("12", "48")%string
  /\ (cashAmount
        (payment (dispatch (PaymentModeChosen "Cash") (split5 "12" "48"))),
      upiAmount
        (payment (dispatch (PaymentModeChosen "Cash") (split5 "12" "48"))))
     = ("60.00", "0.00")%string
  /\ (cashAmount
        (payment (dispatch (PaymentModeChosen "UPI") (split5 "12" "48"))),
      upiAmount
        (payment (dispatch (PaymentModeChosen "UPI") (split5 "12" "48"))))
     = ("0.00", "60.00")%string.
Proof.
  split; [vm_compute; reflexivity|].
  assert (Hc : paymentMode (payment (split5 "12" "48")) <> "Cash"%string)
    by (vm_compute; discriminate).
  assert (Hu : paymentMode (payment (split5 "12" "48")) <> "UPI"%string)
    by (vm_compute; discriminate).
  assert (Hf : JS.toFixed2 (finalAmount (split5 "12" "48")) = "60.00"%string)
    by (vm_compute; reflexivity).
  destruct (mode_switch_fills_amount_cells (split5 "12" "48")) as [H1 [H2 _]].
  destruct (H1 Hc) as [_ [Hcash [Hupi _]]].
  destruct (H2 Hu) as [_ [Hupi' [Hcash' _]]].
  split.
  - rewrite Hcash, Hupi, Hf. reflexivity.
  - rewrite Hcash', Hupi', Hf. reflexivity.
Defined.

(** C6 as first stated fails: with a single line of 10.00 and a discount
    of 0.004 the final amount is between 9.995 and 9.997; switching to
    Cash writes 10.00 in the cash cell, which is not the final amount.
    With a discount of 0.005 the cell gets 9.99. *)
Lemma cash_cell_is_rounded :
  reachable (dispatch (PaymentModeChosen "Cash") (oneLine "0.004"))
  /\ paymentMode (payment (oneLine "0.004")) = ""%string
  /\ 9.995 < finalAmount (dispatch (PaymentModeChosen "Cash")
                            (oneLine "0.004")) < 9.997
  /\ cashAmount
       (payment (dispatch (PaymentModeChosen "Cash") (oneLine "0.004")))
     = "10.00"%string
  /\ JS.parseFloat "10.00" = Some (1000 # 100)
  /\ cashAmount
       (payment (dispatch (PaymentModeChosen "Cash") (oneLine "0.005")))
     = "9.99"%string.
Proof.
  split.
  { apply reach_dispatch. unfold oneLine.
    exact (reachable64_run _ initial reach_initial). }
  split; [vm_compute; reflexivity|].
  split; [vm_compute; split; reflexivity|].
  split; [vm_compute; reflexivity|].
  split; vm_compute; reflexivity.
Qed.

(** *** The amount cells follow the final amount *)

Lemma effect64_in_sync (st : State) : amountsInSync (paymentModeEffect st).
Proof.
  unfold paymentModeEffect, amountsInSync.
  destruct (String.eqb (paymentMode (payment st)) "Cash") eqn:Hc.
  - apply String.eqb_eq in Hc. simpl. rewrite Hc.
    split; [intros _; split; reflexivity|discriminate].
  - apply String.eqb_neq in Hc.
    destruct (String.eqb (paymentMode (payment st)) "UPI") eqn:Hu.
    + apply String.eqb_eq in Hu. simpl. rewrite Hu.
      split; [discriminate|intros _; split; reflexivity].
    + apply String.eqb_neq in Hu.
      destruct (String.eqb (paymentMode (payment st)) "Both");
        simpl; split; intro H; contradiction.
Qed.

(** A handler on offer either leaves the screen in a mode that is neither
    Cash nor UPI, or leaves the two amount cells alone. *)
Lemma handle64_amount_cells (e : Event) (st : State) :
  PharmacyScreen.offered e st = true ->
  (paymentMode (payment (handle e st)) <> "Cash"%string
   /\ paymentMode (payment (handle e st)) <> "UPI"%string)
  \/ (cashAmount (payment (handle e st)) = cashAmount (payment st)
      /\ upiAmount (payment (handle e st)) = upiAmount (payment st)).
Proof.
  intro Ho. destruct e; cbn [handle PharmacyScreen.offered] in *;
    try (right; split; reflexivity).
  - destruct (handleAddMedicine64_cases st)
      as [[t Ht]|(med & q & _ & _ & _ & _ & Ha)];
      [rewrite Ht|rewrite Ha]; right; split; reflexivity.
  - right. unfold handleClearAll. destruct (billItems st); split; reflexivity.
  - apply String.eqb_eq in Ho. left. simpl. rewrite Ho.
    split; discriminate.
  - apply String.eqb_eq in Ho. left. simpl. rewrite Ho.
    split; discriminate.
  - left. split; discriminate.
  - right. destruct (validate st); split; reflexivity.
  - destruct (Spec.succeeded r) eqn:Hs.
    + destruct r as [msg|d]; [discriminate|]. simpl in Hs.
      rewrite (PharmacyFacts.finishSubmit_success d st Hs).
      left. split; discriminate.
    + destruct (PharmacyFacts.finishSubmit_failure r st Hs) as [text Ht].
      rewrite Ht. right. split; reflexivity.
Qed.

Lemma dispatch64_in_sync (e : Event) (st : State) :
  PharmacyScreen.offered e st = true ->
  amountsInSync st -> amountsInSync (dispatch e st).
Proof.
  intros Ho Hs. unfold dispatch, render.
  destruct (depsChanged st (handle e st)) eqn:Hd; [apply effect64_in_sync|].
  unfold depsChanged in Hd. apply orb_false_elim in Hd.
  destruct Hd as [Hm Hf].
  apply negb_false_iff, String.eqb_eq in Hm.
  apply negb_false_iff, Qeq_bool_iff in Hf.
  destruct (handle64_amount_cells e st Ho) as [[Hc Hu]|[Hc Hu]].
  - split; intro H; contradiction.
  - destruct Hs as [Hcash Hupi]. unfold amountsInSync.
    rewrite <- Hm, Hc, Hu, <- (PharmacyMore.toFixed2_same _ _ Hf).
    split; assumption.
Qed.

(** X1.  On every state reached through the controls the screen offers,
    the amount cells are in step with the final amount as the code
    computes it, in binary64: while the mode is Cash the cash cell holds
    the final amount written with two decimals and the UPI cell 0.00, and
    while the mode is UPI the other way round, whatever lines were added
    or removed and whatever discount was typed since the mode was
    chosen. *)
Theorem amount_cells_follow_final_amount (st : State) :
  onScreen st -> amountsInSync st.
Proof.
  induction 1 as [|e st _ IH Ho].
  - split; discriminate.
  - apply dispatch64_in_sync; assumption.
Qed.

(** Cash is chosen for the two lines, a third line is added and a
    discount of 2.5 typed: the cash cell follows, to 72.50; and with one
    line of 10.00, Cash chosen and a discount of 0.005 typed, to 9.99. *)
Lemma amount_cells_follow_final_amount_witness :
  (onScreen cashThenMore
   /\ paymentMode (payment cashThenMore) = "Cash"%string
   /\ cashAmount (payment cashThenMore) = JS.toFixed2 (finalAmount cashThenMore)
   /\ cashAmount (payment cashThenMore) = "72.50"%string)
  /\ (onScreen cashThenTie
      /\ paymentMode (payment cashThenTie) = "Cash"%string
      /\ cashAmount (payment cashThenTie)
         = JS.toFixed2 (finalAmount cashThenTie)
      /\ cashAmount (payment cashThenTie) = "9.99"%string).
Proof.
  assert (H1 : onScreen cashThenMore).
  { unfold cashThenMore, twoLines, run, fold_left.
    repeat (apply screen_dispatch; [|reflexivity]). apply screen_initial. }
  assert (H2 : onScreen cashThenTie).
  { unfold cashThenTie, run, fold_left.
    repeat (apply screen_dispatch; [|reflexivity]). apply screen_initial. }
  split.
  - split; [exact H1|]. split; [vm_compute; reflexivity|].
    split; [|vm_compute; reflexivity].
    apply (amount_cells_follow_final_amount _ H1). vm_compute. reflexivity.
  - split; [exact H2|]. split; [vm_compute; reflexivity|].
    split; [|vm_compute; reflexivity].
    apply (amount_cells_follow_final_amount _ H2). vm_compute. reflexivity.
Defined.

End Pharmacy64Facts.

(** ** Properties of the purchase entry in binary64 *)

Module Inventory64Facts.
Import Inventory Inventory64 Binary64Facts.

Local Open Scope Q_scope.

(** The two numbers [handleAddItem] computes with, from the details of
    the medicine and from the purchase price typed. *)
Lemma catalogMRP_read (st : State) :
  catalogMRP st
  == match medicineDetails st with
     | Some d => match MRP d with
                 | Some m => Binary64.round m
                 | None => 0
                 end
     | None => 0
     end.
Proof.
  unfold catalogMRP. destruct (medicineDetails st) as [d|]; [|reflexivity].
  destruct (MRP d) as [m|]; [|reflexivity].
  apply PharmacyFacts.orZero_some.
Qed.

Lemma unitPrice_read (st : State) :
  unitPrice st
  == match JS.parseFloat (purchasePrice st) with
     | Some x => Binary64.round x
     | None => 0
     end.
Proof. apply Pharmacy64Facts.entered_read. Qed.

(** C7.  A purchase line is added whenever a medicine is selected and the
    quantity is not refused, whatever the catalogue MRP and the price
    typed.  With [mrp] the MRP of the details loaded (0 when there are no
    details or they carry no MRP) and [p] the number the price cell reads
    as (0 when it does not read as a number), both binary64 numbers, the
    line stores the price [p] and the difference [mrp - p] as the code
    computes it, in binary64: it is positive exactly when the price is
    below the MRP, negative exactly when it is above and 0 exactly when
    they are equal; and with the MRP missing it is [- p], which is never
    positive for a price that is not negative. *)
Theorem price_difference_is_mrp_minus_price (st : State) :
  JS.truthy (selectedMedicine st) = true ->
  quantityRefused (entryQuantity st) = false ->
  let mrp :=
    match medicineDetails st with
    | Some d => match MRP d with
                | Some m => Binary64.round m
                | None => 0
                end
    | None => 0
    end in
  let p :=
    match JS.parseFloat (purchasePrice st) with
    | Some x => Binary64.round x
    | None => 0
    end in
  (exists item,
     items (handleAddItem st) = (items st ++ [item])%list
     /\ id item = (itemCounter st + 1)%Z
     /\ price item == p
     /\ difference item = Binary64.round (mrp - p)
     /\ (Binary64.round (mrp - p) == mrp - p -> difference item == mrp - p)
     /\ (0 < difference item <-> p < mrp)
     /\ (difference item < 0 <-> mrp < p)
     /\ (difference item == 0 <-> mrp == p)
     /\ (medicineDetails st = None
         \/ (exists d, medicineDetails st = Some d /\ MRP d = None) ->
         difference item == - p /\ (0 <= p -> difference item <= 0)))
  /\ (forall d text,
        exists item,
          items (handleAddItem (withPricing d text st))
          = (items st ++ [item])%list).
Proof.
  intros Hs Hq mrp p. split.
  - unfold handleAddItem. rewrite Hs, Hq. cbn [negb].
    eexists. split; [reflexivity|]. cbn [id price difference].
    split; [reflexivity|].
    split; [apply unitPrice_read|].
    assert (Hd : Binary64.sub (catalogMRP st) (unitPrice st)
                 = Binary64.round (mrp - p)).
    { unfold Binary64.sub. apply round_comp.
      rewrite catalogMRP_read, unitPrice_read. reflexivity. }
    rewrite Hd. split; [reflexivity|]. split; [intros H; exact H|].
    assert (Hm : exists a, mrp = Binary64.round a).
    { unfold mrp. destruct (medicineDetails st) as [d|]; [|exists 0; reflexivity].
      destruct (MRP d) as [m|]; [exists m|exists 0]; reflexivity. }
    assert (Hp : exists b, p = Binary64.round b).
    { unfold p. destruct (JS.parseFloat (purchasePrice st)) as [x|];
        [exists x|exists 0]; reflexivity. }
    destruct Hm as [a Ha]. destruct Hp as [b Hb].
    destruct (round_sub_sign b a) as [H1 [H2 H3]].
    rewrite <- Ha, <- Hb in H1, H2, H3.
    split; [exact H1|]. split; [exact H2|].
    split; [rewrite H3; split; intros H; rewrite H; reflexivity|].
    intros Hmiss.
    assert (H0 : mrp = 0).
    { unfold mrp. destruct Hmiss as [Hn|(d & Hn & Hn')]; rewrite Hn;
        [reflexivity|]. rewrite Hn'. reflexivity. }
    assert (He : Binary64.round (mrp - p) == - p).
    { rewrite H0. rewrite (round_comp (0 - p) (- p)) by ring.
      rewrite round_opp, Hb, round_idem. reflexivity. }
    split; [exact He|]. intros Hpos. rewrite He. lra.
  - intros d text. unfold handleAddItem.
    cbn [withPricing selectedMedicine entryQuantity items].
    rewrite Hs, Hq. cbn [negb]. eexists. reflexivity.
Qed.

(** The examples of the specification: buying at 80 with an MRP of 100
    gives 20, buying at 120 gives -20; and without an MRP buying at 120
    gives -120. *)
Lemma price_difference_is_mrp_minus_price_witness :
  Forall2 Qeq
    (map difference (items (handleAddItem (entry "10" "80" (Some 100)))))
    [20]
  /\ Forall2 Qeq
       (map difference (items (handleAddItem (entry "10" "120" (Some 100)))))
       [-20]
  /\ Forall2 Qeq
       (map difference (items (handleAddItem (entry "10" "120" None))))
       [-120].
Proof.
  assert (H : forall p m,
            exists item,
              items (handleAddItem (entry "10" p m)) = [item]
              /\ difference item
                 = Binary64.round
                     (match m with
                      | Some x => Binary64.round x
                      | None => 0
                      end
                      - match JS.parseFloat p with
                        | Some x => Binary64.round x
                        | None => 0
                        end)).
  { intros p m.
    destruct (price_difference_is_mrp_minus_price (entry "10" p m)
                eq_refl eq_refl) as [(item & Hi & _ & _ & Hd & _) _].
    exists item. split; [exact Hi|exact Hd]. }
  split; [|split].
  - destruct (H "80"%string (Some 100)) as (item & Hi & Hd).
    rewrite Hi. cbn [map]. rewrite Hd. repeat constructor.
  - destruct (H "120"%string (Some 100)) as (item & Hi & Hd).
    rewrite Hi. cbn [map]. rewrite Hd. repeat constructor.
  - destruct (H "120"%string None) as (item & Hi & Hd).
    rewrite Hi. cbn [map]. rewrite Hd. repeat constructor.
Defined.

End Inventory64Facts.
